(** * Tool Tester Engine (tools/tool_tester/engine.py)

    A shallow embedding of [ToolTesterEngine]: the per-tool test executor
    [test_tool], the two run operations [test_all_tools] and
    [test_single_tool], [generate_summary] and the top-level [run].

    The engine talks to the outside through the file system, child
    processes, the logger and two JSON files.  The outside is a [World]
    of oracles: what a probe of a path answers or raises, what a child
    does, what the manifest holds, whether the status file and the
    results file can be written.  What the engine does to the outside is
    recorded, in order, in a trace of [event]s carried by the engine
    state. *)

From stdpp Require Import gmap strings list fin_maps pretty.
From Stdlib Require Import ZArith QArith Qround Qpower Sorted Lia Lqa.
Close Scope Q_scope.

(** ** Double-precision arithmetic

    [int(((i + 1) / total_tools) * 100)] is computed in binary64: a true
    division of two ints, a product with [100.0], a truncation.  The three
    operations are modelled exactly on rationals: [round] is IEEE 754
    round-to-nearest, ties-to-even, to a 53-bit significand.  Exponent
    range (overflow, subnormals) is not modelled: the operands are list
    lengths, far inside the normal range. *)

Module Float64.
Local Open Scope Q_scope.

(** A finite double [mant * 2 ^ expo]. *)
Record double := Double { mant : Z; expo : Z }.

Definition val (x : double) : Q := inject_Z (mant x) * 2 ^ expo x.

(** [floor (log2 x)] for [0 < x]. *)
Definition ilog2 (x : Q) : Z :=
  let k := (Z.log2 (Qnum x) - Z.log2 (Zpos (Qden x)))%Z in
  if Qle_bool (2 ^ k) x then k else (k - 1)%Z.

(** Nearest integer, ties to even. *)
Definition rne (y : Q) : Z :=
  let f := Qfloor y in
  match Qcompare (y - inject_Z f) (1 # 2) with
  | Lt => f
  | Gt => (f + 1)%Z
  | Eq => if Z.even f then f else (f + 1)%Z
  end.

Definition round_pos (x : Q) : double :=
  let e := (ilog2 x - 52)%Z in
  {| mant := rne (x / 2 ^ e); expo := e |}.

Definition round (x : Q) : double :=
  match Qcompare x 0 with
  | Eq => {| mant := 0; expo := 0 |}
  | Gt => round_pos x
  | Lt => let r := round_pos (- x) in {| mant := - mant r; expo := expo r |}
  end.

(** [float(n)] *)
Definition of_int (n : Z) : double := round (inject_Z n).

(** [a / b] on two ints (correctly rounded true division). *)
Definition true_div (a b : Z) : double := round (inject_Z a / inject_Z b).

(** [x * y] on two floats. *)
Definition mul (x y : double) : double := round (val x * val y).

(** [int(x)]: truncation toward zero. *)
Definition to_int (x : double) : Z :=
  if Qle_bool 0 (val x) then Qfloor (val x) else Qceiling (val x).

End Float64.

(** [int((i / total_tools) * 100)]; the engine calls it at [i + 1]. *)
Definition progress_of (i total_tools : nat) : Z :=
  Float64.to_int
    (Float64.mul (Float64.true_div (Z.of_nat i) (Z.of_nat total_tools))
                 (Float64.of_int 100)).

(** ** Python values

    The values a manifest entry can hold once [json.load] has parsed it.
    Nested lists and objects and floats never take part in a computation
    of the engine other than [str], [==] and [type]: they are [AOther],
    carrying the name of their type ([float], [list], [dict]) and their
    [str].

    A [str] is modelled by its UTF-8 encoding, one [ascii] per byte. *)

Inductive atom :=
  | ANone
  | ABool (b : bool)
  | AInt (z : Z)
  | AStr (s : string)
  | AOther (type_name repr : string).

#[global] Instance atom_eq_dec : EqDecision atom.
Proof. solve_decision. Defined.

(** [str(v)], as an f-string renders it. *)
Definition py_str (v : atom) : string :=
  match v with
  | ANone => "None"
  | ABool true => "True"
  | ABool false => "False"
  | AInt z => pretty z
  | AStr s => s
  | AOther _ repr => repr
  end.

(** [v == s] for a [str] [s]. *)
Definition py_eq_str (v : atom) (s : string) : bool :=
  match v with
  | AStr s' => bool_decide (s' = s)
  | _ => false
  end.

(** [type(v).__name__] *)
Definition py_type_name (v : atom) : string :=
  match v with
  | ANone => "NoneType"
  | ABool _ => "bool"
  | AInt _ => "int"
  | AStr _ => "str"
  | AOther type_name _ => type_name
  end.

(** A byte that continues a character of a UTF-8 text: [10xxxxxx]. *)
Definition continuation (c : Ascii.ascii) : bool :=
  (128 <=? Ascii.nat_of_ascii c) && (Ascii.nat_of_ascii c <? 192).

(** [len(s)]: the characters of [s], not its bytes. *)
Fixpoint py_len (s : string) : nat :=
  match s with
  | EmptyString => 0
  | String c rest => (if continuation c then 0 else 1) + py_len rest
  end.

(** [s\[:n\]]: the first [n] characters of [s]. *)
Fixpoint py_slice_to (n : nat) (s : string) : string :=
  match s with
  | EmptyString => EmptyString
  | String c rest =>
      if continuation c then String c (py_slice_to n rest)
      else match n with
           | 0 => EmptyString
           | S n' => String c (py_slice_to n' rest)
           end
  end.

(** A value that can sit in a serialized result: an atom or the [details]
    dictionary. *)
Inductive pyval :=
  | PAtom (a : atom)
  | PDict (d : gmap string atom).

Inductive exn :=
  | KeyError (key : string)
  | TypeError (msg : string)
  | OSError (msg : string)
  | OtherError (msg : string).

#[global] Instance exn_eq_dec : EqDecision exn.
Proof. solve_decision. Defined.

(** [str(e)] *)
Definition exn_str (e : exn) : string :=
  match e with
  | KeyError key => "'" +:+ key +:+ "'"
  | TypeError msg => msg
  | OSError msg => msg
  | OtherError msg => msg
  end.

(** What a method call comes to: a value or a raised exception. *)
Inductive outcome (A : Type) :=
  | Ok (a : A)
  | Raise (e : exn).
Arguments Ok {A} a.
Arguments Raise {A} e.

(** ** The manifest

    [json.load] gives any JSON document.  An entry of the tool list is
    an object or another value; the value under [tools] is a list or
    another value.  Of a value under [tools] the engine asks its truth
    value, its length and its elements: a string and an object have all
    three (the elements are the characters, the keys), so that they
    behave as the list of these strings; [null], a boolean and a number
    have a truth value only. *)

Inductive entry :=
  | Obj (fields : gmap string atom)
  | NotObj (v : atom).

Inductive scalar :=
  | SNull
  | SBool (b : bool)
  | SNumber (zero : bool).

Inductive tools_value :=
  | Sequence (items : list entry)
  | Scalar (v : scalar).

(** The operations of the engine the interpreter answers with a
    [TypeError]. *)
Inductive fault :=
  | Subscript (v : atom)      (* v\['id'\] on a value that is no object *)
  | NotAPath (v : atom)       (* Path(v) on a value that is no str *)
  | NoLen (v : scalar)        (* len(v) *)
  | NotIterable (v : scalar). (* iter(v) *)

(** ** Results and status *)

(** The [result] dictionary of [test_tool]: five fixed keys. *)
Record TestResult := {
  tool_id : atom;
  tool_name : atom;
  status : string;
  message : string;
  details : gmap string atom
}.

(** [result['status'] = status; result['message'] = message] *)
Definition set_status (result : TestResult) (status' message' : string) : TestResult :=
  {| tool_id := tool_id result; tool_name := tool_name result;
     status := status'; message := message'; details := details result |}.

(** [result['details'][key] = v] *)
Definition set_detail (result : TestResult) (key : string) (v : atom) : TestResult :=
  {| tool_id := tool_id result; tool_name := tool_name result;
     status := status result; message := message result;
     details := <[key := v]> (details result) |}.

(** The dictionary [json.dump] writes for a result. *)
Definition as_dict (r : TestResult) : gmap string pyval :=
  <["tool_id" := PAtom (tool_id r)]>
  (<["tool_name" := PAtom (tool_name r)]>
  (<["status" := PAtom (AStr (status r))]>
  (<["message" := PAtom (AStr (message r))]>
  (<["details" := PDict (details r)]> ∅)))).

(** [status_data] of [update_status]; the [timestamp] key holds the wall
    clock and is left out. *)
Record status_data := {
  sd_status : string;
  sd_progress : Z;
  sd_message : string
}.

(** ** The world *)

(** What [subprocess.run(..., capture_output=True, text=True, timeout=30)]
    can do. *)
Inductive proc_result :=
  | Completed (returncode : Z) (stdout stderr : string)
  | TimeoutExpired
  | SpawnRaised (e : exn).

(** What opening and parsing [studio_config.json] can do: the file is
    absent, another exception escapes [open], [json.load] or [.get], or a
    document is read, with or without a [tools] key. *)
Inductive config_file :=
  | ConfigNotFound
  | ConfigRaised (e : exn)
  | ConfigLoaded (tools : option tools_value).

(** The answers of the outside.  They are those of one run and do not
    change while it lasts: a path probed twice answers twice the same. *)
Record World := {
  Path : Type;
  Path_new : string -> Path;            (* Path(s) *)
  path_div : Path -> string -> Path;    (* p / name *)
  path_str : Path -> string;            (* str(p) *)
  (* p.exists(): a boolean, or the OSError it lets through *)
  path_exists : Path -> outcome bool;
  subprocess_run : list string -> string -> nat -> proc_result;
  studio_config_path : Path;
  studio_config : config_file;
  (* logs / f"test_results_{now}.json", at the time of the summary *)
  results_file : Path;
  (* open(status_file, 'w') and json.dump: done, or the exception *)
  status_write : status_data -> option exn;
  (* open(results_file, 'w') and json.dump: done, or the exception *)
  results_write : list TestResult -> option exn;
  (* str(e) for the TypeError the interpreter raises *)
  type_error : fault -> string
}.

Inductive level := INFO | WARNING | ERROR.

Inductive event {W : World} :=
  | Log (lvl : level) (msg : string)
  | StatusWrite (sd : status_data)
  | Exists (p : Path W)
  | Spawn (argv : list string) (cwd : string) (timeout : nat)
  | OpenConfig (p : Path W)
  | ResultsWrite (p : Path W) (results : list TestResult).
Arguments event : clear implicits.

(** The engine object: [self.test_results], and the effects so far. *)
Record engine {W : World} := {
  test_results : list TestResult;
  trace : list (event W)
}.
Arguments engine : clear implicits.

Definition M (W : World) (A : Type) : Type := engine W -> outcome A * engine W.

#[global] Instance M_ret W : MRet (M W) := λ A a s, (Ok a, s).
#[global] Instance M_bind W : MBind (M W) := λ A B f m s,
  match m s with
  | (Ok a, s') => f a s'
  | (Raise e, s') => (Raise e, s')
  end.

Section Engine.
Context {W : World}.

Definition raise {A} (e : exn) : M W A := λ s, (Raise e, s).

Definition emit (ev : event W) : M W unit := λ s,
  (Ok tt, {| test_results := test_results s; trace := trace s ++ [ev] |}).

(** [try: body  except Exception as e: handler(e)] *)
Definition try_except {A} (body : M W A) (handler : exn -> M W A) : M W A := λ s,
  match body s with
  | (Ok a, s') => (Ok a, s')
  | (Raise e, s') => handler e s'
  end.

Definition get_results : M W (list TestResult) := λ s, (Ok (test_results s), s).

(** [self.test_results.append(result)] *)
Definition append_result (result : TestResult) : M W unit := λ s,
  (Ok tt, {| test_results := test_results s ++ [result]; trace := trace s |}).

Definition logger_info (msg : string) : M W unit := emit (Log INFO msg).
Definition logger_warning (msg : string) : M W unit := emit (Log WARNING msg).
Definition logger_error (msg : string) : M W unit := emit (Log ERROR msg).

(** The status file is opened and written with no handler around: a
    failure is an exception of [update_status]. *)
Definition update_status (status : string) (progress : Z) (message : string) : M W unit :=
  let status_data :=
    {| sd_status := status; sd_progress := progress; sd_message := message |} in
  match status_write W status_data with
  | None => emit (StatusWrite status_data)
  | Some e => raise e
  end.

(** [d\[key\]] *)
Definition getitem (d : entry) (key : string) : M W atom :=
  match d with
  | Obj fields =>
      match fields !! key with
      | Some v => mret v
      | None => raise (KeyError key)
      end
  | NotObj v => raise (TypeError (type_error W (Subscript v)))
  end.

(** [Path(v)]: a [str] or a [TypeError]. *)
Definition Path_of (v : atom) : M W (Path W) :=
  match v with
  | AStr s => mret (Path_new W s)
  | _ => raise (TypeError (type_error W (NotAPath v)))
  end.

(** [p.exists()] *)
Definition exists_ (p : Path W) : M W bool :=
  emit (Exists p);;
  match path_exists W p with
  | Ok found => mret found
  | Raise e => raise e
  end.

Definition load_studio_config : M W tools_value :=
  emit (OpenConfig (studio_config_path W));;
  match studio_config W with
  | ConfigLoaded tools => mret (default (Sequence []) tools)
  | ConfigNotFound =>
      logger_error ("Studio config not found: " +:+ path_str W (studio_config_path W));;
      mret (Sequence [])
  | ConfigRaised e => raise e
  end.

(** [not tools] *)
Definition not_ (tools : tools_value) : bool :=
  match tools with
  | Sequence [] => true
  | Sequence (_ :: _) => false
  | Scalar SNull => true
  | Scalar (SBool b) => negb b
  | Scalar (SNumber zero) => zero
  end.

(** [len(tools)] *)
Definition len (tools : tools_value) : M W nat :=
  match tools with
  | Sequence items => mret (length items)
  | Scalar v => raise (TypeError (type_error W (NoLen v)))
  end.

(** [iter(tools)]: what a [for] over [tools] goes through. *)
Definition iter (tools : tools_value) : M W (list entry) :=
  match tools with
  | Sequence items => mret items
  | Scalar v => raise (TypeError (type_error W (NotIterable v)))
  end.

(** The [try] block of [test_tool], lines 134-168. *)
Definition run_engine_test (tool_id : atom) (tool_path venv_python : Path W)
    (result : TestResult) : M W TestResult :=
  logger_info ("Running: " +:+ path_str W venv_python +:+ " engine.py --config config.json --test");;
  let argv := [path_str W venv_python; "engine.py"; "--config"; "config.json"; "--test"] in
  emit (Spawn argv (path_str W tool_path) 30);;
  match subprocess_run W argv (path_str W tool_path) 30 with
  | Completed returncode stdout stderr =>
      let result := set_detail result "exit_code" (AInt returncode) in
      let result := set_detail result "stdout" (AStr stdout) in
      let result := set_detail result "stderr" (AStr stderr) in
      if bool_decide (returncode = 0%Z) then
        logger_info ("✓ " +:+ py_str tool_id +:+ " test passed");;
        mret (set_status result "pass" "Test passed successfully")
      else
        logger_error ("✗ " +:+ py_str tool_id +:+ " test failed");;
        (if bool_decide (stderr = "") then mret tt
         else logger_error ("Error output: " +:+ py_slice_to 200 stderr));;
        mret (set_status result "fail" ("Test failed with exit code " +:+ pretty returncode))
  | TimeoutExpired =>
      logger_error ("✗ " +:+ py_str tool_id +:+ " test timed out");;
      mret (set_status result "fail" "Test timed out (>30s)")
  | SpawnRaised e =>
      logger_error ("✗ " +:+ py_str tool_id +:+ " test error: " +:+ exn_str e);;
      mret (set_status result "fail" ("Exception: " +:+ exn_str e))
  end.

Definition test_tool (tool_info : entry) : M W TestResult :=
  tool_id ← getitem tool_info "id";
  path ← getitem tool_info "path";
  tool_path ← Path_of path;
  logger_info ("Testing tool: " +:+ py_str tool_id);;
  update_status "running" 0 ("Testing " +:+ py_str tool_id +:+ "...");;
  display_name ← getitem tool_info "display_name";
  let result := {| tool_id := tool_id; tool_name := display_name;
                   status := "unknown"; message := ""; details := ∅ |} in
  (* Check if tool directory exists *)
  root_ok ← exists_ tool_path;
  if negb root_ok then
    let message := "Tool directory not found: " +:+ path_str W tool_path in
    logger_error message;;
    mret (set_status result "fail" message)
  else
  (* Check for engine.py *)
  let engine_path := path_div W tool_path "engine.py" in
  engine_ok ← exists_ engine_path;
  if negb engine_ok then
    let message := "No engine.py found (GUI-only tool)" in
    logger_warning message;;
    mret (set_status result "skip" message)
  else
  (* Check for config.json *)
  let config_path := path_div W tool_path "config.json" in
  config_ok ← exists_ config_path;
  if negb config_ok then
    let message := "No config.json found" in
    logger_error message;;
    mret (set_status result "fail" message)
  else
  (* Check for virtual environment *)
  let venv_python := path_div W (path_div W (path_div W tool_path ".venv") "Scripts") "python.exe" in
  venv_ok ← exists_ venv_python;
  if negb venv_ok then
    let message := "Virtual environment not found" in
    logger_error message;;
    mret (set_status result "fail" message)
  else
  (* Run engine.py --test *)
  run_engine_test tool_id tool_path venv_python result.

(** [sum(1 for r in self.test_results if r['status'] == status)] *)
Definition count_status (status' : string) (results : list TestResult) : nat :=
  length (filter (λ r, status r = status') results).

(** ["\n"] *)
Definition newline : string := String (Ascii.ascii_of_nat 10) EmptyString.

(** ["=" * 60] *)
Definition rule : string := String.concat "" (replicate 60 "=").

Definition status_icon (status' : string) : string :=
  if bool_decide (status' = "pass") then "✓"
  else if bool_decide (status' = "fail") then "✗"
  else if bool_decide (status' = "skip") then "⊘"
  else "?".

(** The [for result in self.test_results] loop of [generate_summary]. *)
Fixpoint log_results (results : list TestResult) : M W unit :=
  match results with
  | [] => mret tt
  | result :: rest =>
      logger_info (status_icon (status result) +:+ " " +:+ py_str (tool_name result)
                   +:+ ": " +:+ message result);;
      log_results rest
  end.

(** [with open(results_file, 'w') as f: json.dump(self.test_results, f)] *)
Definition dump_results (results : list TestResult) : M W unit :=
  match results_write W results with
  | None => emit (ResultsWrite (results_file W) results)
  | Some e => raise e
  end.

Definition generate_summary : M W unit :=
  results ← get_results;
  let passed := count_status "pass" results in
  let failed := count_status "fail" results in
  let skipped := count_status "skip" results in
  logger_info (newline +:+ rule);;
  logger_info "TEST SUMMARY";;
  logger_info rule;;
  logger_info ("Total tests: " +:+ pretty (length results));;
  logger_info ("✓ Passed: " +:+ pretty passed);;
  logger_info ("✗ Failed: " +:+ pretty failed);;
  logger_info ("⊘ Skipped: " +:+ pretty skipped);;
  logger_info rule;;
  (* Detailed results *)
  log_results results;;
  logger_info rule;;
  (* Update final status *)
  (if bool_decide (0 < failed) then
     update_status "completed_with_errors" 100
       (pretty passed +:+ " passed, " +:+ pretty failed +:+ " failed")
   else
     update_status "completed" 100 ("All " +:+ pretty passed +:+ " tests passed"));;
  (* Save results to JSON *)
  dump_results results;;
  logger_info ("Results saved to: " +:+ path_str W (results_file W)).

(** The body of [for i, tool_info in enumerate(tools)], from index [i]. *)
Fixpoint test_each (total_tools i : nat) (tools : list entry) : M W unit :=
  match tools with
  | [] => mret tt
  | tool_info :: rest =>
      let progress := progress_of (i + 1) total_tools in
      result ← test_tool tool_info;
      append_result result;;
      update_status "running" progress
        ("Tested " +:+ pretty (i + 1) +:+ "/" +:+ pretty total_tools +:+ " tools");;
      test_each total_tools (S i) rest
  end.

Definition test_all_tools : M W unit :=
  logger_info "Starting test suite for all tools";;
  update_status "running" 0 "Loading tools...";;
  tools ← load_studio_config;
  if not_ tools then
    logger_error "No tools found in studio_config.json";;
    update_status "error" 0 "No tools to test"
  else
    found ← len tools;
    logger_info ("Found " +:+ pretty found +:+ " registered tools");;
    (* Test each tool *)
    total_tools ← len tools;
    items ← iter tools;
    test_each total_tools 0 items;;
    (* Generate summary *)
    generate_summary.

(** [next((t for t in tools if t\['id'\] == tool_id), None)], [tools]
    being gone through already; what is found has let [t\['id'\]] be
    read, so that it is an object. *)
Fixpoint find_tool (tools : list entry) (tool_id : string)
    : M W (option (gmap string atom)) :=
  match tools with
  | [] => mret None
  | t :: rest =>
      id ← getitem t "id";
      match t with
      | Obj fields =>
          if py_eq_str id tool_id then mret (Some fields) else find_tool rest tool_id
      | NotObj v => raise (TypeError (type_error W (Subscript v)))
      end
  end.

(** [not tool_info]: [None], or an empty dictionary. *)
Definition falsy (tool_info : option (gmap string atom)) : bool :=
  match tool_info with
  | None => true
  | Some d => bool_decide (d = ∅)
  end.

(** The [if not tool_info] branch of [test_single_tool]. *)
Definition tool_not_found (tool_id : string) : M W unit :=
  logger_error ("Tool not found: " +:+ tool_id);;
  update_status "error" 0 ("Tool '" +:+ tool_id +:+ "' not found").

Definition test_single_tool (tool_id : string) : M W unit :=
  logger_info ("Testing single tool: " +:+ tool_id);;
  tools ← load_studio_config;
  items ← iter tools;
  tool_info ← find_tool items tool_id;
  match tool_info with
  | Some d =>
      if falsy tool_info then tool_not_found tool_id
      else
        result ← test_tool (Obj d);
        append_result result;;
        generate_summary
  | None => tool_not_found tool_id
  end.

(** The [argparse] namespace: [--test] and [--tool]. *)
Record args := {
  test : bool;
  tool : option string
}.

(** [if args.tool]: given and not the empty string. *)
Definition tool_given (a : args) : option string :=
  match tool a with
  | Some t => if bool_decide (t = "") then None else Some t
  | None => None
  end.

Definition run (a : args) : M W Z :=
  try_except
    (if test a then
       logger_info "Running in TEST mode";;
       logger_info "Tool Tester Engine is operational";;
       update_status "test_mode" 100 "Test mode: Engine operational";;
       mret 0%Z
     else
       match tool_given a with
       | Some t => test_single_tool t
       | None => test_all_tools
       end;;
       (* Exit code based on results *)
       results ← get_results;
       let failed := count_status "fail" results in
       mret (if bool_decide (failed = 0) then 0%Z else 1%Z))
    (λ e,
       logger_error ("Fatal error: " +:+ exn_str e);;
       update_status "error" 0 (exn_str e);;
       mret 1%Z).

(** The engine as [__init__] leaves it: no result, and the trace starts
    with the run. *)
Definition new_engine : engine W := {| test_results := []; trace := [] |}.

(** [main]: build the engine, run, and hand the code to [sys.exit]. *)
Definition main (a : args) : outcome Z * engine W := run a new_engine.

(** *** Reading a trace *)

(** The status file's successive contents. *)
Definition status_updates (tr : list (event W)) : list status_data :=
  omap (λ ev, match ev with StatusWrite sd => Some sd | _ => None end) tr.

(** The RunStatus a consumer sees once the trace is over. *)
Definition last_status (tr : list (event W)) : option status_data :=
  last (status_updates tr).

(** The results files written. *)
Definition results_files (tr : list (event W)) : list (list TestResult) :=
  omap (λ ev, match ev with ResultsWrite _ rs => Some rs | _ => None end) tr.

(** The paths probed with [exists], in order. *)
Definition probes (tr : list (event W)) : list (Path W) :=
  omap (λ ev, match ev with Exists p => Some p | _ => None end) tr.

(** The child processes spawned: command line, working directory, time
    bound. *)
Definition spawns (tr : list (event W)) : list (list string * string * nat) :=
  omap (λ ev, match ev with
              | Spawn argv cwd timeout => Some (argv, cwd, timeout)
              | _ => None
              end) tr.

End Engine.

(** ** Manifests and expected status traffic *)

(** [tool_info\[key\]] where there is one. *)
Definition field (tool_info : entry) (key : string) : option atom :=
  match tool_info with
  | Obj fields => fields !! key
  | NotObj _ => None
  end.

(** A manifest entry [test_tool] can work with: an object in which the
    three keys it reads are there and [path] is a string (section 6 of
    the specification: "each entry containing at least id, display_name,
    path"). *)
Definition wf_tool (tool_info : entry) : Prop :=
  is_Some (field tool_info "id") ∧
  is_Some (field tool_info "display_name") ∧
  ∃ p, field tool_info "path" = Some (AStr p).

#[global] Instance wf_tool_dec tool_info : Decision (wf_tool tool_info).
Proof.
  unfold wf_tool.
  destruct (field tool_info "path") as [[| b | z | p | ty repr] |];
    try (right; intros (_ & _ & [? ?]); congruence).
  destruct (decide (is_Some (field tool_info "id"))) as [Hid | Hid];
    [| right; intros (? & _); contradiction].
  destruct (decide (is_Some (field tool_info "display_name"))) as [Hname | Hname];
    [| right; intros (_ & ? & _); contradiction].
  left. repeat split; eauto.
Defined.

(** What [load_studio_config] returns when it returns. *)
Definition manifest_of (c : config_file) : option tools_value :=
  match c with
  | ConfigNotFound => Some (Sequence [])
  | ConfigLoaded tools => Some (default (Sequence []) tools)
  | ConfigRaised _ => None
  end.

(** The entries a run goes through: those of the manifest when it loads
    and holds a sequence, none otherwise. *)
Definition items_of (c : config_file) : list entry :=
  match manifest_of c with
  | Some (Sequence items) => items
  | _ => []
  end.

(** [t\['id'\] == tool_id] on an entry that has an id. *)
Definition has_id (tool_id : string) (tool_info : entry) : bool :=
  match field tool_info "id" with
  | Some v => py_eq_str v tool_id
  | None => false
  end.

(** The status [test_tool] writes before it tests [tool_info]. *)
Definition testing_update (tool_info : entry) : status_data :=
  {| sd_status := "running"; sd_progress := 0;
     sd_message := "Testing " +:+ py_str (default ANone (field tool_info "id")) +:+ "..." |}.

(** The status [test_all_tools] writes once [i] of [total_tools] tools
    are done. *)
Definition tested_update (i total_tools : nat) : status_data :=
  {| sd_status := "running"; sd_progress := progress_of i total_tools;
     sd_message := "Tested " +:+ pretty i +:+ "/" +:+ pretty total_tools +:+ " tools" |}.

(** The status writes of the loop of [test_all_tools] from index [i]. *)
Fixpoint each_updates (total_tools i : nat) (tools : list entry) : list status_data :=
  match tools with
  | [] => []
  | tool_info :: rest =>
      testing_update tool_info :: tested_update (i + 1) total_tools
        :: each_updates total_tools (S i) rest
  end.

Definition loading_update : status_data :=
  {| sd_status := "running"; sd_progress := 0; sd_message := "Loading tools..." |}.

(** The final status of [generate_summary], lines 241-244. *)
Definition final_status (passed failed : nat) : status_data :=
  if bool_decide (0 < failed) then
    {| sd_status := "completed_with_errors"; sd_progress := 100;
       sd_message := pretty passed +:+ " passed, " +:+ pretty failed +:+ " failed" |}
  else
    {| sd_status := "completed"; sd_progress := 100;
       sd_message := "All " +:+ pretty passed +:+ " tests passed" |}.

(** A status written by [test_tool], as against one written by the run. *)
Definition per_tool_signal (sd : status_data) : bool :=
  String.prefix "Testing " (sd_message sd).

(** The statuses of the run itself: all but the per-tool signals. *)
Definition run_level (updates : list status_data) : list status_data :=
  filter (λ sd, per_tool_signal sd = false) updates.

(** What holds of every status the engine writes: the progress is a
    percentage, and it is 0 for a per-tool signal and for an [error]. *)
Definition sound (sd : status_data) : Prop :=
  (0 ≤ sd_progress sd ≤ 100)%Z ∧
  (per_tool_signal sd = true ∨ sd_status sd = "error" → sd_progress sd = 0%Z).

(** The statuses other than [error]. *)
Definition without_errors (updates : list status_data) : list status_data :=
  filter (λ sd, sd_status sd ≠ "error") updates.


(** [l] never decreases. *)
Definition non_decreasing (l : list Z) : Prop := Sorted Z.le l.

(** Every write of the status file succeeds. *)
Definition status_writable (W : World) : Prop := ∀ sd, status_write W sd = None.

(** Every write of a results file succeeds. *)
Definition results_writable (W : World) : Prop := ∀ rs, results_write W rs = None.

(** ** Sample worlds *)

(** The texts of CPython 3.11. *)
Definition sample_type_error (f : fault) : string :=
  match f with
  | Subscript (AStr _) => "string indices must be integers, not 'str'"
  | Subscript v => "'" +:+ py_type_name v +:+ "' object is not subscriptable"
  | NotAPath v => "expected str, bytes or os.PathLike object, not " +:+ py_type_name v
  | NoLen SNull => "object of type 'NoneType' has no len()"
  | NoLen (SBool _) => "object of type 'bool' has no len()"
  | NoLen (SNumber _) => "object of type 'int' has no len()"
  | NotIterable SNull => "'NoneType' object is not iterable"
  | NotIterable (SBool _) => "'bool' object is not iterable"
  | NotIterable (SNumber _) => "'int' object is not iterable"
  end.

(** Paths are strings joined with a slash; a probe does what [probe]
    says, every child what [child] says for its working directory, and a
    write of the status file what [status] says. *)
Definition sample_world_with (probe : string -> outcome bool)
    (child : string -> proc_result) (config : config_file)
    (status : status_data -> option exn) : World :=
  {| Path := string;
     Path_new := λ s, s;
     path_div := λ p name, p +:+ "/" +:+ name;
     path_str := λ p, p;
     path_exists := probe;
     subprocess_run := λ _ cwd _, child cwd;
     studio_config_path := "studio_config.json";
     studio_config := config;
     results_file := "logs/test_results.json";
     status_write := status;
     results_write := λ _, None;
     type_error := sample_type_error |}.

(** A world in which every probe returns and every file can be
    written. *)
Definition sample_world (present : string -> bool) (child : string -> proc_result)
    (config : config_file) : World :=
  sample_world_with (λ p, Ok (present p)) child config (λ _, None).

Definition sample_tool (id : string) : entry :=
  Obj (<["id" := AStr id]>
      (<["display_name" := AStr ("Tool " +:+ id)]>
      (<["path" := AStr ("tools/" +:+ id)]>
      (<["enabled" := ABool true]> ∅)))).

Definition all_present : string -> bool := λ _, true.

(** Everything is there but the paths listed. *)
Definition all_but (missing : list string) : string -> bool :=
  λ p, bool_decide (p ∉ missing).

Definition exits (code : Z) : string -> proc_result :=
  λ _, Completed code "out" "err".

Definition manifest (ids : list string) : config_file :=
  ConfigLoaded (Some (Sequence (sample_tool <$> ids))).

Definition run_all : args := {| test := false; tool := None |}.
Definition run_one (id : string) : args := {| test := false; tool := Some id |}.

(** ** Describing what an operation does *)

Section Describing.
Context {W : World}.

(** [s] after the events [evs]. *)
Definition log_to (s : engine W) (evs : list (event W)) : engine W :=
  {| test_results := test_results s; trace := trace s ++ evs |}.

(** From any state, [m] comes to [o] and leaves the events [evs]. *)
Definition emits {A} (m : M W A) (o : outcome A) (evs : list (event W)) : Prop :=
  ∀ s, m s = (o, log_to s evs).

(** [s] after the results [rs] and the events [evs]. *)
Definition extend (s : engine W) (rs : list TestResult) (evs : list (event W)) : engine W :=
  {| test_results := test_results s ++ rs; trace := trace s ++ evs |}.

(** From any state, [m] comes to [o] and leaves the results [rs] and the
    events [evs]. *)
Definition performs {A} (m : M W A) (o : outcome A) (rs : list TestResult)
    (evs : list (event W)) : Prop :=
  ∀ s, m s = (o, extend s rs evs).

(** The interpreter of a tool's own environment, under its root. *)
Definition venv_python_of (root : Path W) : Path W :=
  path_div W (path_div W (path_div W root ".venv") "Scripts") "python.exe".

(** The child [test_tool] spawns for the tool at [root]: command line,
    working directory, time bound. *)
Definition test_command (root : Path W) : list string * string * nat :=
  ([path_str W (venv_python_of root); "engine.py"; "--config"; "config.json"; "--test"],
   path_str W root, 30).

(** What that child does. *)
Definition run_child (root : Path W) : proc_result :=
  subprocess_run W
    [path_str W (venv_python_of root); "engine.py"; "--config"; "config.json"; "--test"]
    (path_str W root) 30.

End Describing.

(** The result of a well-formed entry: its id and name, one of the three
    statuses. *)
Definition result_for (tool_info : entry) (r : TestResult) : Prop :=
  field tool_info "id" = Some (tool_id r) ∧
  field tool_info "display_name" = Some (tool_name r) ∧
  status r ∈ ["pass"; "fail"; "skip"].

(** The status of [test_all_tools] on an empty manifest. *)
Definition no_tools_update : status_data :=
  {| sd_status := "error"; sd_progress := 0; sd_message := "No tools to test" |}.

(** The status of [test_single_tool] on an unknown id. *)
Definition not_found_update (tool_id : string) : status_data :=
  {| sd_status := "error"; sd_progress := 0;
     sd_message := "Tool '" +:+ tool_id +:+ "' not found" |}.

(** [0 if failed == 0 else 1] *)
Definition exit_code (results : list TestResult) : Z :=
  if bool_decide (count_status "fail" results = 0) then 0%Z else 1%Z.

(** The status [generate_summary] writes for [results]. *)
Definition summary_update (results : list TestResult) : status_data :=
  final_status (count_status "pass" results) (count_status "fail" results).

(** *** Named sample worlds *)

(** Two tools, both installed, both passing. *)
Definition two_passing : World :=
  sample_world all_present (exits 0) (manifest ["a"; "b"]).


(** One tool whose child exits with code 3. *)
Definition one_failing : World :=
  sample_world all_present (exits 3) (manifest ["a"]).

(** One tool whose child runs past the time bound. *)
Definition one_timing_out : World :=
  sample_world all_present (λ _, TimeoutExpired) (manifest ["a"]).

(** One tool without [engine.py]. *)
Definition one_gui_only : World :=
  sample_world (all_but ["tools/a/engine.py"]) (exits 0) (manifest ["a"]).


(** The fields of [sample_tool]. *)
Definition sample_fields (id : string) : gmap string atom :=
  match sample_tool id with
  | Obj fields => fields
  | NotObj _ => ∅
  end.

(** An entry with no id, one whose path is a number, one with no display
    name. *)
Definition no_id : entry := Obj (delete "id" (sample_fields "a")).
Definition numeric_path : entry := Obj (<["path" := AInt 7]> (sample_fields "a")).

(** ** The footprint of a run

    What a trace shows of the outside: the lines logged, the manifest
    files opened, and, for a tool, the paths that are probed and the
    child that is spawned. *)

#[global] Instance level_eq_dec : EqDecision level.
Proof. solve_decision. Defined.

Section Footprint.
Context {W : World}.

(** The lines logged at level [lvl], in order. *)
Definition logged (lvl : level) (tr : list (event W)) : list string :=
  omap (λ ev, match ev with
              | Log lvl' msg => if decide (lvl' = lvl) then Some msg else None
              | _ => None
              end) tr.

(** The manifest files opened. *)
Definition opened (tr : list (event W)) : list (Path W) :=
  omap (λ ev, match ev with OpenConfig p => Some p | _ => None end) tr.

(** [p.exists()] returns [True]. *)
Definition found (p : Path W) : bool :=
  match path_exists W p with
  | Ok true => true
  | _ => false
  end.

(** [p.exists()] returns [False]. *)
Definition absent (p : Path W) : bool :=
  match path_exists W p with
  | Ok false => true
  | _ => false
  end.

(** The four checks of [test_tool] all pass for the tool at [root]. *)
Definition all_checks_pass (root : Path W) : bool :=
  found root
  && found (path_div W root "engine.py")
  && found (path_div W root "config.json")
  && found (venv_python_of root).

(** The paths under [root] a test probes: each check is made only when
    those before it pass. *)
Definition checked_paths (root : Path W) : list (Path W) :=
  root ::
  if found root then
    path_div W root "engine.py" ::
    if found (path_div W root "engine.py") then
      path_div W root "config.json" ::
      if found (path_div W root "config.json") then [venv_python_of root]
      else []
    else []
  else [].

(** The exception the probes of a test end with, when one of them
    raises. *)
Definition probe_fault (root : Path W) : option exn :=
  match path_exists W root with
  | Raise e => Some e
  | Ok false => None
  | Ok true =>
      match path_exists W (path_div W root "engine.py") with
      | Raise e => Some e
      | Ok false => None
      | Ok true =>
          match path_exists W (path_div W root "config.json") with
          | Raise e => Some e
          | Ok false => None
          | Ok true =>
              match path_exists W (venv_python_of root) with
              | Raise e => Some e
              | Ok _ => None
              end
          end
      end
  end.

(** [Path(tool_info\['path'\])] for an entry with a string path. *)
Definition root_of (tool_info : entry) : option (Path W) :=
  match field tool_info "path" with
  | Some (AStr p) => Some (Path_new W p)
  | _ => None
  end.

(** The child of an entry, if its four checks pass. *)
Definition child_of (tool_info : entry) : list (list string * string * nat) :=
  match root_of tool_info with
  | Some root => if all_checks_pass root then [test_command root] else []
  | None => []
  end.

(** The paths probed for an entry. *)
Definition probes_of (tool_info : entry) : list (Path W) :=
  match root_of tool_info with
  | Some root => checked_paths root
  | None => []
  end.

(** The child of the tool at [root] ends with code 0. *)
Definition child_passes (root : Path W) : bool :=
  match run_child root with
  | Completed returncode _ _ => bool_decide (returncode = 0%Z)
  | _ => false
  end.

(** The entry is one whose test passes: the four checks pass and the
    child ends with code 0. *)
Definition passes (tool_info : entry) : bool :=
  match root_of tool_info with
  | Some root => all_checks_pass root && child_passes root
  | None => false
  end.

(** The entry is a GUI-only tool: its root is there, [engine.py] is
    not. *)
Definition gui_only (tool_info : entry) : bool :=
  match root_of tool_info with
  | Some root => found root && absent (path_div W root "engine.py")
  | None => false
  end.

(** Every probe made for the entry returns. *)
Definition probes_return (tool_info : entry) : Prop :=
  match root_of tool_info with
  | Some root => probe_fault root = None
  | None => True
  end.

(** The entry is one [test_tool] gets through: it is well formed, the
    status "Testing <id>..." can be written and every probe returns. *)
Definition testable (tool_info : entry) : Prop :=
  wf_tool tool_info ∧
  status_write W (testing_update tool_info) = None ∧
  probes_return tool_info.

(** [test_tool] returns [r] for [tool_info]. *)
Definition result_of (tool_info : entry) (r : TestResult) : Prop :=
  ∃ evs, emits (W:=W) (test_tool tool_info) (Ok r) evs.

(** [test_tool] raises [e] for [tool_info]. *)
Definition raises (tool_info : entry) (e : exn) : Prop :=
  ∃ evs, emits (W:=W) (test_tool tool_info) (Raise e) evs.

(** [r] is the result of the test of [tool_info]. *)
Definition tested (tool_info : entry) (r : TestResult) : Prop :=
  result_of tool_info r ∧
  result_for tool_info r ∧
  (status r = "pass" ↔ passes tool_info = true) ∧
  (status r = "skip" ↔ gui_only tool_info = true).

(** The entry holds an id, and it is not [t]. *)
Definition other_id (t : string) (tool_info : entry) : Prop :=
  ∃ v, field tool_info "id" = Some v ∧ py_eq_str v t = false.

(** The exception [t\['id'\]] raises on an entry without an id. *)
Definition no_id_error (t : entry) : exn :=
  match t with
  | Obj _ => KeyError "id"
  | NotObj v => TypeError (type_error W (Subscript v))
  end.

(** What can end a full-suite run with the exception [e]: a write of the
    status file or of the results file that fails, a manifest that
    cannot be read, a value under [tools] that has no length, an entry
    whose test raises. *)
Definition blocked (e : exn) : Prop :=
  (∃ sd, status_write W sd = Some e) ∨
  (∃ rs, results_write W rs = Some e) ∨
  studio_config W = ConfigRaised e ∨
  (∃ v, manifest_of (studio_config W) = Some (Scalar v)) ∨
  (∃ tool_info, tool_info ∈ items_of (studio_config W) ∧ raises tool_info e).

(** The line of the summary for one result. *)
Definition result_line (r : TestResult) : string :=
  status_icon (status r) +:+ " " +:+ py_str (tool_name r) +:+ ": " +:+ message r.

(** The lines [generate_summary] logs before it writes the status. *)
Definition summary_lines (results : list TestResult) : list string :=
  [newline +:+ rule; "TEST SUMMARY"; rule;
   "Total tests: " +:+ pretty (length results);
   "✓ Passed: " +:+ pretty (count_status "pass" results);
   "✗ Failed: " +:+ pretty (count_status "fail" results);
   "⊘ Skipped: " +:+ pretty (count_status "skip" results);
   rule]
  ++ (result_line <$> results) ++ [rule].

(** What [generate_summary] leaves in the trace for [results]. *)
Definition summary_events (results : list TestResult) : list (event W) :=
  (Log INFO <$> summary_lines results)
  ++ [StatusWrite (summary_update results);
      ResultsWrite (results_file W) results;
      Log INFO ("Results saved to: " +:+ path_str W (results_file W))].

(** What [generate_summary] has left in the trace when the write of the
    results file fails. *)
Definition summary_events_unsaved (results : list TestResult) : list (event W) :=
  (Log INFO <$> summary_lines results) ++ [StatusWrite (summary_update results)].

(** The operation [run] chooses. *)
Definition operation (a : args) : M W unit :=
  match tool_given a with
  | Some t => test_single_tool t
  | None => test_all_tools
  end.

(** The [try] block of [run]. *)
Definition attempt (a : args) : M W Z :=
  if test a then
    logger_info "Running in TEST mode";;
    logger_info "Tool Tester Engine is operational";;
    update_status "test_mode" 100 "Test mode: Engine operational";;
    mret 0%Z
  else
    operation a;;
    results ← get_results;
    mret (if bool_decide (count_status "fail" results = 0) then 0%Z else 1%Z).

(** The [except] block of [run]. *)
Definition on_fatal (e : exn) : M W Z :=
  logger_error ("Fatal error: " +:+ exn_str e);;
  update_status "error" 0 (exn_str e);;
  mret 1%Z.

(** The statuses a full-suite run over [tools] writes when nothing stops
    it, [results] being what it has collected. *)
Definition suite_updates (tools : list entry) (results : list TestResult)
    : list status_data :=
  loading_update ::
  match tools with
  | [] => [no_tools_update]
  | _ :: _ => each_updates (length tools) 0 tools ++ [summary_update results]
  end.

(** A status a run can end with. *)
Definition terminal (sd : status_data) : Prop :=
  (sd_status sd = "test_mode" ∧ sd_progress sd = 100%Z) ∨
  (sd_status sd = "error" ∧ sd_progress sd = 0%Z) ∨
  (sd_status sd = "completed" ∧ sd_progress sd = 100%Z) ∨
  (sd_status sd = "completed_with_errors" ∧ sd_progress sd = 100%Z).

(** The status the [except] branch of [run] writes for [e]. *)
Definition fatal_update (e : exn) : status_data :=
  {| sd_status := "error"; sd_progress := 0; sd_message := exn_str e |}.

(** The status of the self-test mode. *)
Definition test_mode_update : status_data :=
  {| sd_status := "test_mode"; sd_progress := 100;
     sd_message := "Test mode: Engine operational" |}.

End Footprint.

(** ** The progress as a function of the ratio

    [int(c * 100)] for the double nearest to the ratio [c]: [progress_of]
    at [c = i / total_tools]. *)
Definition progress_at (c : Q) : Z :=
  Float64.to_int (Float64.mul (Float64.round c) (Float64.of_int 100)).

(** [2 ^ -40] *)
Definition eps40 : Q := 1 # 1099511627776.

(** For the whole percentages [k] below [n]: [progress_at] loses at most
    one point at [k / 100], none a little above it, and stays at [k]
    a little below [(k + 1) / 100]. *)
Definition percent_checks (n : nat) : bool :=
  forallb (λ k : Z,
     (k - 1 <=? progress_at (inject_Z k / 100))%Z
     && (k <=? progress_at (inject_Z k / 100 + eps40))%Z
     && (progress_at (inject_Z (k + 1) / 100 - eps40) <=? k)%Z)
    (Z.of_nat <$> seq 0 n).

(** ** The command line: [ToolTesterEngine.__init__] and [main]

    [main] parses the arguments, builds the engine and leaves through
    [sys.exit] with the code [run] returns.  Building the engine reads
    the tool's own [config.json] and sets the logger up. *)

(** What opening and parsing [args.config] can do. *)
Inductive own_config :=
  | OwnConfigNotFound
  | OwnConfigRaised (e : exn)
  | OwnConfigLoaded.

(** How the process ends: [sys.exit(code)], or an exception nobody
    caught. *)
Inductive ending :=
  | Exit (code : Z)
  | Traceback (e : exn).

(** What [parser.parse_args()] does with the command line: it returns
    the namespace, [--config] being required, or it prints (the usage
    and an error, or the help) and leaves with [sys.exit(status)],
    status 2 for a command line it does not accept. *)
Inductive parsed :=
  | Namespace (config : string) (arguments : args)
  | ParserExit (status : Z) (output : list string).

Module Cli.
Section Cli.
Context {W : World}.

(** The command line and what it meets: the outcome of the parser, the
    file behind [--config], what [mkdir] and [logging.FileHandler] do in
    [setup_logging], and the log file it names. *)
Record invocation := {
  parse_args : parsed;
  config : own_config;
  log_setup : option exn;
  log_file : Path W
}.

(** A process: what it printed, the engine it built if it came to build
    one, and its end. *)
Record process := {
  printed : list string;
  built : option (engine W);
  ended : ending
}.

(** [load_config]: the document, or a line printed and [sys.exit(1)]. *)
Definition load_config (i : invocation) (config_path : string) : unit + process :=
  match config i with
  | OwnConfigLoaded => inl tt
  | OwnConfigNotFound =>
      inr {| printed := ["Config file not found: " +:+ config_path];
             built := None; ended := Exit 1 |}
  | OwnConfigRaised e => inr {| printed := []; built := None; ended := Traceback e |}
  end.

(** [setup_logging]: the log directory and the handlers, then the two
    lines the new logger writes. *)
Definition setup_logging (i : invocation) : M W unit :=
  match log_setup i with
  | Some e => raise e
  | None =>
      logger_info "Tool Tester Engine initialized";;
      logger_info ("Log file: " +:+ path_str W (log_file i))
  end.

(** [ToolTesterEngine(args.config)] *)
Definition init (i : invocation) (config_path : string) : engine W + process :=
  match load_config i config_path with
  | inl _ =>
      match setup_logging i new_engine with
      | (Ok _, engine) => inl engine
      | (Raise e, _) => inr {| printed := []; built := None; ended := Traceback e |}
      end
  | inr p => inr p
  end.

(** [main] *)
Definition main (i : invocation) : process :=
  match parse_args i with
  | ParserExit status output =>
      {| printed := output; built := None; ended := Exit status |}
  | Namespace config_path arguments =>
      match init i config_path with
      | inl engine =>
          match run arguments engine with
          | (Ok exit_code, engine') =>
              {| printed := []; built := Some engine'; ended := Exit exit_code |}
          | (Raise e, engine') =>
              {| printed := []; built := Some engine'; ended := Traceback e |}
          end
      | inr p => p
      end
  end.

End Cli.
End Cli.

(** *** More sample worlds *)

(** A manifest that does not parse. *)
Definition broken_manifest : World :=
  sample_world all_present (exits 0)
    (ConfigRaised (OtherError "Expecting value: line 1 column 1 (char 0)")).

(** No manifest at all. *)
Definition missing_manifest : World :=
  sample_world all_present (exits 0) ConfigNotFound.

(** Three entries, the second without an id. *)
Definition second_malformed : World :=
  sample_world all_present (exits 0)
    (ConfigLoaded (Some (Sequence [sample_tool "a"; no_id; sample_tool "c"]))).

(** Tool [b] is listed twice, with an entry without an id in between. *)
Definition listed_twice : World :=
  sample_world all_present (exits 0)
    (ConfigLoaded (Some (Sequence [sample_tool "a"; sample_tool "b"; no_id; sample_tool "b"]))).

(** An entry without an id comes first. *)
Definition idless_first : World :=
  sample_world all_present (exits 0)
    (ConfigLoaded (Some (Sequence [no_id; sample_tool "b"]))).

(** Two tools, both without [engine.py]. *)
Definition two_gui_only : World :=
  sample_world (all_but ["tools/a/engine.py"; "tools/b/engine.py"]) (exits 0)
    (manifest ["a"; "b"]).

(** Three tools: [a] passes, [b] is GUI-only, the child of [c] ends with
    code 1. *)
Definition mixed_suite : World :=
  sample_world (all_but ["tools/b/engine.py"])
    (λ cwd, if bool_decide (cwd = "tools/c") then Completed 1 "" "boom"
            else Completed 0 "ok" "")
    (manifest ["a"; "b"; "c"]).

(** The path of tool [a] is too long for the file system: the probe of
    its root raises. *)
Definition too_long : exn := OSError "[Errno 36] File name too long: 'tools/a'".

Definition long_path : World :=
  sample_world_with
    (λ p, if bool_decide (p = "tools/a") then Raise too_long else Ok true)
    (exits 0) (manifest ["a"; "b"]) (λ _, None).


(** The status file cannot be written. *)
Definition denied : exn :=
  OSError "[Errno 13] Permission denied: 'logs/tool_tester_status.json'".

Definition read_only_logs : World :=
  sample_world_with (λ _, Ok true) (exits 0) (manifest ["a"]) (λ _, Some denied).

(** The manifest holds [null] under [tools]. *)
Definition null_tools : World :=
  sample_world all_present (exits 0) (ConfigLoaded (Some (Scalar SNull))).

(** The manifest holds a number under [tools]. *)
Definition number_for_tools : World :=
  sample_world all_present (exits 0) (ConfigLoaded (Some (Scalar (SNumber false)))).

(** [--test], with a [--tool] that is ignored. *)
Definition self_test : args := {| test := true; tool := Some "a" |}.

(** * The window (tools/tool_tester/main_gui.py)

    The handlers of [ToolTesterGUI] that start the engine and read what
    it leaves: [start_testing], [check_status], [on_testing_finished] and
    [load_test_results].  A handler is modelled by the calls it makes on
    the widgets, the timer, the message boxes and the process, in order;
    the files it reads are given as they are at that moment. *)

(** The document [update_status] dumps: [status_data], the wall clock
    under [timestamp]. *)
Definition status_json (sd : status_data) (timestamp : string) : gmap string atom :=
  <["status" := AStr (sd_status sd)]>
  (<["progress" := AInt (sd_progress sd)]>
  (<["message" := AStr (sd_message sd)]>
  (<["timestamp" := AStr timestamp]> ∅))).

Module Gui.

Inductive button := btn_test_selected | btn_test_all | btn_stop.

Inductive call :=
  | test_results_assign (results : list (gmap string pyval))
  | progress_bar_setValue (value : atom)
  | lbl_status_setText (text : atom)
  | lbl_passed_setText (text : string)
  | lbl_failed_setText (text : string)
  | lbl_skipped_setText (text : string)
  | setEnabled (b : button) (enabled : bool)
  | status_timer_start (msec : Z)
  | status_timer_stop
  | log_message (message : string) (error : bool)
  | QMessageBox_information (title text : string)
  | QMessageBox_warning (title text : string)
  | test_process_start (program : string) (arguments : list string) (cwd : string).

(** What a handler does: its calls, and the exception that ends it if
    one does. *)
Definition handled : Type := list call * option exn.

(** The status file at the time of a poll: not there, not readable or
    not yet whole ([IOError], [JSONDecodeError]), or a document. *)
Inductive status_file :=
  | StatusAbsent
  | StatusUnreadable
  | StatusDocument (status : gmap string atom).

Definition check_status (f : status_file) : list call :=
  match f with
  | StatusDocument status =>
      let progress := default (AInt 0) (status !! "progress") in
      let message := default (AStr "") (status !! "message") in
      [progress_bar_setValue progress; lbl_status_setText message]
  | StatusAbsent | StatusUnreadable => []
  end.

(** The latest [test_results_*.json] of the log directory: none, one that
    cannot be read, or a list of result objects. *)
Inductive latest_file :=
  | NoResultsFile
  | ResultsUnreadable (e : exn)
  | ResultsDocument (results : list (gmap string pyval)).

(** [sum(1 for r in self.test_results if r\['status'\] == status)] *)
Fixpoint sum_status (status : string) (results : list (gmap string pyval)) : exn + nat :=
  match results with
  | [] => inr 0
  | r :: rest =>
      match r !! "status" with
      | None => inl (KeyError "status")
      | Some v =>
          match sum_status status rest with
          | inl e => inl e
          | inr n =>
              inr ((match v with
                    | PAtom a => if py_eq_str a status then 1 else 0
                    | PDict _ => 0
                    end) + n)
          end
      end
  end.

Definition passed_text (passed : nat) : string := "‚úÖ Passed: " +:+ pretty passed.
Definition failed_text (failed : nat) : string := "‚ùå Failed: " +:+ pretty failed.
Definition skipped_text (skipped : nat) : string := "‚äò Skipped: " +:+ pretty skipped.

(** The message box that ends [load_test_results]. *)
Definition completion_box (passed failed skipped : nat) : call :=
  if bool_decide (failed = 0) then
    QMessageBox_information "Tests Passed"
      ("All " +:+ pretty passed +:+ " tests passed successfully! üéâ")
  else
    QMessageBox_warning "Tests Failed"
      (pretty failed +:+ " test(s) failed." +:+ newline +:+ pretty passed
       +:+ " passed, " +:+ pretty skipped +:+ " skipped.").

Definition load_test_results (latest : latest_file) : handled :=
  match latest with
  | NoResultsFile => ([], None)
  | ResultsUnreadable e =>
      ([log_message ("Error loading results: " +:+ exn_str e) true], None)
  | ResultsDocument results =>
      match sum_status "pass" results, sum_status "fail" results,
            sum_status "skip" results with
      | inr passed, inr failed, inr skipped =>
          ([test_results_assign results;
            lbl_passed_setText (passed_text passed);
            lbl_failed_setText (failed_text failed);
            lbl_skipped_setText (skipped_text skipped);
            completion_box passed failed skipped], None)
      | inl e, _, _ | _, inl e, _ | _, _, inl e => ([test_results_assign results], Some e)
      end
  end.

Definition success_label : string := "‚úÖ All tests completed successfully".
Definition failure_label : string := "‚ùå Testing completed with failures".

Definition on_testing_finished (exit_code : Z) (latest : latest_file) : handled :=
  let update :=
    [status_timer_stop;
     setEnabled btn_test_selected true;
     setEnabled btn_test_all true;
     setEnabled btn_stop false;
     progress_bar_setValue (AInt 100)] in
  let report :=
    if bool_decide (exit_code = 0%Z) then
      [lbl_status_setText (AStr success_label);
       log_message (newline +:+ "‚úÖ Testing completed successfully!") false]
    else
      [lbl_status_setText (AStr failure_label);
       log_message (newline +:+ "‚ùå Testing completed with failures (exit code: "
                    +:+ pretty exit_code +:+ ")") true] in
  (update ++ report ++ (load_test_results latest).1, (load_test_results latest).2).

Definition reset_counters : list call :=
  [lbl_passed_setText "‚úÖ Passed: 0";
   lbl_failed_setText "‚ùå Failed: 0";
   lbl_skipped_setText "‚äò Skipped: 0"].

Section Start.
Context {W : World}.

(** [cmd] of [start_testing], before [--tool] is added. *)
Definition base_command (base_path : Path W) : list string :=
  [path_str W (path_div W (path_div W (path_div W base_path ".venv") "Scripts") "python.exe");
   "engine.py"; "--config"; path_str W (path_div W base_path "config.json")].

(** [start_testing]; [tool_ids] is [None] or a list of ids. *)
Definition start_testing (base_path : Path W) (tool_ids : option (list string))
    : list call :=
  let cmd := base_command base_path in
  let (cmd, announce) :=
    match tool_ids with
    | Some (tool_id :: rest) =>
        if bool_decide (length (tool_id :: rest) = 1) then
          (cmd ++ ["--tool"; tool_id],
           [log_message ("Starting test for: " +:+ tool_id) false])
        else
          (cmd,
           [log_message ("Starting tests for " +:+ pretty (length (tool_id :: rest))
                         +:+ " selected tools") false;
            QMessageBox_information "Note" "Testing multiple selected tools sequentially..."])
    | Some [] | None => (cmd, [log_message "Starting tests for ALL registered tools" false])
    end in
  [test_results_assign []] ++ reset_counters ++ announce
  ++ [test_process_start (default "" (head cmd)) (tail cmd) (path_str W base_path);
      setEnabled btn_test_selected false;
      setEnabled btn_test_all false;
      setEnabled btn_stop true;
      progress_bar_setValue (AInt 0);
      lbl_status_setText (AStr "Testing in progress...");
      status_timer_start 500].

End Start.
End Gui.
(** * Facts *)

(** ** Rounding to a double is monotone *)

Module Float64_facts.
Import Float64.
Local Open Scope Q_scope.

Lemma pow2_pos (e : Z) : 0 < 2 ^ e.
Proof. apply Qpower_0_lt. reflexivity. Qed.

Lemma pow2_succ (e : Z) : 2 ^ (e + 1) == 2 * 2 ^ e.
Proof. rewrite Qpower_plus by discriminate. simpl. ring. Qed.

Lemma pow2_le (a b : Z) : (a <= b)%Z -> 2 ^ a <= 2 ^ b.
Proof. intros H. apply Qpower_le_compat_l; [exact H | discriminate]. Qed.

Lemma pow2_inject (n : Z) : (0 <= n)%Z -> inject_Z (2 ^ n) == 2 ^ n.
Proof. intros H. apply (Zpower_Qpower 2 n H). Qed.

Lemma Qnum_pos (x : Q) : 0 < x -> (0 < Qnum x)%Z.
Proof. destruct x as [n d]. unfold Qlt. simpl. lia. Qed.

Lemma Q_as_frac (x : Q) : x * inject_Z (Zpos (Qden x)) == inject_Z (Qnum x).
Proof. destruct x as [n d]. unfold Qeq, Qmult, inject_Z. simpl. lia. Qed.

Lemma log2_bounds_Q (n : Z) :
  (0 < n)%Z -> 2 ^ Z.log2 n <= inject_Z n /\ inject_Z n < 2 * 2 ^ Z.log2 n.
Proof.
  intros Hn. destruct (Z.log2_spec n Hn) as [Hlo Hhi].
  pose proof (Z.log2_nonneg n) as Hnn.
  split.
  - rewrite <- pow2_inject by exact Hnn. rewrite <- Zle_Qle. exact Hlo.
  - rewrite <- pow2_succ. rewrite <- pow2_inject by lia.
    rewrite <- Zlt_Qlt. replace (Z.log2 n + 1)%Z with (Z.succ (Z.log2 n)) by lia. exact Hhi.
Qed.

Lemma ilog2_spec (x : Q) :
  0 < x -> 2 ^ ilog2 x <= x /\ x < 2 ^ (ilog2 x + 1).
Proof.
  intros Hx. unfold ilog2.
  set (n := Qnum x). set (d := Zpos (Qden x)).
  set (k := (Z.log2 n - Z.log2 d)%Z).
  assert (Hn : (0 < n)%Z) by (apply Qnum_pos; exact Hx).
  assert (Hd : (0 < d)%Z) by (unfold d; lia).
  destruct (log2_bounds_Q n Hn) as [Hn1 Hn2].
  destruct (log2_bounds_Q d Hd) as [Hd1 Hd2].
  pose proof (Q_as_frac x) as Hfrac. fold n d in Hfrac.
  pose proof (pow2_pos (Z.log2 n)) as Pn.
  pose proof (pow2_pos (Z.log2 d)) as Pd.
  pose proof (pow2_pos k) as Pk.
  assert (Hk : 2 ^ k * 2 ^ Z.log2 d == 2 ^ Z.log2 n).
  { rewrite <- Qpower_plus by discriminate. unfold k.
    replace (Z.log2 n - Z.log2 d + Z.log2 d)%Z with (Z.log2 n) by lia. reflexivity. }
  assert (Hdq : 0 < inject_Z d) by (rewrite (Zlt_Qlt 0 d) in Hd; exact Hd).
  destruct (Qle_bool (2 ^ k) x) eqn:Hb.
  - apply Qle_bool_iff in Hb. split; [exact Hb |].
    rewrite pow2_succ.
    (* x * d = n < 2 * 2^ln = 2 * 2^k * 2^ld <= 2 * 2^k * d *)
    apply Qnot_le_lt. intros Hc.
    assert (2 * 2 ^ k * inject_Z d <= x * inject_Z d) by nra.
    assert (2 * 2 ^ k * 2 ^ Z.log2 d <= 2 * 2 ^ k * inject_Z d) by nra.
    nra.
  - assert (Hlt : x < 2 ^ k).
    { apply Qnot_le_lt. intros Hc. apply Qle_bool_iff in Hc. congruence. }
    replace (k - 1 + 1)%Z with k by lia. split; [| exact Hlt].
    assert (Hk1 : 2 * 2 ^ (k - 1) == 2 ^ k).
    { rewrite <- pow2_succ. replace (k - 1 + 1)%Z with k by lia. reflexivity. }
    pose proof (pow2_pos (k - 1)) as Pk1.
    apply Qnot_lt_le. intros Hc.
    assert (x * inject_Z d < 2 ^ (k - 1) * inject_Z d) by nra.
    assert (2 ^ (k - 1) * inject_Z d < 2 ^ (k - 1) * (2 * 2 ^ Z.log2 d)) by nra.
    nra.
Qed.

Lemma ilog2_unique (x : Q) (k : Z) :
  2 ^ k <= x -> x < 2 ^ (k + 1) -> ilog2 x = k.
Proof.
  intros Hlo Hhi.
  assert (Hx : 0 < x) by (pose proof (pow2_pos k); lra).
  destruct (ilog2_spec x Hx) as [Hlo' Hhi'].
  destruct (Z.lt_trichotomy (ilog2 x) k) as [Hlt | [Heq | Hgt]]; [| exact Heq |].
  - pose proof (pow2_le (ilog2 x + 1) k ltac:(lia)). lra.
  - pose proof (pow2_le (k + 1) (ilog2 x) ltac:(lia)). lra.
Qed.

Lemma ilog2_mono (x y : Q) : 0 < x -> x <= y -> (ilog2 x <= ilog2 y)%Z.
Proof.
  intros Hx Hxy.
  destruct (ilog2_spec x Hx) as [Hlo _].
  destruct (ilog2_spec y ltac:(lra)) as [_ Hhi].
  destruct (Z_le_gt_dec (ilog2 x) (ilog2 y)) as [H | H]; [exact H |].
  pose proof (pow2_le (ilog2 y + 1) (ilog2 x) ltac:(lia)). lra.
Qed.

Lemma ilog2_comp (x y : Q) : 0 < x -> x == y -> ilog2 x = ilog2 y.
Proof.
  intros Hx Hxy. destruct (ilog2_spec y) as [Hlo Hhi]; [lra |].
  apply ilog2_unique; lra.
Qed.

Lemma rne_floor (y : Q) : (Qfloor y <= rne y <= Qfloor y + 1)%Z.
Proof.
  unfold rne. destruct (Qcompare _ _); [destruct (Z.even _) | |]; lia.
Qed.

Lemma rne_comp (x y : Q) : x == y -> rne x = rne y.
Proof.
  intros H. unfold rne. rewrite (Qfloor_comp _ _ H).
  assert (Hc : x - inject_Z (Qfloor y) == y - inject_Z (Qfloor y)) by lra.
  rewrite (Qcompare_comp _ _ Hc _ _ (Qeq_refl (1 # 2))). reflexivity.
Qed.

Lemma rne_ge_int (n : Z) (y : Q) : inject_Z n <= y -> (n <= rne y)%Z.
Proof.
  intros H. apply Qfloor_resp_le in H. rewrite Qfloor_Z in H.
  pose proof (rne_floor y). lia.
Qed.

Lemma rne_le_int (n : Z) (y : Q) : y <= inject_Z n -> (rne y <= n)%Z.
Proof.
  intros H. pose proof (rne_floor y) as [_ Hup].
  destruct (Qlt_le_dec y (inject_Z n)) as [Hlt | Hge].
  - assert (Qfloor y < n)%Z; [| lia].
    rewrite Zlt_Qlt. pose proof (Qfloor_le y). lra.
  - assert (Heq : y == inject_Z n) by lra.
    rewrite (rne_comp _ _ Heq). unfold rne. rewrite Qfloor_Z.
    assert (Hc : Qcompare (inject_Z n - inject_Z n) (1 # 2) = Lt).
    { rewrite <- Qlt_alt. lra. }
    rewrite Hc. lia.
Qed.

Lemma rne_mono (x y : Q) : x <= y -> (rne x <= rne y)%Z.
Proof.
  intros Hxy. pose proof (Qfloor_resp_le _ _ Hxy) as Hf.
  pose proof (rne_floor x) as [_ Hx]. pose proof (rne_floor y) as [Hy _].
  destruct (Z.eq_dec (Qfloor x) (Qfloor y)) as [Heq | Hne]; [| lia].
  unfold rne. rewrite Heq.
  destruct (Qcompare (x - inject_Z (Qfloor y)) (1 # 2)) eqn:Cx;
    destruct (Qcompare (y - inject_Z (Qfloor y)) (1 # 2)) eqn:Cy;
    try (destruct (Z.even (Qfloor y))); try lia; exfalso;
    repeat match goal with
    | H : Qcompare _ _ = Eq |- _ => apply Qeq_alt in H
    | H : Qcompare _ _ = Lt |- _ => apply Qlt_alt in H
    | H : Qcompare _ _ = Gt |- _ => apply Qgt_alt in H
    end; lra.
Qed.

Lemma scaled_bounds (x : Q) :
  0 < x ->
  inject_Z (2 ^ 52) <= x / 2 ^ (ilog2 x - 52) /\
  x / 2 ^ (ilog2 x - 52) <= inject_Z (2 ^ 53).
Proof.
  intros Hx. destruct (ilog2_spec x Hx) as [Hlo Hhi].
  set (e := (ilog2 x - 52)%Z).
  pose proof (pow2_pos e) as Pe.
  assert (H52 : 2 ^ ilog2 x == inject_Z (2 ^ 52) * 2 ^ e).
  { rewrite pow2_inject by lia. rewrite <- Qpower_plus by discriminate.
    unfold e. replace (52 + (ilog2 x - 52))%Z with (ilog2 x) by lia. reflexivity. }
  assert (H53 : 2 ^ (ilog2 x + 1) == inject_Z (2 ^ 53) * 2 ^ e).
  { rewrite pow2_inject by lia. rewrite <- Qpower_plus by discriminate.
    unfold e. replace (53 + (ilog2 x - 52))%Z with (ilog2 x + 1)%Z by lia. reflexivity. }
  split.
  - apply Qle_shift_div_l; [exact Pe |]. lra.
  - apply Qle_shift_div_r; [exact Pe |]. lra.
Qed.

Lemma round_pos_mant (x : Q) :
  0 < x -> (2 ^ 52 <= mant (round_pos x) <= 2 ^ 53)%Z.
Proof.
  intros Hx. destruct (scaled_bounds x Hx) as [Hlo Hhi]. simpl. split.
  - apply rne_ge_int. exact Hlo.
  - apply rne_le_int. exact Hhi.
Qed.

Lemma round_pos_comp (x y : Q) : 0 < x -> x == y -> round_pos x = round_pos y.
Proof.
  intros Hx Hxy. unfold round_pos. rewrite (ilog2_comp x y Hx Hxy).
  f_equal. apply rne_comp. rewrite Hxy. reflexivity.
Qed.

Lemma round_comp (x y : Q) : x == y -> round x = round y.
Proof.
  intros Hxy. unfold round.
  rewrite (Qcompare_comp _ _ Hxy _ _ (Qeq_refl 0)).
  destruct (Qcompare y 0) eqn:C; [reflexivity | |].
  - apply Qlt_alt in C.
    rewrite (round_pos_comp (- x) (- y)); [reflexivity | lra | lra].
  - apply Qgt_alt in C. apply round_pos_comp; lra.
Qed.

Lemma val_round_pos_mono (x y : Q) :
  0 < x -> x <= y -> val (round_pos x) <= val (round_pos y).
Proof.
  intros Hx Hxy. assert (Hy : 0 < y) by lra.
  pose proof (ilog2_mono x y Hx Hxy) as He.
  pose proof (round_pos_mant x Hx) as [_ Mx].
  pose proof (round_pos_mant y Hy) as [My _].
  unfold val. 
  destruct (Z.eq_dec (ilog2 x) (ilog2 y)) as [Heq | Hne].
  - simpl. rewrite Heq. set (e := (ilog2 y - 52)%Z).
    pose proof (pow2_pos e) as Pe.
    assert (Hr : (rne (x / 2 ^ e) <= rne (y / 2 ^ e))%Z).
    { apply rne_mono. apply Qmult_le_compat_r; [exact Hxy |].
      apply Qlt_le_weak, Qinv_lt_0_compat, Pe. }
    rewrite Zle_Qle in Hr. nra.
  - set (ex := expo (round_pos x)). set (ey := expo (round_pos y)).
    assert (Hxy' : (ex + 1 <= ey)%Z) by (unfold ex, ey; simpl; lia).
    pose proof (pow2_le _ _ Hxy') as Hp. rewrite pow2_succ in Hp.
    pose proof (pow2_pos ex) as Pex. pose proof (pow2_pos ey) as Pey.
    rewrite Zle_Qle in Mx, My.
    change (inject_Z (2 ^ 53)) with (2 * inject_Z (2 ^ 52)) in Mx.
    assert (0 < inject_Z (2 ^ 52)) by reflexivity.
    nra.
Qed.

Lemma val_round_pos_gt0 (x : Q) : 0 < x -> 0 < val (round_pos x).
Proof.
  intros Hx. pose proof (round_pos_mant x Hx) as [M _].
  pose proof (pow2_pos (expo (round_pos x))).
  unfold val. rewrite Zle_Qle in M.
  assert (0 < inject_Z (2 ^ 52)) by reflexivity. nra.
Qed.

Lemma val_round_nonneg (x : Q) : 0 <= x -> 0 <= val (round x).
Proof.
  intros Hx. unfold round. destruct (Qcompare x 0) eqn:C.
  - discriminate.
  - apply Qlt_alt in C. lra.
  - apply Qgt_alt in C. apply Qlt_le_weak, val_round_pos_gt0, C.
Qed.

Lemma val_round_mono (x y : Q) :
  0 <= x -> x <= y -> val (round x) <= val (round y).
Proof.
  intros Hx Hxy. unfold round at 1. destruct (Qcompare x 0) eqn:C.
  - change (val {| mant := 0; expo := 0 |}) with (0 * 1). 
    pose proof (val_round_nonneg y ltac:(lra)). lra.
  - apply Qlt_alt in C. lra.
  - apply Qgt_alt in C. unfold round.
    assert (Cy : Qcompare y 0 = Gt) by (apply Qgt_alt; lra).
    rewrite Cy. apply val_round_pos_mono; assumption.
Qed.

Lemma to_int_mono (x y : double) :
  0 <= val x -> val x <= val y -> (to_int x <= to_int y)%Z.
Proof.
  intros Hx Hxy. unfold to_int.
  assert (Bx : Qle_bool 0 (val x) = true) by (apply Qle_bool_iff; exact Hx).
  assert (By : Qle_bool 0 (val y) = true) by (apply Qle_bool_iff; lra).
  rewrite Bx, By. apply Qfloor_resp_le, Hxy.
Qed.

Lemma to_int_nonneg (x : double) : 0 <= val x -> (0 <= to_int x)%Z.
Proof.
  intros Hx. unfold to_int.
  assert (Bx : Qle_bool 0 (val x) = true) by (apply Qle_bool_iff; exact Hx).
  rewrite Bx. change 0%Z with (Qfloor 0). apply Qfloor_resp_le, Hx.
Qed.

End Float64_facts.

(** ** The progress formula *)

Lemma ratio_nonneg (i total : nat) : (0 <= inject_Z (Z.of_nat i) / inject_Z (Z.of_nat total))%Q.
Proof.
  destruct total as [| t].
  - unfold Qdiv. simpl. unfold Qinv. simpl. lra.
  - apply Qle_shift_div_l.
    + change 0%Q with (inject_Z 0). rewrite <- Zlt_Qlt. lia.
    + rewrite Qmult_0_l. change 0%Q with (inject_Z 0). rewrite <- Zle_Qle. lia.
Qed.

Lemma progress_of_mono (i j total : nat) :
  (i <= j)%nat -> (progress_of i total <= progress_of j total)%Z.
Proof.
  intros Hij. unfold progress_of, Float64.mul, Float64.true_div.
  pose proof (ratio_nonneg i total) as Hi.
  assert (Hq : (inject_Z (Z.of_nat i) / inject_Z (Z.of_nat total)
               <= inject_Z (Z.of_nat j) / inject_Z (Z.of_nat total))%Q).
  { destruct total as [| t].
    - unfold Qdiv. simpl. unfold Qinv. simpl. lra.
    - apply Qmult_le_compat_r.
      + rewrite <- Zle_Qle. lia.
      + apply Qlt_le_weak, Qinv_lt_0_compat.
        change 0%Q with (inject_Z 0). rewrite <- Zlt_Qlt. lia. }
  pose proof (Float64_facts.val_round_nonneg _ Hi) as Vi.
  pose proof (Float64_facts.val_round_mono _ _ Hi Hq) as Vij.
  assert (H100 : (0 < Float64.val (Float64.of_int 100))%Q) by reflexivity.
  apply Float64_facts.to_int_mono.
  - apply Float64_facts.val_round_nonneg. nra.
  - apply Float64_facts.val_round_mono; nra.
Qed.

Lemma progress_of_full (total : nat) : (0 < total)%nat -> progress_of total total = 100%Z.
Proof.
  intros Ht. unfold progress_of, Float64.mul, Float64.true_div.
  assert (H1 : (inject_Z (Z.of_nat total) / inject_Z (Z.of_nat total) == 1)%Q).
  { apply Qmult_inv_r. change 0%Q with (inject_Z 0). rewrite inject_Z_injective. lia. }
  rewrite (Float64_facts.round_comp _ _ H1).
  reflexivity.
Qed.

Lemma progress_of_range (i total : nat) :
  (i <= total)%nat -> (0 < total)%nat -> (0 <= progress_of i total <= 100)%Z.
Proof.
  intros Hi Ht. split.
  - unfold progress_of, Float64.mul, Float64.true_div.
    apply Float64_facts.to_int_nonneg, Float64_facts.val_round_nonneg.
    pose proof (Float64_facts.val_round_nonneg _ (ratio_nonneg i total)).
    assert (H100 : (0 < Float64.val (Float64.of_int 100))%Q) by reflexivity.
    nra.
  - rewrite <- (progress_of_full total Ht). apply progress_of_mono, Hi.
Qed.
(** ** The engine's operations, as traces *)

Ltac unfold_engine :=
  unfold test_tool, run_engine_test, exists_, getitem, Path_of, logger_info,
    logger_warning, logger_error, emit, raise, mbind, M_bind, mret, M_ret.

Section EngineFacts.
Context {W : World}.

Lemma log_to_nil (s : engine W) : log_to s [] = s.
Proof. destruct s. unfold log_to. simpl. by rewrite app_nil_r. Qed.

Lemma log_to_app (s : engine W) evs1 evs2 : log_to (log_to s evs1) evs2 = log_to s (evs1 ++ evs2).
Proof. unfold log_to. simpl. by rewrite app_assoc. Qed.

Lemma extend_extend (s : engine W) rs1 evs1 rs2 evs2 :
  extend (extend s rs1 evs1) rs2 evs2 = extend s (rs1 ++ rs2) (evs1 ++ evs2).
Proof. unfold extend. simpl. by rewrite !app_assoc. Qed.

Lemma extend_log_to (s : engine W) evs : extend s [] evs = log_to s evs.
Proof. unfold extend, log_to. by rewrite app_nil_r. Qed.

Lemma extend_nil (s : engine W) : extend s [] [] = s.
Proof. by rewrite extend_log_to, log_to_nil. Qed.

Lemma log_to_extend (s : engine W) rs evs evs' :
  log_to (extend s rs evs) evs' = extend s rs (evs ++ evs').
Proof. unfold log_to, extend. simpl. by rewrite app_assoc. Qed.

Lemma extend_inj (s : engine W) rs evs rs' evs' :
  extend s rs evs = extend s rs' evs' → rs = rs' ∧ evs = evs'.
Proof.
  unfold extend. intros [= H1 H2]. split; by eapply app_inv_head.
Qed.

Lemma emits_ret {A} (a : A) : emits (W:=W) (mret a) (Ok a) [].
Proof. intros s. by rewrite log_to_nil. Qed.

Lemma emits_raise {A} e : emits (W:=W) (raise (A:=A) e) (Raise e) [].
Proof. intros s. by rewrite log_to_nil. Qed.

Lemma emits_emit ev : emits (W:=W) (emit ev) (Ok tt) [ev].
Proof. intros s. reflexivity. Qed.

Lemma emits_bind {A B} (m : M W A) (f : A → M W B) a o evs1 evs2 :
  emits (W:=W) m (Ok a) evs1 → emits (W:=W) (f a) o evs2 → emits (W:=W) (m ≫= f) o (evs1 ++ evs2).
Proof.
  intros Hm Hf s. unfold mbind, M_bind. rewrite Hm, Hf. by rewrite log_to_app.
Qed.

Lemma emits_bind_raise {A B} (m : M W A) (f : A → M W B) e evs :
  emits (W:=W) m (Raise e) evs → emits (W:=W) (m ≫= f) (Raise e) evs.
Proof. intros Hm s. unfold mbind, M_bind. by rewrite Hm. Qed.

(** An operation comes to one outcome and leaves one trace. *)
Lemma emits_unique {A} (m : M W A) o evs o' evs' :
  emits (W:=W) m o evs → emits (W:=W) m o' evs' → o = o' ∧ evs = evs'.
Proof.
  intros H H'. specialize (H new_engine). specialize (H' new_engine).
  rewrite H in H'. injection H' as Ho Hevs. split; [exact Ho | exact Hevs].
Qed.

Lemma emits_performs {A} (m : M W A) o evs : emits m o evs → performs m o [] evs.
Proof. intros H s. by rewrite H, extend_log_to. Qed.

Lemma performs_append r : performs (W:=W) (append_result r) (Ok tt) [r] [].
Proof. intros s. unfold append_result, extend. by rewrite app_nil_r. Qed.

Lemma performs_bind {A B} (m : M W A) (f : A → M W B) a o rs1 evs1 rs2 evs2 :
  performs (W:=W) m (Ok a) rs1 evs1 → performs (W:=W) (f a) o rs2 evs2 →
  performs (W:=W) (m ≫= f) o (rs1 ++ rs2) (evs1 ++ evs2).
Proof.
  intros Hm Hf s. unfold mbind, M_bind. rewrite Hm, Hf. by rewrite extend_extend.
Qed.

Lemma performs_bind_raise {A B} (m : M W A) (f : A → M W B) e rs evs :
  performs (W:=W) m (Raise e) rs evs → performs (W:=W) (m ≫= f) (Raise e) rs evs.
Proof. intros Hm s. unfold mbind, M_bind. by rewrite Hm. Qed.

Lemma status_updates_app (l1 l2 : list (event W)) :
  status_updates (l1 ++ l2) = status_updates l1 ++ status_updates l2.
Proof. apply omap_app. Qed.

Lemma results_files_app (l1 l2 : list (event W)) :
  results_files (l1 ++ l2) = results_files l1 ++ results_files l2.
Proof. apply omap_app. Qed.

Lemma probes_app (l1 l2 : list (event W)) : probes (l1 ++ l2) = probes l1 ++ probes l2.
Proof. apply omap_app. Qed.

Lemma spawns_app (l1 l2 : list (event W)) : spawns (l1 ++ l2) = spawns l1 ++ spawns l2.
Proof. apply omap_app. Qed.

Lemma opened_app (l1 l2 : list (event W)) : opened (l1 ++ l2) = opened l1 ++ opened l2.
Proof. apply omap_app. Qed.

Lemma logged_app lvl (l1 l2 : list (event W)) :
  logged lvl (l1 ++ l2) = logged lvl l1 ++ logged lvl l2.
Proof. apply omap_app. Qed.

Lemma last_status_snoc (l : list status_data) sd (evs : list (event W)) :
  status_updates evs = l ++ [sd] → last_status evs = Some sd.
Proof. intros H. unfold last_status. rewrite H. apply last_snoc. Qed.

(** *** The two files the engine writes *)

Lemma update_status_ok st progress msg (s : engine W) :
  status_write W {| sd_status := st; sd_progress := progress; sd_message := msg |} = None →
  update_status st progress msg s
  = (Ok tt, log_to s [StatusWrite {| sd_status := st; sd_progress := progress;
                                     sd_message := msg |}]).
Proof. intros H. unfold update_status. by rewrite H. Qed.

Lemma update_status_fails st progress msg e (s : engine W) :
  status_write W {| sd_status := st; sd_progress := progress; sd_message := msg |} = Some e →
  update_status st progress msg s = (Raise e, s).
Proof. intros H. unfold update_status. by rewrite H. Qed.

Lemma dump_results_ok rs (s : engine W) :
  results_write W rs = None →
  dump_results rs s = (Ok tt, log_to s [ResultsWrite (results_file W) rs]).
Proof. intros H. unfold dump_results. by rewrite H. Qed.

Lemma dump_results_fails rs e (s : engine W) :
  results_write W rs = Some e → dump_results rs s = (Raise e, s).
Proof. intros H. unfold dump_results. by rewrite H. Qed.

End EngineFacts.

Ltac finish_emits :=
  first
    [ unfold log_to, extend; simpl; rewrite <- ?app_assoc; simpl; reflexivity
    | match goal with
      | |- (?o, ?s) = _ => exact (f_equal (pair o) (eq_sym (log_to_nil s)))
      end ].

Ltac same_state :=
  unfold log_to, extend; simpl;
  repeat first [rewrite <- app_assoc | rewrite app_nil_r | progress simpl];
  reflexivity.

Ltac split_trace :=
  rewrite ?status_updates_app, ?results_files_app, ?probes_app, ?spawns_app, ?opened_app.

Ltac probe_cases W p rc out err e :=
  destruct (path_exists W (Path_new W p)) as [[|] | e] eqn:Eroot;
    [destruct (path_exists W (path_div W (Path_new W p) "engine.py")) as [[|] | e] eqn:Eeng;
     [destruct (path_exists W (path_div W (Path_new W p) "config.json")) as [[|] | e] eqn:Ecfg;
      [destruct (path_exists W (venv_python_of (Path_new W p))) as [[|] | e] eqn:Evenv;
       [destruct (run_child (Path_new W p)) as [rc out err | | e] eqn:Eproc;
        [destruct (bool_decide (rc = 0%Z)) eqn:Erc;
         [|destruct (bool_decide (err = "")) eqn:Eerr] | |] | |] | |] | |] | |].

Ltac rewrite_probes :=
  unfold all_checks_pass, checked_paths, probe_fault, found, absent, run_child,
    test_command, venv_python_of in *;
  simpl in *;
  repeat match goal with
  | H : path_exists _ _ = _ |- _ => rewrite H; simpl
  end;
  repeat match goal with
  | H : subprocess_run _ _ _ _ = _ |- _ => rewrite H; simpl
  end;
  repeat match goal with
  | H : bool_decide _ = _ |- _ => rewrite H; simpl
  end.

Ltac run_tool Hid Hname Hp Hw :=
  intros ?s; unfold_engine; rewrite Hid, Hp; simpl;
  rewrite update_status_ok by exact Hw; simpl; rewrite Hname; simpl;
  rewrite_probes; finish_emits.

Ltac settle_iff :=
  split;
  [ intros Hl; first [discriminate Hl | by destruct Hl | idtac];
    repeat split; try reflexivity; try (subst; repeat eexists; reflexivity)
  | intros;
    repeat match goal with
    | H : _ ∧ _ |- _ => destruct H
    | H : ∃ _, _ |- _ => destruct H
    end;
    try discriminate; try congruence; try reflexivity; try apply insert_non_empty ].

(** ** One tool *)

Section OneTool.
Context {W : World}.

Local Arguments update_status : simpl never.

(** The status [test_tool] writes first, for an entry with an id. *)
Lemma testing_update_id (d : gmap string atom) tid :
  d !! "id" = Some tid →
  testing_update (Obj d)
  = {| sd_status := "running"; sd_progress := 0;
       sd_message := "Testing " +:+ py_str tid +:+ "..." |}.
Proof. intros Hid. unfold testing_update, field. by rewrite Hid. Qed.

(** What [test_tool] does on a well-formed entry once the status is
    written, check by check. *)
Lemma test_tool_footprint (d : gmap string atom) tid name p :
  d !! "id" = Some tid →
  d !! "display_name" = Some name →
  d !! "path" = Some (AStr p) →
  status_write W (testing_update (Obj d)) = None →
  let root := Path_new W p in
  ∃ o (evs : list (event W)),
    emits (W:=W) (test_tool (Obj d)) o evs ∧
    (status_updates evs = [testing_update (Obj d)] ∧
     results_files evs = [] ∧ opened evs = []) ∧
    probes evs = checked_paths root ∧
    spawns evs = (if all_checks_pass root then [test_command root] else []) ∧
    match o with
    | Raise e => probe_fault root = Some e
    | Ok r =>
        probe_fault root = None ∧
        (tool_id r = tid ∧ tool_name r = name ∧ status r ∈ ["pass"; "fail"; "skip"]
         ∧ message r ≠ "") ∧
        (status r = "pass" ↔
           all_checks_pass root = true ∧ ∃ out err, run_child root = Completed 0 out err) ∧
        (status r = "skip" ↔
           found root = true ∧ absent (path_div W root "engine.py") = true) ∧
        (details r ≠ ∅ ↔
           all_checks_pass root = true ∧ ∃ rc out err, run_child root = Completed rc out err)
    end.
Proof.
  intros Hid Hname Hp Hw root. subst root.
  rewrite (testing_update_id d tid Hid) in *.
  probe_cases W p rc out err e;
    (eexists; eexists; split; [run_tool Hid Hname Hp Hw |]).
  all: split; [repeat split; reflexivity |].
  all: rewrite_probes.
  all: split; [reflexivity |].
  all: split; [reflexivity |].
  all: try reflexivity.
  all: split; [reflexivity |].
  all: split; [repeat split; try reflexivity; try discriminate; repeat constructor |].
  all: try apply bool_decide_eq_true in Erc; try apply bool_decide_eq_false in Erc.
  all: (split; [| split]); settle_iff.
Qed.

Lemma wf_tool_fields (t : entry) :
  wf_tool t ↔
  ∃ d tid name p, t = Obj d ∧ d !! "id" = Some tid ∧ d !! "display_name" = Some name ∧
                  d !! "path" = Some (AStr p).
Proof.
  split.
  - intros ([tid Hid] & [name Hname] & [p Hp]). destruct t as [d | v]; [| discriminate].
    by exists d, tid, name, p.
  - intros (d & tid & name & p & -> & Hid & Hname & Hp). repeat split; simpl; eauto.
Qed.

(** What [test_tool] does on an entry that is not well formed, or when
    the status cannot be written: the exception, and what has been
    written by then. *)
Lemma test_tool_unready (t : entry) :
  ¬ (wf_tool t ∧ status_write W (testing_update t) = None) →
  ∃ e (evs : list (event W)),
    emits (W:=W) (test_tool t) (Raise e) evs ∧
    (probes evs = [] ∧ spawns evs = [] ∧ results_files evs = [] ∧ opened evs = []) ∧
    (status_updates evs = [] ∨ status_updates evs = [testing_update t]) ∧
    match t with
    | NotObj v => e = TypeError (type_error W (Subscript v)) ∧ evs = []
    | Obj d =>
        match d !! "id", d !! "path" with
        | None, _ => e = KeyError "id" ∧ evs = []
        | Some _, None => e = KeyError "path" ∧ evs = []
        | Some _, Some (AStr _) =>
            match status_write W (testing_update t) with
            | Some e' => e = e' ∧ status_updates evs = []
            | None => e = KeyError "display_name" ∧ status_updates evs = [testing_update t]
            end
        | Some _, Some v => e = TypeError (type_error W (NotAPath v)) ∧ evs = []
        end
    end.
Proof.
  intros Hnot. destruct t as [d | v].
  2: { eexists; eexists. split; [intros s; unfold_engine; finish_emits |].
       by repeat split; auto. }
  destruct (d !! "id") as [tid |] eqn:Hid.
  2: { eexists; eexists. split; [intros s; unfold_engine; rewrite Hid; finish_emits |].
       by repeat split; auto. }
  destruct (d !! "path") as [path |] eqn:Hp.
  2: { eexists; eexists.
       split; [intros s; unfold_engine; rewrite Hid, Hp; finish_emits |].
       by repeat split; auto. }
  destruct path as [| b | z | p | ty repr];
    try (eexists; eexists;
         (split; [intros s; unfold_engine; rewrite Hid, Hp; finish_emits |]);
         by repeat split; auto).
  destruct (status_write W (testing_update (Obj d))) as [e' |] eqn:Hw.
  - rewrite (testing_update_id d tid Hid) in Hw.
    eexists; eexists. split.
    + intros s; unfold_engine; rewrite Hid, Hp; simpl.
      rewrite (update_status_fails _ _ _ e') by exact Hw. finish_emits.
    + by repeat split; auto.
  - destruct (d !! "display_name") as [name |] eqn:Hname.
    { exfalso. apply Hnot. split; [| reflexivity]. apply wf_tool_fields.
      by exists d, tid, name, p. }
    rewrite (testing_update_id d tid Hid) in *.
    eexists; eexists. split.
    + intros s; unfold_engine; rewrite Hid, Hp; simpl.
      rewrite update_status_ok by exact Hw. simpl. rewrite Hname. finish_emits.
    + by repeat split; auto.
Qed.

Lemma child_passes_spec (root : Path W) :
  child_passes root = true ↔ ∃ out err, run_child root = Completed 0 out err.
Proof.
  unfold child_passes. destruct (run_child root) as [rc out err | | e].
  - rewrite bool_decide_eq_true. split; [intros ->; by eexists _, _ |].
    by intros (? & ? & [= ->]).
  - split; [discriminate | by intros (? & ? & [=])].
  - split; [discriminate | by intros (? & ? & [=])].
Qed.

(** The paths probed for one tool are at most four. *)
Lemma checked_paths_length (root : Path W) : length (checked_paths root) ≤ 4.
Proof. unfold checked_paths. repeat case_match; simpl; lia. Qed.

(** What [test_tool] comes to, whatever the entry and the world. *)
Lemma test_tool_any (t : entry) :
  ∃ o (evs : list (event W)),
    emits (W:=W) (test_tool t) o evs ∧
    (results_files evs = [] ∧ opened evs = []) ∧
    (status_updates evs = [] ∨ status_updates evs = [testing_update t]) ∧
    (length (probes evs) ≤ 4 ∧ length (spawns evs) ≤ 1) ∧
    match o with
    | Ok r =>
        testable (W:=W) t ∧ tested (W:=W) t r ∧
        status_updates evs = [testing_update t] ∧
        probes evs = probes_of t ∧
        spawns evs = child_of (W:=W) t
    | Raise e => ¬ testable (W:=W) t ∧ spawns evs = []
    end.
Proof.
  destruct (decide (wf_tool t)) as [Hwf | Hnot];
    [destruct (status_write W (testing_update t)) as [e' |] eqn:Hw |].
  - destruct (test_tool_unready t) as (e & evs & Hrun & (Hp & Hs & Hr & Ho) & Hup & _).
    { intros [_ Hw']. congruence. }
    exists (Raise e), evs. rewrite Hp, Hs. split; [exact Hrun |].
    split; [by split |]. split; [exact Hup |]. split; [simpl; lia |].
    split; [| done]. intros (_ & Hw' & _). congruence.
  - pose proof Hwf as Hwf'.
    apply wf_tool_fields in Hwf' as (d & tid & name & p & -> & Hid & Hname & Hp).
    destruct (test_tool_footprint d tid name p Hid Hname Hp Hw)
      as (o & evs & Hrun & (Hup & Hres & Hopen) & Hprobes & Hspawns & Hcase).
    exists o, evs. split; [exact Hrun |]. split; [by split |]. split; [by right |].
    split.
    { rewrite Hprobes, Hspawns. split; [apply checked_paths_length |].
      destruct (all_checks_pass (Path_new W p)); simpl; lia. }
    assert (Hroot : root_of (W:=W) (Obj d) = Some (Path_new W p)).
    { unfold root_of, field. by rewrite Hp. }
    destruct o as [r | e].
    + destruct Hcase as (Hfault & (Htid & Hrname & Hst & _) & Hpass & Hskip & _).
      split; [split; [exact Hwf | split; [exact Hw |]] |].
      { unfold probes_return. by rewrite Hroot. }
      split; [| split; [exact Hup | split]].
      * unfold tested, result_for, passes, gui_only. rewrite Hroot. simpl.
        rewrite Hid, Hname, Htid, Hrname.
        split; [by exists evs |]. split; [done |]. split.
        -- rewrite Hpass, andb_true_iff, child_passes_spec. done.
        -- rewrite Hskip, andb_true_iff. done.
      * unfold probes_of. by rewrite Hroot.
      * unfold child_of. by rewrite Hroot.
    + split.
      * intros (_ & _ & Hret). unfold probes_return in Hret. rewrite Hroot in Hret.
        congruence.
      * rewrite Hspawns. unfold all_checks_pass, probe_fault, found in *.
        repeat case_match; simplify_eq; reflexivity.
  - destruct (test_tool_unready t) as (e & evs & Hrun & (Hp & Hs & Hr & Ho) & Hup & _).
    { by intros [Hwf _]. }
    exists (Raise e), evs. rewrite Hp, Hs. split; [exact Hrun |].
    split; [by split |]. split; [exact Hup |]. split; [simpl; lia |].
    split; [| done]. by intros (Hwf & _).
Qed.

(** A testable entry gets a result, and one only. *)
Lemma testable_tested (t : entry) :
  testable (W:=W) t →
  ∃ r (evs : list (event W)),
    emits (W:=W) (test_tool t) (Ok r) evs ∧
    tested (W:=W) t r ∧
    status_updates evs = [testing_update t] ∧
    results_files evs = [] ∧ opened evs = [] ∧
    probes evs = probes_of t ∧
    spawns evs = child_of (W:=W) t.
Proof.
  intros Hok.
  destruct (test_tool_any t) as (o & evs & Hrun & (Hres & Hopen) & _ & _ & Hcase).
  destruct o as [r | e]; [| by destruct Hcase as [Hnot _]].
  destruct Hcase as (_ & Htested & Hup & Hprobes & Hspawns).
  by exists r, evs.
Qed.

Lemma testable_not_raises (t : entry) e : testable (W:=W) t → ¬ raises (W:=W) t e.
Proof.
  intros Hok [evs' Hraise].
  destruct (testable_tested t Hok) as (r & evs & Hrun & _).
  by destruct (emits_unique _ _ _ _ _ Hrun Hraise) as [? _].
Qed.

Lemma result_of_unique (t : entry) r r' :
  result_of (W:=W) t r → result_of (W:=W) t r' → r = r'.
Proof.
  intros [evs Hrun] [evs' Hrun'].
  destruct (emits_unique _ _ _ _ _ Hrun Hrun') as [[= ->] _]. reflexivity.
Qed.

End OneTool.

(** ** A walk over the manifest *)

Section Walk.
Context {W : World}.

Local Arguments update_status : simpl never.
Local Arguments test_each : simpl never.
Local Arguments test_tool : simpl never.
Local Arguments generate_summary : simpl never.
Local Arguments load_studio_config : simpl never.
Local Arguments find_tool : simpl never.
Local Arguments each_updates : simpl never.

Lemma test_each_raise total_tools i t rest e (evs : list (event W)) :
  emits (W:=W) (test_tool t) (Raise e) evs →
  performs (W:=W) (test_each total_tools i (t :: rest)) (Raise e) [] evs.
Proof.
  intros Hrun s. unfold test_each; fold (test_each (W:=W)).
  unfold mbind, M_bind. by rewrite Hrun, extend_log_to.
Qed.

Lemma test_each_unwritten total_tools i t rest r e (evs : list (event W)) :
  emits (W:=W) (test_tool t) (Ok r) evs →
  status_write W (tested_update (i + 1) total_tools) = Some e →
  performs (W:=W) (test_each total_tools i (t :: rest)) (Raise e) [r] evs.
Proof.
  intros Hrun Hw s. unfold test_each; fold (test_each (W:=W)).
  unfold mbind, M_bind, append_result. rewrite Hrun. simpl.
  rewrite (update_status_fails _ _ _ e) by exact Hw. reflexivity.
Qed.

Lemma test_each_step total_tools i t rest r o rs (evs1 evs2 : list (event W)) :
  emits (W:=W) (test_tool t) (Ok r) evs1 →
  status_write W (tested_update (i + 1) total_tools) = None →
  performs (W:=W) (test_each total_tools (S i) rest) o rs evs2 →
  performs (W:=W) (test_each total_tools i (t :: rest)) o (r :: rs)
    (evs1 ++ StatusWrite (tested_update (i + 1) total_tools) :: evs2).
Proof.
  intros Hrun Hw Hrest s. unfold test_each; fold (test_each (W:=W)).
  unfold mbind, M_bind, append_result. rewrite Hrun. simpl.
  rewrite update_status_ok by exact Hw. simpl. rewrite Hrest.
  unfold extend, log_to. simpl. rewrite <- !app_assoc. reflexivity.
Qed.

(** The loop of [test_all_tools], whatever the entries and the world. *)
Lemma test_each_any total_tools (tools : list entry) :
  ∀ i, ∃ o rs (evs : list (event W)),
    performs (W:=W) (test_each total_tools i tools) o rs evs ∧
    (results_files evs = [] ∧ opened evs = []) ∧
    length rs ≤ length tools ∧
    Forall2 (tested (W:=W)) (take (length rs) tools) rs ∧
    status_updates evs `prefix_of` each_updates total_tools i tools ∧
    match o with
    | Ok _ =>
        Forall2 (tested (W:=W)) tools rs ∧
        status_updates evs = each_updates total_tools i tools ∧
        probes evs = tools ≫= probes_of ∧
        spawns evs = tools ≫= child_of (W:=W)
    | Raise e =>
        (∃ sd, status_write W sd = Some e) ∨
        (∃ t, t ∈ tools ∧ raises (W:=W) t e)
    end.
Proof.
  induction tools as [| t rest IH]; intros i.
  - exists (Ok tt), [], []. split; [apply emits_performs, emits_ret |].
    split; [done |]. split; [done |]. split; [constructor |]. split; [done |].
    by repeat split.
  - destruct (test_tool_any (W:=W) t) as (o1 & evs1 & Hrun & (Hres & Hopen) & Hups & _ & Hcase).
    destruct o1 as [r | e].
    2: { exists (Raise e), [], evs1. split; [by apply test_each_raise |].
         split; [done |]. split; [simpl; lia |]. split; [constructor |]. split.
         - destruct Hups as [-> | ->]; [apply prefix_nil |].
           simpl. apply prefix_cons, prefix_nil.
         - right. exists t. split; [by left | by exists evs1]. }
    destruct Hcase as (Hok & Htested & Hup & Hprobes & Hspawns).
    destruct (status_write W (tested_update (i + 1) total_tools)) as [e |] eqn:Hw.
    { exists (Raise e), [r], evs1. split; [by apply test_each_unwritten |].
      split; [done |]. split; [simpl; lia |]. split.
      - simpl. rewrite take_0. constructor; [exact Htested | constructor].
      - split; [rewrite Hup; simpl; apply prefix_cons, prefix_nil |].
        left. by eexists. }
    destruct (IH (S i)) as (o & rs & evs2 & Hrest & (Hres2 & Hopen2) & Hlen & Hpre & Hups2 & Hcase).
    exists o, (r :: rs), (evs1 ++ [StatusWrite (tested_update (i + 1) total_tools)] ++ evs2).
    split; [by apply test_each_step |].
    split; [split_trace; by rewrite Hres, Hres2, Hopen, Hopen2 |].
    split; [simpl; lia |]. split; [simpl; by constructor |]. split.
    { split_trace. rewrite Hup. simpl. by do 2 apply prefix_cons. }
    destruct o as [[] | e].
    + destruct Hcase as (Hall & Hup2 & Hprobes2 & Hspawns2).
      split; [by constructor |]. rewrite !bind_cons. split_trace.
      rewrite Hup, Hup2, Hprobes, Hprobes2, Hspawns, Hspawns2. by repeat split.
    + destruct Hcase as [Hsd | (t' & Hin & Hraise)]; [by left |].
      right. exists t'. split; [by right | exact Hraise].
Qed.

(** The loop over entries that are testable, the status file being
    writable. *)
Lemma test_each_footprint total_tools (tools : list entry) i :
  Forall (testable (W:=W)) tools →
  status_writable W →
  ∃ rs (evs : list (event W)),
    performs (W:=W) (test_each total_tools i tools) (Ok tt) rs evs ∧
    Forall2 (tested (W:=W)) tools rs ∧
    status_updates evs = each_updates total_tools i tools ∧
    results_files evs = [] ∧ opened evs = [] ∧
    probes evs = tools ≫= probes_of ∧
    spawns evs = tools ≫= child_of (W:=W).
Proof.
  intros Hok Hw.
  destruct (test_each_any total_tools tools i)
    as (o & rs & evs & Hrun & (Hres & Hopen) & _ & _ & _ & Hcase).
  destruct o as [[] | e].
  - destruct Hcase as (Hall & Hup & Hprobes & Hspawns). by exists rs, evs.
  - destruct Hcase as [[sd Hsd] | (t & Hin & Hraise)].
    + by rewrite Hw in Hsd.
    + rewrite Forall_forall in Hok. by destruct (testable_not_raises (W:=W) t e (Hok t Hin)).
Qed.

(** The loop up to an entry whose test raises. *)
Lemma test_each_aborts total_tools (pre : list entry) bad post e (evs' : list (event W)) :
  Forall (testable (W:=W)) pre →
  status_writable W →
  emits (W:=W) (test_tool bad) (Raise e) evs' →
  ∀ i, ∃ rs (evs : list (event W)),
    performs (W:=W) (test_each total_tools i (pre ++ bad :: post)) (Raise e) rs
      (evs ++ evs') ∧
    Forall2 (tested (W:=W)) pre rs ∧
    status_updates evs = each_updates total_tools i pre ∧
    results_files evs = [] ∧ opened evs = [] ∧
    probes evs = pre ≫= probes_of ∧
    spawns evs = pre ≫= child_of (W:=W).
Proof.
  intros Hpre Hw Hbad. induction Hpre as [| t rest Hok _ IH]; intros i.
  - exists [], []. split; [by apply test_each_raise | by repeat split].
  - destruct (testable_tested (W:=W) t Hok)
      as (r & evs1 & Hrun & Htested & Hup & Hres & Hopen & Hprobes & Hspawns).
    destruct (IH (S i)) as (rs & evs2 & Hrest & Hall & Hup2 & Hres2 & Hopen2 & Hprobes2 & Hspawns2).
    exists (r :: rs), (evs1 ++ [StatusWrite (tested_update (i + 1) total_tools)] ++ evs2).
    split.
    + rewrite <- !app_assoc. by apply test_each_step.
    + split; [by constructor |]. rewrite !bind_cons. split_trace.
      rewrite Hup, Hup2, Hres, Hres2, Hopen, Hopen2, Hprobes, Hprobes2, Hspawns, Hspawns2.
      by repeat split.
Qed.

(** ** The manifest and the summary *)

Lemma load_studio_config_any :
  ∃ o (evs : list (event W)),
    emits (W:=W) load_studio_config o evs ∧
    (status_updates evs = [] ∧ results_files evs = [] ∧
     probes evs = [] ∧ spawns evs = []) ∧
    opened evs = [studio_config_path W] ∧
    match studio_config W with
    | ConfigLoaded tools => o = Ok (default (Sequence []) tools) ∧ logged ERROR evs = []
    | ConfigNotFound =>
        o = Ok (Sequence []) ∧
        logged ERROR evs
          = ["Studio config not found: " +:+ path_str W (studio_config_path W)]
    | ConfigRaised e => o = Raise e ∧ logged ERROR evs = []
    end.
Proof.
  unfold load_studio_config.
  destruct (studio_config W) as [| e | tools]; eexists; eexists;
    (split; [intros s; unfold_engine; finish_emits | by repeat split]).
Qed.

Lemma load_studio_config_returns tools :
  manifest_of (studio_config W) = Some tools →
  ∃ evs : list (event W),
    emits (W:=W) load_studio_config (Ok tools) evs ∧
    (status_updates evs = [] ∧ results_files evs = [] ∧
     probes evs = [] ∧ spawns evs = []) ∧
    opened evs = [studio_config_path W].
Proof.
  intros Hload.
  destruct load_studio_config_any as (o & evs & Hrun & Hquiet & Hopen & Hcase).
  exists evs. split; [| by split].
  destruct (studio_config W) as [| e | o']; simplify_eq/=; by destruct Hcase as [-> _].
Qed.

Lemma config_raised_emits e :
  studio_config W = ConfigRaised e →
  emits (W:=W) load_studio_config (Raise e) [OpenConfig (studio_config_path W)].
Proof.
  intros Hcfg s. unfold load_studio_config. rewrite Hcfg. unfold_engine. finish_emits.
Qed.

Lemma manifest_cases :
  (∃ e, studio_config W = ConfigRaised e) ∨
  (∃ tools, manifest_of (studio_config W) = Some tools).
Proof. destruct (studio_config W) as [| e | o]; eauto. Qed.

Lemma log_results_lines (results : list TestResult) :
  emits (W:=W) (log_results results) (Ok tt) (Log INFO <$> (result_line <$> results)).
Proof.
  induction results as [| r rest IH]; [apply emits_ret |].
  simpl log_results. rewrite !fmap_cons.
  by apply (emits_bind _ _ tt _ [_] _); [apply emits_emit |].
Qed.

(** [generate_summary] up to the final status. *)
Lemma generate_summary_unfold (s : engine W) :
  generate_summary s =
    match update_status (sd_status (summary_update (test_results s))) 100
            (sd_message (summary_update (test_results s)))
            (log_to s (Log INFO <$> summary_lines (test_results s))) with
    | (Ok _, s1) =>
        match dump_results (test_results s) s1 with
        | (Ok _, s2) =>
            (Ok tt, log_to s2 [Log INFO ("Results saved to: "
                                          +:+ path_str W (results_file W))])
        | (Raise e, s2) => (Raise e, s2)
        end
    | (Raise e, s1) => (Raise e, s1)
    end.
Proof.
  unfold generate_summary, get_results, logger_info, emit, mbind, M_bind. simpl.
  rewrite (log_results_lines (test_results s)).
  unfold summary_update, final_status, summary_lines, log_to.
  destruct (bool_decide (0 < count_status "fail" (test_results s))); simpl;
    rewrite ?fmap_app, <- ?app_assoc; simpl;
    (destruct (update_status _ _ _ _) as [[[] | e] s1]; [| reflexivity]);
    destruct (dump_results (test_results s) s1) as [[[] | e'] s2]; reflexivity.
Qed.

Lemma summary_update_fields (rs : list TestResult) :
  {| sd_status := sd_status (summary_update rs); sd_progress := 100;
     sd_message := sd_message (summary_update rs) |} = summary_update rs.
Proof. unfold summary_update, final_status. by case_bool_decide. Qed.

(** [generate_summary] when both files can be written. *)
Lemma generate_summary_trace (s : engine W) :
  status_write W (summary_update (test_results s)) = None →
  results_write W (test_results s) = None →
  generate_summary s = (Ok tt, log_to s (summary_events (test_results s))).
Proof.
  intros Hw Hr. rewrite generate_summary_unfold.
  rewrite update_status_ok by (by rewrite summary_update_fields).
  rewrite summary_update_fields. simpl. rewrite dump_results_ok by exact Hr.
  unfold summary_events, log_to. simpl. rewrite <- ?app_assoc. reflexivity.
Qed.

(** [generate_summary] when the status file cannot be written. *)
Lemma generate_summary_unwritten (s : engine W) e :
  status_write W (summary_update (test_results s)) = Some e →
  generate_summary s = (Raise e, log_to s (Log INFO <$> summary_lines (test_results s))).
Proof.
  intros Hw. rewrite generate_summary_unfold.
  by rewrite (update_status_fails _ _ _ e) by (by rewrite summary_update_fields).
Qed.

(** [generate_summary] when the results file cannot be written. *)
Lemma generate_summary_unsaved (s : engine W) e :
  status_write W (summary_update (test_results s)) = None →
  results_write W (test_results s) = Some e →
  generate_summary s = (Raise e, log_to s (summary_events_unsaved (test_results s))).
Proof.
  intros Hw Hr. rewrite generate_summary_unfold.
  rewrite update_status_ok by (by rewrite summary_update_fields).
  rewrite summary_update_fields. simpl. rewrite (dump_results_fails _ e) by exact Hr.
  unfold summary_events_unsaved, log_to. simpl. rewrite <- !app_assoc. reflexivity.
Qed.

Lemma omap_log {B} (f : event W → option B) lvl (lines : list string) :
  (∀ line, f (Log lvl line) = None) → omap f (Log lvl <$> lines) = [].
Proof.
  intros Hf. induction lines as [| line rest IH]; [done |].
  rewrite fmap_cons. simpl. by rewrite Hf.
Qed.

Lemma summary_events_footprint (results : list TestResult) :
  status_updates (summary_events (W:=W) results) = [summary_update results] ∧
  results_files (summary_events (W:=W) results) = [results] ∧
  opened (summary_events (W:=W) results) = [] ∧
  probes (summary_events (W:=W) results) = [] ∧
  spawns (summary_events (W:=W) results) = [].
Proof.
  unfold summary_events, status_updates, results_files, opened, probes, spawns.
  rewrite !omap_app, !omap_log by done. by repeat split.
Qed.

Lemma summary_lines_footprint (results : list TestResult) :
  status_updates (Log INFO <$> summary_lines results : list (event W)) = [] ∧
  results_files (Log INFO <$> summary_lines results : list (event W)) = [] ∧
  opened (Log INFO <$> summary_lines results : list (event W)) = [] ∧
  probes (Log INFO <$> summary_lines results : list (event W)) = [] ∧
  spawns (Log INFO <$> summary_lines results : list (event W)) = [].
Proof.
  unfold status_updates, results_files, opened, probes, spawns.
  rewrite !omap_log by done. by repeat split.
Qed.

Lemma summary_events_unsaved_footprint (results : list TestResult) :
  status_updates (summary_events_unsaved (W:=W) results) = [summary_update results] ∧
  results_files (summary_events_unsaved (W:=W) results) = [] ∧
  opened (summary_events_unsaved (W:=W) results) = [] ∧
  probes (summary_events_unsaved (W:=W) results) = [] ∧
  spawns (summary_events_unsaved (W:=W) results) = [].
Proof.
  unfold summary_events_unsaved, status_updates, results_files, opened, probes, spawns.
  rewrite !omap_app, !omap_log by done. by repeat split.
Qed.

(** What [generate_summary] comes to, whatever the world. *)
Lemma generate_summary_any (s : engine W) :
  ∃ o (evs : list (event W)),
    generate_summary s = (o, log_to s evs) ∧
    (opened evs = [] ∧ probes evs = [] ∧ spawns evs = []) ∧
    status_updates evs `prefix_of` [summary_update (test_results s)] ∧
    match o with
    | Ok _ => evs = summary_events (test_results s)
    | Raise e =>
        results_files evs = [] ∧
        (status_write W (summary_update (test_results s)) = Some e ∨
         results_write W (test_results s) = Some e)
    end.
Proof.
  destruct (status_write W (summary_update (test_results s))) as [e |] eqn:Hw;
    [| destruct (results_write W (test_results s)) as [e |] eqn:Hr].
  - destruct (summary_lines_footprint (test_results s)) as (Hup & Hres & Hopen & Hp & Hs).
    exists (Raise e). eexists. split; [by apply generate_summary_unwritten |].
    rewrite Hup, Hres, Hopen, Hp, Hs. split; [done |]. split; [apply prefix_nil |]. auto.
  - destruct (summary_events_unsaved_footprint (test_results s))
      as (Hup & Hres & Hopen & Hp & Hs).
    exists (Raise e). eexists. split; [by apply generate_summary_unsaved |].
    rewrite Hup, Hres, Hopen, Hp, Hs. split; [done |]. split; [done |]. auto.
  - destruct (summary_events_footprint (test_results s)) as (Hup & Hres & Hopen & Hp & Hs).
    exists (Ok tt). eexists. split; [by apply generate_summary_trace |].
    rewrite Hup, Hopen, Hp, Hs. by repeat split.
Qed.

(** ** Looking a tool up *)

Lemma find_tool_first (pre : list entry) d post t :
  Forall (other_id t) pre → has_id t (Obj d) = true →
  emits (W:=W) (find_tool (pre ++ Obj d :: post) t) (Ok (Some d)) [].
Proof.
  intros Hpre Hd. induction Hpre as [| x rest (v & Hv & Hne) _ IH]; simpl.
  - unfold has_id, field in Hd. destruct (d !! "id") as [v |] eqn:Hv; [| done].
    intros s. unfold find_tool; fold (find_tool (W:=W)). unfold_engine.
    rewrite Hv, Hd. by rewrite log_to_nil.
  - destruct x as [dx | vx]; [| discriminate]. simpl in Hv.
    intros s. unfold find_tool; fold (find_tool (W:=W)). unfold_engine.
    rewrite Hv, Hne. apply IH.
Qed.

Lemma find_tool_none (tools : list entry) t :
  Forall (other_id t) tools → emits (W:=W) (find_tool tools t) (Ok None) [].
Proof.
  induction 1 as [| x rest (v & Hv & Hne) _ IH]; [apply emits_ret |].
  destruct x as [dx | vx]; [| discriminate]. simpl in Hv.
  intros s. unfold find_tool; fold (find_tool (W:=W)). unfold_engine.
  rewrite Hv, Hne. apply IH.
Qed.

Lemma find_tool_idless (pre : list entry) bad post t :
  Forall (other_id t) pre → field bad "id" = None →
  emits (W:=W) (find_tool (pre ++ bad :: post) t) (Raise (no_id_error (W:=W) bad)) [].
Proof.
  intros Hpre Hbad. induction Hpre as [| x rest (v & Hv & Hne) _ IH]; simpl.
  - intros s. unfold find_tool; fold (find_tool (W:=W)). unfold_engine.
    destruct bad as [d | v]; simpl in *; [rewrite Hbad |]; by rewrite log_to_nil.
  - destruct x as [dx | vx]; [| discriminate]. simpl in Hv.
    intros s. unfold find_tool; fold (find_tool (W:=W)). unfold_engine.
    rewrite Hv, Hne. apply IH.
Qed.

(** An entry without an id makes [test_tool] raise what the look-up
    raises. *)
Lemma idless_raises (bad : entry) :
  field bad "id" = None → raises (W:=W) bad (no_id_error (W:=W) bad).
Proof.
  intros Hbad. exists []. intros s. unfold_engine.
  destruct bad as [d | v]; simpl in *; [rewrite Hbad |]; by rewrite log_to_nil.
Qed.

(** The three ways a look-up can go. *)
Lemma find_tool_split (tools : list entry) t :
  (∃ pre d post, tools = pre ++ Obj d :: post ∧ Forall (other_id t) pre ∧
                 has_id t (Obj d) = true) ∨
  Forall (other_id t) tools ∨
  (∃ pre bad post, tools = pre ++ bad :: post ∧ Forall (other_id t) pre ∧
                   field bad "id" = None).
Proof.
  induction tools as [| x rest IH]; [right; left; constructor |].
  destruct (field x "id") as [v |] eqn:Hv.
  - destruct (py_eq_str v t) eqn:Heq.
    + left. destruct x as [d | vx]; [| discriminate].
      exists [], d, rest. repeat split; [constructor |]. unfold has_id. by rewrite Hv.
    + assert (Hx : other_id t x) by by exists v.
      destruct IH as [(pre & d & post & -> & Hpre & Hd) | [Hall | (pre & bad & post & -> & Hpre & Hbad)]].
      * left. exists (x :: pre), d, post. repeat split; [by constructor | done].
      * right; left. by constructor.
      * right; right. exists (x :: pre), bad, post. repeat split; [by constructor | done].
  - right; right. exists [], x, rest. repeat split; [constructor | done].
Qed.

Lemma has_id_non_empty t (d : gmap string atom) : has_id t (Obj d) = true → d ≠ ∅.
Proof. intros Hd ->. unfold has_id, field in Hd. by rewrite lookup_empty in Hd. Qed.

(** ** The two operations *)

Lemma test_all_tools_unfold (s : engine W) :
  test_all_tools s =
    match update_status "running" 0 "Loading tools..."
            (log_to s [Log INFO "Starting test suite for all tools"]) with
    | (Raise e, s1) => (Raise e, s1)
    | (Ok _, s1) =>
        match load_studio_config s1 with
        | (Raise e, s2) => (Raise e, s2)
        | (Ok tools, s2) =>
            if not_ tools then
              update_status "error" 0 "No tools to test"
                (log_to s2 [Log ERROR "No tools found in studio_config.json"])
            else
              match tools with
              | Scalar v => (Raise (TypeError (type_error W (NoLen v))), s2)
              | Sequence items =>
                  match test_each (length items) 0 items
                          (log_to s2 [Log INFO ("Found " +:+ pretty (length items)
                                                +:+ " registered tools")]) with
                  | (Raise e, s3) => (Raise e, s3)
                  | (Ok _, s3) => generate_summary s3
                  end
              end
        end
    end.
Proof.
  unfold test_all_tools, logger_info, logger_error, emit, mbind, M_bind. simpl.
  unfold log_to. simpl.
  destruct (update_status _ _ _ _) as [[[] | e] s1]; [| reflexivity].
  destruct (load_studio_config s1) as [[tools | e] s2]; [| reflexivity].
  destruct (not_ tools); [reflexivity |].
  destruct tools as [items | v]; [| reflexivity]. simpl.
  destruct (test_each _ _ _ _) as [[[] | e] s3]; reflexivity.
Qed.

Lemma items_of_sequence items :
  manifest_of (studio_config W) = Some (Sequence items) → items_of (studio_config W) = items.
Proof. intros H. unfold items_of. by rewrite H. Qed.

Lemma items_of_scalar v :
  manifest_of (studio_config W) = Some (Scalar v) → items_of (studio_config W) = [].
Proof. intros H. unfold items_of. by rewrite H. Qed.

Lemma items_of_raised e :
  studio_config W = ConfigRaised e → items_of (studio_config W) = [].
Proof. intros H. unfold items_of. by rewrite H. Qed.

Lemma not_items tools :
  manifest_of (studio_config W) = Some tools → not_ tools = true →
  items_of (studio_config W) = [].
Proof.
  intros H Hnot. unfold items_of. rewrite H. by destruct tools as [[| ? ?] | v].
Qed.

(** What [test_all_tools] comes to, whatever the world. *)
Lemma test_all_tools_any (s : engine W) :
  let tools := items_of (studio_config W) in
  ∃ o rs (evs : list (event W)),
    test_all_tools s = (o, extend s rs evs) ∧
    length rs ≤ length tools ∧
    Forall2 (tested (W:=W)) (take (length rs) tools) rs ∧
    status_updates evs `prefix_of` suite_updates tools (test_results s ++ rs) ∧
    match o with
    | Ok _ =>
        Forall2 (tested (W:=W)) tools rs ∧
        status_updates evs = suite_updates tools (test_results s ++ rs) ∧
        results_files evs =
          match tools with [] => [] | _ :: _ => [test_results s ++ rs] end ∧
        opened evs = [studio_config_path W] ∧
        probes evs = tools ≫= probes_of ∧
        spawns evs = tools ≫= child_of (W:=W)
    | Raise e => results_files evs = [] ∧ blocked (W:=W) e
    end.
Proof.
  intros tools. rewrite test_all_tools_unfold.
  destruct (status_write W loading_update) as [e |] eqn:Hw0.
  { rewrite (update_status_fails _ _ _ e) by exact Hw0.
    exists (Raise e), [], [Log INFO "Starting test suite for all tools"].
    split; [same_state |]. split; [simpl; lia |]. split; [constructor |].
    split; [apply prefix_nil |]. split; [done |]. left. by eexists. }
  rewrite update_status_ok by exact Hw0.
  destruct manifest_cases as [[e Hcfg] | [tv Hload]].
  { rewrite (config_raised_emits e Hcfg).
    exists (Raise e), [], [Log INFO "Starting test suite for all tools";
                           StatusWrite loading_update; OpenConfig (studio_config_path W)].
    split; [same_state |]. split; [simpl; lia |]. split; [constructor |].
    split; [apply prefix_cons, prefix_nil |]. split; [done |]. right; right; by left. }
  destruct (load_studio_config_returns tv Hload)
    as (evs0 & Hcfg & (Hup0 & Hres0 & Hprobes0 & Hspawns0) & Hopen0).
  rewrite Hcfg. destruct (not_ tv) eqn:Hnot.
  { assert (Htools : tools = []) by by apply (not_items tv).
    rewrite Htools.
    destruct (status_write W no_tools_update) as [e |] eqn:Hw1.
    - rewrite (update_status_fails _ _ _ e) by exact Hw1.
      exists (Raise e), [],
        ([Log INFO "Starting test suite for all tools"; StatusWrite loading_update]
         ++ evs0 ++ [Log ERROR "No tools found in studio_config.json"]).
      split; [same_state |]. split; [simpl; lia |]. split; [constructor |].
      split_trace. rewrite Hup0, Hres0. simpl.
      split; [apply prefix_cons, prefix_nil |]. split; [done |]. left. by eexists.
    - rewrite update_status_ok by exact Hw1.
      exists (Ok tt), [],
        ([Log INFO "Starting test suite for all tools"; StatusWrite loading_update]
         ++ evs0 ++ [Log ERROR "No tools found in studio_config.json";
                     StatusWrite no_tools_update]).
      split; [same_state |]. split; [simpl; lia |]. split; [constructor |].
      split_trace. rewrite Hup0, Hres0, Hprobes0, Hspawns0, Hopen0. simpl.
      split; [done |]. split; [constructor |]. by repeat split. }
  destruct tv as [items | v].
  2: { assert (Htools : tools = []) by by apply (items_of_scalar v).
       rewrite Htools.
       exists (Raise (TypeError (type_error W (NoLen v)))), [],
         ([Log INFO "Starting test suite for all tools"; StatusWrite loading_update]
          ++ evs0).
       split; [same_state |]. split; [simpl; lia |]. split; [constructor |].
       split_trace. rewrite Hup0, Hres0. simpl.
       split; [apply prefix_cons, prefix_nil |]. split; [done |].
       right; right; right; left. by exists v. }
  assert (Htools : tools = items) by by apply items_of_sequence.
  rewrite Htools. clear Htools.
  destruct items as [| t0 rest]; [discriminate |].
  set (items := t0 :: rest) in *.
  destruct (test_each_any (length items) items 0)
    as (o1 & rs & evs1 & Hrun & (Hres1 & Hopen1) & Hlen & Hpre & Hups & Hcase).
  rewrite Hrun.
  set (found := Log INFO ("Found " +:+ pretty (length items) +:+ " registered tools")).
  assert (Hblocked : ∀ e,
            (∃ sd, status_write W sd = Some e) ∨ (∃ t, t ∈ items ∧ raises (W:=W) t e) →
            blocked (W:=W) e).
  { intros e [Hsd | (t & Hin & Hraise)]; [by left |].
    do 4 right. exists t. by rewrite (items_of_sequence items Hload). }
  destruct o1 as [[] | e].
  2: { exists (Raise e), rs,
         ([Log INFO "Starting test suite for all tools"; StatusWrite loading_update]
          ++ evs0 ++ [found] ++ evs1).
       split; [same_state |]. split; [exact Hlen |]. split; [exact Hpre |].
       split_trace. rewrite Hup0, Hres0, Hres1.
       unfold suite_updates. subst items. cbn -[each_updates length].
       split; [| split; [done | by apply Hblocked]].
       apply prefix_cons. etrans; [exact Hups |]. apply prefix_app_r. done. }
  destruct Hcase as (Hall & Hup1 & Hprobes1 & Hspawns1).
  match goal with |- context [generate_summary ?st] =>
    destruct (generate_summary_any st) as (o2 & evs2 & Hsum & (Hopen2 & Hprobes2 & Hspawns2)
                                           & Hups2 & Hcase2);
    rewrite Hsum;
    assert (Hst : test_results st = test_results s ++ rs) by reflexivity
  end.
  rewrite Hst in *. clear Hst.
  exists o2, rs,
    ([Log INFO "Starting test suite for all tools"; StatusWrite loading_update]
     ++ evs0 ++ [found] ++ evs1 ++ evs2).
  split; [same_state |]. split; [exact Hlen |]. split; [exact Hpre |].
  split_trace. rewrite Hup0, Hres0, Hres1, Hup1, Hopen0, Hopen1, Hopen2, Hprobes0, Hprobes1,
    Hprobes2, Hspawns0, Hspawns1, Hspawns2.
  unfold suite_updates. subst items. cbn -[each_updates length]. rewrite !app_nil_r.
  split; [apply prefix_cons, prefix_app; exact Hups2 |].
  destruct o2 as [[] | e].
  - subst evs2. destruct (summary_events_footprint (test_results s ++ rs))
      as (Hup2 & Hres2 & _). rewrite Hup2, Hres2. by repeat split.
  - destruct Hcase2 as (Hres2 & Hwhy). split; [exact Hres2 |].
    destruct Hwhy as [Hsd | Hrs]; [left | right; left]; by eexists.
Qed.

Lemma tool_not_found_unfold t (s : engine W) :
  tool_not_found t s
  = update_status "error" 0 ("Tool '" +:+ t +:+ "' not found")
      (log_to s [Log ERROR ("Tool not found: " +:+ t)]).
Proof. reflexivity. Qed.

Lemma test_single_tool_unfold t (s : engine W) :
  test_single_tool t s =
    match load_studio_config (log_to s [Log INFO ("Testing single tool: " +:+ t)]) with
    | (Raise e, s1) => (Raise e, s1)
    | (Ok tools, s1) =>
        match tools with
        | Scalar v => (Raise (TypeError (type_error W (NotIterable v))), s1)
        | Sequence items =>
            match find_tool items t s1 with
            | (Raise e, s2) => (Raise e, s2)
            | (Ok None, s2) => tool_not_found t s2
            | (Ok (Some d), s2) =>
                if bool_decide (d = ∅) then tool_not_found t s2
                else
                  match test_tool (Obj d) s2 with
                  | (Raise e, s3) => (Raise e, s3)
                  | (Ok r, s3) => generate_summary (append_result r s3).2
                  end
            end
        end
    end.
Proof.
  unfold test_single_tool, logger_info, emit, mbind, M_bind. simpl.
  unfold log_to. simpl.
  destruct (load_studio_config _) as [[tools | e] s1]; [| reflexivity].
  destruct tools as [items | v]; [| reflexivity]. simpl.
  destruct (find_tool items t s1) as [[[d |] | e] s2]; try reflexivity.
  unfold falsy. destruct (bool_decide (d = ∅)); [reflexivity |].
  destruct (test_tool (Obj d) s2) as [[r | e] s3]; reflexivity.
Qed.

Lemma test_single_tool_config_raised e t (s : engine W) :
  studio_config W = ConfigRaised e →
  test_single_tool t s =
    (Raise e, log_to s [Log INFO ("Testing single tool: " +:+ t);
                        OpenConfig (studio_config_path W)]).
Proof.
  intros Hcfg. rewrite test_single_tool_unfold, (config_raised_emits e Hcfg). same_state.
Qed.

Lemma test_single_tool_scalar v t (s : engine W) :
  manifest_of (studio_config W) = Some (Scalar v) →
  ∃ evs0 : list (event W),
    test_single_tool t s =
      (Raise (TypeError (type_error W (NotIterable v))),
       log_to s ([Log INFO ("Testing single tool: " +:+ t)] ++ evs0)) ∧
    (status_updates evs0 = [] ∧ results_files evs0 = [] ∧
     probes evs0 = [] ∧ spawns evs0 = []) ∧
    opened evs0 = [studio_config_path W].
Proof.
  intros Hload.
  destruct (load_studio_config_returns _ Hload) as (evs0 & Hcfg & Hquiet & Hopen0).
  exists evs0. split; [| by split].
  rewrite test_single_tool_unfold, Hcfg. same_state.
Qed.

(** The look-up meets an entry without an id. *)
Lemma test_single_tool_idless (pre : list entry) bad post t (s : engine W) :
  manifest_of (studio_config W) = Some (Sequence (pre ++ bad :: post)) →
  Forall (other_id t) pre → field bad "id" = None →
  ∃ evs : list (event W),
    test_single_tool t s = (Raise (no_id_error (W:=W) bad), log_to s evs) ∧
    status_updates evs = [] ∧
    results_files evs = [] ∧
    opened evs = [studio_config_path W] ∧
    probes evs = [] ∧ spawns evs = [].
Proof.
  intros Hload Hpre Hbad.
  destruct (load_studio_config_returns _ Hload)
    as (evs0 & Hcfg & (Hup0 & Hres0 & Hprobes0 & Hspawns0) & Hopen0).
  exists ([Log INFO ("Testing single tool: " +:+ t)] ++ evs0).
  split.
  - rewrite test_single_tool_unfold, Hcfg, (find_tool_idless pre bad post t Hpre Hbad).
    same_state.
  - split_trace. rewrite Hup0, Hres0, Hprobes0, Hspawns0, Hopen0. by repeat split.
Qed.

(** The look-up finds nothing. *)
Lemma test_single_tool_not_found (tools : list entry) t (s : engine W) :
  manifest_of (studio_config W) = Some (Sequence tools) →
  Forall (other_id t) tools →
  ∃ evs0 : list (event W),
    test_single_tool t s
    = update_status "error" 0 ("Tool '" +:+ t +:+ "' not found")
        (log_to s ([Log INFO ("Testing single tool: " +:+ t)] ++ evs0
                   ++ [Log ERROR ("Tool not found: " +:+ t)])) ∧
    (status_updates evs0 = [] ∧ results_files evs0 = [] ∧
     probes evs0 = [] ∧ spawns evs0 = []) ∧
    opened evs0 = [studio_config_path W].
Proof.
  intros Hload Hall.
  destruct (load_studio_config_returns _ Hload) as (evs0 & Hcfg & Hquiet & Hopen0).
  exists evs0. split; [| by split].
  rewrite test_single_tool_unfold, Hcfg, (find_tool_none tools t Hall), tool_not_found_unfold.
  f_equal. same_state.
Qed.

(** The look-up finds an entry. *)
Lemma test_single_tool_found (pre : list entry) d post t (s : engine W) :
  manifest_of (studio_config W) = Some (Sequence (pre ++ Obj d :: post)) →
  Forall (other_id t) pre → has_id t (Obj d) = true →
  ∃ evs0 : list (event W),
    test_single_tool t s
    = match test_tool (Obj d)
              (log_to s ([Log INFO ("Testing single tool: " +:+ t)] ++ evs0)) with
      | (Raise e, s3) => (Raise e, s3)
      | (Ok r, s3) => generate_summary (append_result r s3).2
      end ∧
    (status_updates evs0 = [] ∧ results_files evs0 = [] ∧
     probes evs0 = [] ∧ spawns evs0 = []) ∧
    opened evs0 = [studio_config_path W].
Proof.
  intros Hload Hpre Hd.
  destruct (load_studio_config_returns _ Hload) as (evs0 & Hcfg & Hquiet & Hopen0).
  exists evs0. split; [| by split].
  rewrite test_single_tool_unfold, Hcfg, (find_tool_first pre d post t Hpre Hd).
  rewrite bool_decide_eq_false_2 by by eapply has_id_non_empty.
  rewrite !log_to_nil, log_to_app. reflexivity.
Qed.

(** What [test_single_tool] comes to, whatever the world. *)
Lemma test_single_tool_any t (s : engine W) :
  ∃ o rs (evs : list (event W)),
    test_single_tool t s = (o, extend s rs evs) ∧
    (status_updates evs `prefix_of` [not_found_update t] ∨
     ∃ d, status_updates evs
          `prefix_of` [testing_update d; summary_update (test_results s ++ rs)]) ∧
    match o with
    | Ok _ =>
        (rs = [] ∧ Forall (other_id t) (items_of (studio_config W)) ∧
         status_updates evs = [not_found_update t] ∧ results_files evs = [] ∧
         opened evs = [studio_config_path W] ∧ probes evs = [] ∧ spawns evs = []) ∨
        (∃ pre d post r,
           items_of (studio_config W) = pre ++ Obj d :: post ∧
           Forall (other_id t) pre ∧ has_id t (Obj d) = true ∧
           rs = [r] ∧ tested (W:=W) (Obj d) r ∧
           status_updates evs
             = [testing_update (Obj d); summary_update (test_results s ++ [r])] ∧
           results_files evs = [test_results s ++ [r]] ∧
           opened evs = [studio_config_path W] ∧
           probes evs = probes_of (Obj d) ∧
           spawns evs = child_of (W:=W) (Obj d))
    | Raise e => results_files evs = []
    end.
Proof.
  destruct manifest_cases as [[e Hcfg] | [tv Hload]].
  { exists (Raise e), []. eexists. rewrite extend_log_to.
    split; [by apply test_single_tool_config_raised |].
    split; [left; apply prefix_nil | done]. }
  destruct tv as [items | v].
  2: { destruct (test_single_tool_scalar v t s Hload)
         as (evs0 & Hrun & (Hup0 & Hres0 & _) & _).
       exists (Raise (TypeError (type_error W (NotIterable v)))), []. eexists.
       rewrite extend_log_to. split; [exact Hrun |]. split_trace. rewrite Hup0, Hres0.
       split; [left; apply prefix_nil | done]. }
  pose proof (items_of_sequence items Hload) as Hitems. rewrite Hitems.
  destruct (find_tool_split items t)
    as [(pre & d & post & -> & Hpre & Hd) | [Hall | (pre & bad & post & -> & Hpre & Hbad)]].
  - destruct (test_single_tool_found pre d post t s Hload Hpre Hd)
      as (evs0 & Hrun & (Hup0 & Hres0 & Hprobes0 & Hspawns0) & Hopen0).
    rewrite Hrun.
    destruct (test_tool_any (W:=W) (Obj d)) as (o1 & evs1 & Hrun1 & (Hres1 & Hopen1) & Hups1 & _ & Hcase1).
    rewrite Hrun1. destruct o1 as [r | e].
    2: { exists (Raise e), [], ([Log INFO ("Testing single tool: " +:+ t)] ++ evs0 ++ evs1).
         split; [same_state |]. split_trace. rewrite Hup0, Hres0, Hres1. simpl.
         split; [| done]. right. exists (Obj d).
         destruct Hups1 as [-> | ->]; [apply prefix_nil | apply prefix_cons, prefix_nil]. }
    destruct Hcase1 as (_ & Htested & Hup1 & Hprobes1 & Hspawns1).
    match goal with |- context [generate_summary ?st] =>
      destruct (generate_summary_any st) as (o2 & evs2 & Hsum & (Hopen2 & Hprobes2 & Hspawns2)
                                             & Hups2 & Hcase2);
      rewrite Hsum;
      assert (Hst : test_results st = test_results s ++ [r]) by reflexivity
    end.
    rewrite Hst in *. clear Hst.
    exists o2, [r], ([Log INFO ("Testing single tool: " +:+ t)] ++ evs0 ++ evs1 ++ evs2).
    split; [same_state |]. split_trace.
    rewrite Hup0, Hres0, Hres1, Hup1, Hopen0, Hopen1, Hopen2, Hprobes0, Hprobes1, Hprobes2,
      Hspawns0, Hspawns1, Hspawns2. simpl. rewrite !app_nil_r.
    split; [right; exists (Obj d); by apply prefix_cons |].
    destruct o2 as [[] | e].
    + subst evs2. destruct (summary_events_footprint (test_results s ++ [r]))
        as (Hup2 & Hres2 & _). rewrite Hup2, Hres2.
      right. exists pre, d, post, r. split; [reflexivity |]. split; [exact Hpre |].
      split; [exact Hd |]. split; [reflexivity |]. split; [exact Htested |].
      by repeat split.
    + by destruct Hcase2 as (Hres2 & _).
  - destruct (test_single_tool_not_found items t s Hload Hall)
      as (evs0 & Hrun & (Hup0 & Hres0 & Hprobes0 & Hspawns0) & Hopen0).
    rewrite Hrun.
    destruct (status_write W (not_found_update t)) as [e |] eqn:Hw.
    + rewrite (update_status_fails _ _ _ e) by exact Hw.
      exists (Raise e), []. eexists. rewrite extend_log_to. split; [reflexivity |].
      split_trace. rewrite Hup0, Hres0. split; [left; apply prefix_nil | done].
    + rewrite update_status_ok by exact Hw.
      exists (Ok tt), [],
        ([Log INFO ("Testing single tool: " +:+ t)] ++ evs0
         ++ [Log ERROR ("Tool not found: " +:+ t); StatusWrite (not_found_update t)]).
      split; [same_state |]. split_trace.
      rewrite Hup0, Hres0, Hprobes0, Hspawns0, Hopen0. simpl.
      split; [by left |]. left. by repeat split.
  - destruct (test_single_tool_idless pre bad post t s Hload Hpre Hbad)
      as (evs & Hrun & Hup & Hres & _).
    exists (Raise (no_id_error (W:=W) bad)), [], evs. rewrite extend_log_to.
    split; [exact Hrun |]. rewrite Hup. split; [left; apply prefix_nil | done].
Qed.

End Walk.

(** ** The statuses a run writes *)

Lemma string_prefix_app (p rest : string) : String.prefix p (p +:+ rest) = true.
Proof.
  induction p as [| c p IH]; [by destruct rest |].
  change (String.prefix (String c p) (String c (p +:+ rest)) = true).
  simpl. destruct (Ascii.ascii_dec c c); [exact IH | contradiction].
Qed.

Lemma testing_is_per_tool (tool_info : entry) :
  per_tool_signal (testing_update tool_info) = true.
Proof. apply string_prefix_app. Qed.

Lemma tested_is_run_level i total_tools :
  per_tool_signal (tested_update i total_tools) = false.
Proof. reflexivity. Qed.

Lemma testing_not_run_level (tool_info : entry) :
  ¬ per_tool_signal (testing_update tool_info) = false.
Proof. by rewrite testing_is_per_tool. Qed.

(** A number is not written with a [T]. *)
Lemma pretty_N_go_head (x : N) (s : string) :
  (∀ rest, s ≠ String (Ascii.Ascii false false true false true false true false) rest) → ∀ rest, pretty_N_go x s ≠ String (Ascii.Ascii false false true false true false true false) rest.
Proof.
  revert s. induction (N.lt_wf_0 x) as [x _ IH]; intros s Hs.
  assert (x = 0 ∨ 0 < x)%N as [-> | Hpos] by lia.
  - by rewrite pretty_N_go_0.
  - rewrite pretty_N_go_step by done. apply IH.
    { by apply N.div_lt. }
    intros rest. unfold pretty_N_char. by repeat case_match.
Qed.

Lemma pretty_nat_head (n : nat) : ∀ rest, pretty n ≠ String (Ascii.Ascii false false true false true false true false) rest.
Proof.
  intros rest. unfold pretty, pretty_nat, pretty, pretty_N.
  case_decide; [done |]. by apply pretty_N_go_head.
Qed.

Lemma prefix_head (c c' : Ascii.ascii) (p s : string) :
  c ≠ c' → String.prefix (String c p) (String c' s) = false.
Proof. intros Hne. simpl. by destruct (Ascii.ascii_dec c c'). Qed.

Lemma summary_is_run_level (rs : list TestResult) :
  per_tool_signal (summary_update rs) = false.
Proof.
  unfold summary_update, final_status, per_tool_signal.
  case_bool_decide; [| reflexivity]. cbn [sd_message].
  pose proof (pretty_nat_head (count_status "pass" rs)) as Hhead.
  destruct (pretty (count_status "pass" rs)) as [| c rest]; [reflexivity |].
  apply prefix_head. intros <-. by destruct (Hhead rest).
Qed.

Lemma summary_update_terminal (rs : list TestResult) :
  (count_status "fail" rs = 0 ∧ exit_code rs = 0%Z ∧
   sd_status (summary_update rs) = "completed" ∧ sd_progress (summary_update rs) = 100%Z) ∨
  (count_status "fail" rs ≠ 0 ∧ exit_code rs = 1%Z ∧
   sd_status (summary_update rs) = "completed_with_errors" ∧
   sd_progress (summary_update rs) = 100%Z).
Proof.
  unfold summary_update, final_status, exit_code.
  destruct (decide (count_status "fail" rs = 0)) as [Hz | Hnz].
  - left. rewrite Hz. by repeat split.
  - right. rewrite (bool_decide_eq_true_2 (0 < _)) by lia.
    rewrite (bool_decide_eq_false_2 (_ = 0)) by done. by repeat split.
Qed.

Lemma sound_zero (sd : status_data) : sd_progress sd = 0%Z → sound sd.
Proof. intros H. unfold sound. rewrite H. split; [lia | done]. Qed.

Lemma sound_tested i total_tools :
  0 < total_tools → i ≤ total_tools → sound (tested_update i total_tools).
Proof.
  intros Hpos Hi. split; [simpl; apply progress_of_range; lia |].
  intros [Hsig | Herr]; [by rewrite tested_is_run_level in Hsig | discriminate].
Qed.

Lemma sound_summary (rs : list TestResult) : sound (summary_update rs).
Proof.
  split.
  - destruct (summary_update_terminal rs) as [(_ & _ & _ & ->) | (_ & _ & _ & ->)]; lia.
  - intros [Hsig | Herr]; [by rewrite summary_is_run_level in Hsig |].
    destruct (summary_update_terminal rs) as [(_ & _ & Hst & _) | (_ & _ & Hst & _)];
      rewrite Hst in Herr; discriminate.
Qed.

Lemma sound_test_mode : sound test_mode_update.
Proof. split; [simpl; lia |]. by intros [Hsig | Herr]. Qed.

Lemma each_updates_sound total_tools (tools : list entry) i :
  i + length tools ≤ total_tools →
  Forall sound (each_updates total_tools i tools).
Proof.
  revert i. induction tools as [| tool_info rest IH]; intros i Hle; [constructor |].
  simpl in *. constructor; [by apply sound_zero |]. constructor.
  - apply sound_tested; lia.
  - apply IH. lia.
Qed.

Lemma suite_updates_sound (tools : list entry) rs : Forall sound (suite_updates tools rs).
Proof.
  unfold suite_updates. constructor; [by apply sound_zero |].
  destruct tools as [| t0 rest].
  { constructor; [by apply sound_zero | constructor]. }
  apply Forall_app. split; [apply each_updates_sound; simpl; lia |].
  constructor; [apply sound_summary | constructor].
Qed.

Lemma run_level_each_updates total_tools (tools : list entry) i :
  run_level (each_updates total_tools i tools)
  = (λ k, tested_update k total_tools) <$> seq (i + 1) (length tools).
Proof.
  revert i. induction tools as [| tool_info rest IH]; intros i; [done |].
  simpl each_updates. unfold run_level in *.
  rewrite filter_cons_False by apply testing_not_run_level.
  rewrite filter_cons_True by apply tested_is_run_level.
  rewrite IH. simpl. by replace (S i + 1) with (S (i + 1)) by lia.
Qed.

Lemma each_updates_length total_tools (tools : list entry) i :
  length (each_updates total_tools i tools) = 2 * length tools.
Proof.
  revert i. induction tools as [| t rest IH]; intros i; [done |].
  simpl. rewrite IH. lia.
Qed.

Lemma each_updates_lookup total_tools (tools : list entry) i k tool_info :
  tools !! k = Some tool_info →
  each_updates total_tools i tools !! (2 * k) = Some (testing_update tool_info) ∧
  each_updates total_tools i tools !! (2 * k + 1)
    = Some (tested_update (i + k + 1) total_tools).
Proof.
  revert i k. induction tools as [| t rest IH]; intros i k Hk; [done |].
  destruct k as [| k].
  - simpl in Hk. injection Hk as ->. simpl. rewrite Nat.add_0_r. by split.
  - simpl in Hk. destruct (IH (S i) k Hk) as [H1 H2].
    replace (2 * S k) with (S (S (2 * k))) by lia.
    replace (S (S (2 * k)) + 1) with (S (S (2 * k + 1))) by lia.
    cbn [each_updates lookup list_lookup].
    replace (i + S k + 1) with (S i + k + 1) by lia. by split.
Qed.

Lemma lookup_cons_S {A} (x : A) (l : list A) n : (x :: l) !! S n = l !! n.
Proof. reflexivity. Qed.

Lemma sorted_app_l (l k : list Z) : Sorted Z.le (l ++ k) → Sorted Z.le l.
Proof.
  induction l as [| a l IH]; [constructor |].
  simpl. intros Hs. apply Sorted_inv in Hs as [Hs Hhd]. constructor; [by apply IH |].
  destruct l; [constructor |]. apply HdRel_inv in Hhd. by constructor.
Qed.

Lemma sorted_progress total_tools len i :
  0 < total_tools →
  i + len ≤ total_tools + 1 →
  Sorted Z.le (((λ k, progress_of k total_tools) <$> seq i len) ++ [100%Z]).
Proof.
  intros Hpos. revert i. induction len as [| len IH]; intros i Hle.
  - simpl. repeat constructor.
  - simpl. constructor; [apply IH; lia |].
    destruct len as [| len]; simpl; constructor.
    + apply progress_of_range; lia.
    + apply progress_of_mono. lia.
Qed.

(** The statuses of the run itself, over a full suite: the progress
    never decreases. *)
Lemma sorted_suite (tools : list entry) rs :
  non_decreasing (sd_progress <$> run_level (suite_updates tools rs)).
Proof.
  unfold non_decreasing, run_level, suite_updates.
  rewrite filter_cons_True by reflexivity.
  destruct tools as [| t0 rest].
  { rewrite filter_cons_True by reflexivity. repeat constructor. done. }
  set (tools := t0 :: rest).
  assert (Hs : Sorted Z.le
            (0%Z :: ((λ k, progress_of k (length tools)) <$> seq 1 (length tools))
                    ++ [100%Z])).
  { constructor; [apply sorted_progress; simpl; lia |].
    simpl. constructor. apply progress_of_range; simpl; lia. }
  assert (Hp : sd_progress (summary_update rs) = 100%Z).
  { by destruct (summary_update_terminal rs) as [(_ & _ & _ & Hp) | (_ & _ & _ & Hp)]. }
  rewrite filter_app. fold (run_level (each_updates (length tools) 0 tools)).
  rewrite run_level_each_updates, fmap_cons, fmap_app, <- list_fmap_compose.
  rewrite filter_cons_True by apply summary_is_run_level.
  simpl. rewrite Hp. exact Hs.
Qed.

Lemma sorted_prefix (l1 l2 : list status_data) :
  l1 `prefix_of` l2 →
  non_decreasing (sd_progress <$> run_level l2) →
  non_decreasing (sd_progress <$> run_level l1).
Proof.
  intros [k ->]. unfold non_decreasing, run_level. rewrite filter_app, fmap_app.
  apply sorted_app_l.
Qed.

Lemma Forall_prefix {A} (P : A → Prop) (l1 l2 : list A) :
  l1 `prefix_of` l2 → Forall P l2 → Forall P l1.
Proof. intros [k ->] H. by apply Forall_app in H as [H _]. Qed.

(** Leaving statuses out keeps the progress in order. *)
Lemma sorted_filter (P : status_data → Prop) `{∀ sd, Decision (P sd)}
    (l : list status_data) :
  Sorted Z.le (sd_progress <$> l) → Sorted Z.le (sd_progress <$> filter P l).
Proof.
  intros Hs. apply Sorted_StronglySorted in Hs; [| intros x y z; lia].
  apply StronglySorted_Sorted.
  induction l as [| sd l IH]; [constructor |].
  rewrite fmap_cons in Hs. apply StronglySorted_inv in Hs as [Hs Hall].
  rewrite filter_cons. case_decide; [| by apply IH].
  rewrite fmap_cons. constructor; [by apply IH |].
  rewrite List.Forall_forall in *. intros z Hz. apply Hall.
  apply in_map_iff in Hz as (sd' & <- & Hin). apply in_map.
  apply list_elem_of_In. apply list_elem_of_In in Hin.
  by apply list_elem_of_filter in Hin as [_ ?].
Qed.

(** ** The run *)

Section Run.
Context {W : World}.

Local Arguments update_status : simpl never.
Local Arguments test_all_tools : simpl never.
Local Arguments test_single_tool : simpl never.

Lemma sorted_one (l : list status_data) :
  length (run_level l) ≤ 1 → non_decreasing (sd_progress <$> run_level l).
Proof.
  unfold non_decreasing. destruct (run_level l) as [| sd [| sd' rest]]; simpl; intros Hlen.
  - constructor.
  - repeat constructor.
  - lia.
Qed.

(** What the chosen operation comes to, whatever the world. *)
Lemma operation_any (a : args) (s : engine W) :
  ∃ o rs (evs : list (event W)),
    operation a s = (o, extend s rs evs) ∧
    Forall sound (status_updates evs) ∧
    non_decreasing (sd_progress <$> run_level (status_updates evs)) ∧
    match o with
    | Ok _ =>
        (rs = [] ∧ results_files evs = [] ∧
         ((tool_given a = None ∧ last_status evs = Some no_tools_update) ∨
          (∃ t, tool_given a = Some t ∧ last_status evs = Some (not_found_update t)))) ∨
        (rs ≠ [] ∧ results_files evs = [test_results s ++ rs] ∧
         last_status evs = Some (summary_update (test_results s ++ rs)))
    | Raise e => results_files evs = []
    end.
Proof.
  unfold operation. destruct (tool_given a) as [t |] eqn:Hgiven.
  - destruct (test_single_tool_any (W:=W) t s) as (o & rs & evs & Hrun & Hups & Hcase).
    exists o, rs, evs. split; [exact Hrun |].
    assert (Hfull : ∃ full, status_updates evs `prefix_of` full ∧ Forall sound full ∧
                            non_decreasing (sd_progress <$> run_level full)).
    { destruct Hups as [Hpre | [d Hpre]].
      - eexists. split; [exact Hpre |]. split.
        + constructor; [by apply sound_zero | constructor].
        + apply sorted_one. unfold run_level. rewrite filter_cons. case_decide; simpl; lia.
      - eexists. split; [exact Hpre |]. split.
        + constructor; [by apply sound_zero |]. constructor; [apply sound_summary |].
          constructor.
        + apply sorted_one. unfold run_level.
          rewrite filter_cons_False by apply testing_not_run_level.
          rewrite filter_cons. case_decide; simpl; lia. }
    destruct Hfull as (full & Hpre & Hsound & Hsorted).
    split; [by eapply Forall_prefix |]. split; [by eapply sorted_prefix |].
    destruct o as [[] | e]; [| exact Hcase].
    destruct Hcase as [(-> & _ & Hup & Hres & _) | (pre & d & post & r & _ & _ & _ & -> & _ & Hup & Hres & _)].
    + left. split; [done |]. split; [exact Hres |]. right. exists t.
      split; [done |]. by apply (last_status_snoc []).
    + right. split; [done |]. split; [exact Hres |].
      by apply (last_status_snoc [testing_update (Obj d)]).
  - destruct (test_all_tools_any (W:=W) s) as (o & rs & evs & Hrun & _ & _ & Hpre & Hcase).
    exists o, rs, evs. split; [exact Hrun |].
    split; [eapply Forall_prefix; [exact Hpre | apply suite_updates_sound] |].
    split; [eapply sorted_prefix; [exact Hpre | apply sorted_suite] |].
    destruct o as [[] | e]; [| by destruct Hcase].
    destruct Hcase as (Hall & Hup & Hres & _).
    destruct (items_of (studio_config W)) as [| t0 rest] eqn:Hitems.
    + left. apply Forall2_nil_inv_l in Hall as ->. split; [done |]. split; [exact Hres |].
      left. split; [done |]. by apply (last_status_snoc [loading_update]).
    + right. split; [intros ->; by apply Forall2_nil_inv_r in Hall |].
      split; [exact Hres |].
      apply (last_status_snoc
               (loading_update :: each_updates (length (t0 :: rest)) 0 (t0 :: rest))).
      exact Hup.
Qed.

Lemma run_attempt (a : args) (s : engine W) :
  run a s = match attempt a s with
            | (Ok code, s') => (Ok code, s')
            | (Raise e, s') => on_fatal e s'
            end.
Proof. reflexivity. Qed.

Lemma attempt_test_mode (a : args) (s : engine W) :
  test a = true →
  attempt a s =
    match update_status "test_mode" 100 "Test mode: Engine operational"
            (log_to s [Log INFO "Running in TEST mode";
                       Log INFO "Tool Tester Engine is operational"]) with
    | (Ok _, s') => (Ok 0%Z, s')
    | (Raise e, s') => (Raise e, s')
    end.
Proof.
  intros Htest. unfold attempt. rewrite Htest.
  unfold logger_info, emit, mbind, M_bind, mret, M_ret, log_to. simpl.
  rewrite <- app_assoc. simpl.
  by destruct (update_status _ _ _ _) as [[[] | e] s'].
Qed.

Lemma attempt_operation (a : args) (s : engine W) :
  test a = false →
  attempt a s =
    match operation a s with
    | (Ok _, s') => (Ok (exit_code (test_results s')), s')
    | (Raise e, s') => (Raise e, s')
    end.
Proof.
  intros Htest. unfold attempt. rewrite Htest.
  unfold mbind, M_bind, get_results, exit_code.
  by destruct (operation a s) as [[[] | e] s'].
Qed.

Lemma on_fatal_unfold (e : exn) (s : engine W) :
  on_fatal e s =
    match status_write W (fatal_update e) with
    | None => (Ok 1%Z, log_to s [Log ERROR ("Fatal error: " +:+ exn_str e);
                                 StatusWrite (fatal_update e)])
    | Some e' => (Raise e', log_to s [Log ERROR ("Fatal error: " +:+ exn_str e)])
    end.
Proof.
  unfold on_fatal, logger_error, emit, mbind, M_bind, mret, M_ret. simpl.
  destruct (status_write W (fatal_update e)) as [e' |] eqn:Hw.
  - by rewrite (update_status_fails _ _ _ e') by exact Hw.
  - rewrite update_status_ok by exact Hw. same_state.
Qed.

(** [run] when the chosen operation returns. *)
Lemma run_ok (a : args) (s s' : engine W) :
  test a = false → operation a s = (Ok tt, s') →
  run a s = (Ok (exit_code (test_results s')), s').
Proof. intros Htest Hop. by rewrite run_attempt, attempt_operation, Hop. Qed.

(** [run] when the chosen operation raises and the status can be
    written. *)
Lemma run_fatal (a : args) e (s s' : engine W) :
  test a = false → operation a s = (Raise e, s') →
  status_write W (fatal_update e) = None →
  run a s = (Ok 1%Z, log_to s' [Log ERROR ("Fatal error: " +:+ exn_str e);
                                StatusWrite (fatal_update e)]).
Proof.
  intros Htest Hop Hw. by rewrite run_attempt, attempt_operation, Hop, on_fatal_unfold, Hw.
Qed.

Lemma run_test_mode (a : args) (s : engine W) :
  test a = true →
  status_write W test_mode_update = None →
  run a s = (Ok 0%Z, log_to s [Log INFO "Running in TEST mode";
                               Log INFO "Tool Tester Engine is operational";
                               StatusWrite test_mode_update]).
Proof.
  intros Htest Hw. rewrite run_attempt, attempt_test_mode by exact Htest.
  rewrite update_status_ok by exact Hw. same_state.
Qed.

Lemma main_fatal (a : args) e rs (evs : list (event W)) :
  test a = false →
  operation a new_engine = (Raise e, extend new_engine rs evs) →
  status_write W (fatal_update e) = None →
  main a = (Ok 1%Z, {| test_results := rs;
                       trace := evs ++ [Log ERROR ("Fatal error: " +:+ exn_str e);
                                        StatusWrite (fatal_update e)] |}).
Proof. intros Htest Hop Hw. unfold main. by rewrite (run_fatal a e _ _ Htest Hop Hw). Qed.

Lemma main_ok (a : args) rs (evs : list (event W)) :
  test a = false →
  operation a new_engine = (Ok tt, extend new_engine rs evs) →
  main a = (Ok (exit_code rs), {| test_results := rs; trace := evs |}).
Proof. intros Htest Hop. unfold main. by rewrite (run_ok a _ _ Htest Hop). Qed.

(** What the [try] block of [run] comes to, whatever the world. *)
Lemma attempt_any (a : args) (s : engine W) :
  ∃ o rs (evs : list (event W)),
    attempt a s = (o, extend s rs evs) ∧
    Forall sound (status_updates evs) ∧
    non_decreasing (sd_progress <$> run_level (status_updates evs)) ∧
    match o with
    | Ok code =>
        ∃ sd, last_status evs = Some sd ∧
          ((test a = true ∧ sd = test_mode_update ∧ code = 0%Z ∧
            rs = [] ∧ results_files evs = []) ∨
           (test a = false ∧
            ((tool_given a = None ∧ sd = no_tools_update) ∨
             (∃ t, tool_given a = Some t ∧ sd = not_found_update t)) ∧
            code = exit_code (test_results s) ∧ rs = [] ∧ results_files evs = []) ∨
           (test a = false ∧ sd = summary_update (test_results s ++ rs) ∧
            code = exit_code (test_results s ++ rs) ∧ rs ≠ [] ∧
            results_files evs = [test_results s ++ rs]))
    | Raise e => results_files evs = []
    end.
Proof.
  destruct (test a) eqn:Htest.
  - rewrite attempt_test_mode by exact Htest.
    destruct (status_write W test_mode_update) as [e |] eqn:Hw.
    + rewrite (update_status_fails _ _ _ e) by exact Hw.
      exists (Raise e), []. eexists. rewrite extend_log_to. split; [reflexivity |].
      split; [constructor |]. split; [constructor | done].
    + rewrite update_status_ok by exact Hw.
      exists (Ok 0%Z), [], [Log INFO "Running in TEST mode";
                            Log INFO "Tool Tester Engine is operational";
                            StatusWrite test_mode_update].
      split; [same_state |].
      split; [constructor; [apply sound_test_mode | constructor] |].
      split; [repeat constructor |].
      exists test_mode_update. split; [reflexivity |]. left. by repeat split.
  - rewrite attempt_operation by exact Htest.
    destruct (operation_any a s) as (o & rs & evs & Hop & Hsound & Hsorted & Hcase).
    rewrite Hop. destruct o as [[] | e].
    + exists (Ok (exit_code (test_results s ++ rs))), rs, evs. split; [reflexivity |].
      split; [exact Hsound |]. split; [exact Hsorted |].
      destruct Hcase as [(-> & Hres & Hlast) | (Hne & Hres & Hlast)].
      * destruct Hlast as [(Hgiven & Hlast) | (t & Hgiven & Hlast)].
        -- exists no_tools_update. split; [exact Hlast |]. right; left.
           rewrite app_nil_r. repeat split; auto.
        -- exists (not_found_update t). split; [exact Hlast |]. right; left.
           rewrite app_nil_r. repeat split; eauto.
      * eexists. split; [exact Hlast |]. right; right. by repeat split.
    + exists (Raise e), rs, evs. by repeat split.
Qed.

Lemma filter_snoc_False {A} (P : A → Prop) `{∀ x, Decision (P x)} (l : list A) x :
  ¬ P x → filter P (l ++ [x]) = filter P l.
Proof.
  intros Hx. rewrite filter_app, filter_cons_False by exact Hx.
  by rewrite filter_nil, app_nil_r.
Qed.

Lemma without_errors_fatal (l : list status_data) e :
  without_errors (run_level (l ++ [fatal_update e])) = without_errors (run_level l).
Proof.
  unfold without_errors, run_level. rewrite filter_app, filter_app.
  rewrite (filter_cons _ (fatal_update e)), filter_nil.
  case_decide; [| by rewrite filter_nil, app_nil_r].
  rewrite filter_cons_False by (intros Hne; by apply Hne).
  by rewrite filter_nil, app_nil_r.
Qed.

(** What [run] comes to, whatever the arguments and the world. *)
Lemma run_any (a : args) (s : engine W) :
  ∃ o rs (evs : list (event W)),
    run a s = (o, extend s rs evs) ∧
    Forall sound (status_updates evs) ∧
    non_decreasing (sd_progress <$> without_errors (run_level (status_updates evs))) ∧
    match o with
    | Ok code =>
        ∃ sd, last_status evs = Some sd ∧
          ((test a = true ∧ sd = test_mode_update ∧ code = 0%Z ∧
            rs = [] ∧ results_files evs = []) ∨
           ((∃ e, sd = fatal_update e) ∧ code = 1%Z ∧ results_files evs = []) ∨
           (test a = false ∧
            ((tool_given a = None ∧ sd = no_tools_update) ∨
             (∃ t, tool_given a = Some t ∧ sd = not_found_update t)) ∧
            code = exit_code (test_results s) ∧ rs = [] ∧ results_files evs = []) ∨
           (test a = false ∧ sd = summary_update (test_results s ++ rs) ∧
            code = exit_code (test_results s ++ rs) ∧ rs ≠ [] ∧
            results_files evs = [test_results s ++ rs]))
    | Raise e =>
        results_files evs = [] ∧ ∃ e', status_write W (fatal_update e') = Some e
    end.
Proof.
  rewrite run_attempt.
  destruct (attempt_any a s) as (o & rs & evs & Hrun & Hsound & Hsorted & Hcase).
  rewrite Hrun. destruct o as [code | e].
  - exists (Ok code), rs, evs. split; [reflexivity |]. split; [exact Hsound |].
    split; [by apply sorted_filter |].
    destruct Hcase as (sd & Hlast & Hcase). exists sd. split; [exact Hlast |].
    destruct Hcase as [H | [H | H]]; auto.
  - rewrite on_fatal_unfold.
    destruct (status_write W (fatal_update e)) as [e' |] eqn:Hw.
    + exists (Raise e'), rs, (evs ++ [Log ERROR ("Fatal error: " +:+ exn_str e)]).
      rewrite log_to_extend. split; [reflexivity |]. split_trace. simpl.
      rewrite !app_nil_r. split; [exact Hsound |]. split; [by apply sorted_filter |].
      split; [exact Hcase | by exists e].
    + exists (Ok 1%Z), rs, (evs ++ [Log ERROR ("Fatal error: " +:+ exn_str e);
                                    StatusWrite (fatal_update e)]).
      rewrite log_to_extend. split; [reflexivity |]. split_trace. simpl.
      rewrite app_nil_r. split; [| split].
      * apply Forall_app. split; [exact Hsound |].
        constructor; [by apply sound_zero | constructor].
      * rewrite without_errors_fatal. by apply sorted_filter.
      * exists (fatal_update e). split.
        { apply (last_status_snoc (status_updates evs)). by rewrite status_updates_app. }
        right; left. split; [by exists e |]. by split.
Qed.


(** *** Runs that nothing stops *)

Lemma not_blocked e tools :
  manifest_of (studio_config W) = Some (Sequence tools) →
  Forall (testable (W:=W)) tools →
  status_writable W → results_writable W →
  ¬ blocked (W:=W) e.
Proof.
  intros Hload Hok Hsw Hrw [[sd Hsd] | [[rs Hrs] | [Hcfg | [[v Hv] | (t & Hin & Hraise)]]]].
  - by rewrite Hsw in Hsd.
  - by rewrite Hrw in Hrs.
  - by rewrite Hcfg in Hload.
  - rewrite Hload in Hv. discriminate.
  - rewrite (items_of_sequence tools Hload) in Hin. rewrite Forall_forall in Hok.
    by destruct (testable_not_raises (W:=W) t e (Hok t Hin)).
Qed.

(** A full suite over testable entries, the two files being writable. *)
Lemma test_all_tools_footprint tools (s : engine W) :
  manifest_of (studio_config W) = Some (Sequence tools) →
  Forall (testable (W:=W)) tools →
  status_writable W → results_writable W →
  ∃ rs (evs : list (event W)),
    test_all_tools s = (Ok tt, extend s rs evs) ∧
    Forall2 (tested (W:=W)) tools rs ∧
    status_updates evs = suite_updates tools (test_results s ++ rs) ∧
    results_files evs =
      match tools with [] => [] | _ :: _ => [test_results s ++ rs] end ∧
    opened evs = [studio_config_path W] ∧
    probes evs = tools ≫= probes_of ∧
    spawns evs = tools ≫= child_of (W:=W).
Proof.
  intros Hload Hok Hsw Hrw.
  destruct (test_all_tools_any (W:=W) s) as (o & rs & evs & Hrun & _ & _ & _ & Hcase).
  rewrite (items_of_sequence tools Hload) in Hcase.
  destruct o as [[] | e].
  - exists rs, evs. by split.
  - destruct Hcase as [_ Hb]. by destruct (not_blocked e tools Hload Hok Hsw Hrw).
Qed.

Lemma main_run_all (a : args) tools :
  test a = false → tool_given a = None →
  manifest_of (studio_config W) = Some (Sequence tools) →
  Forall (testable (W:=W)) tools →
  status_writable W → results_writable W →
  ∃ rs (evs : list (event W)),
    main a = (Ok (exit_code rs), {| test_results := rs; trace := evs |}) ∧
    Forall2 (tested (W:=W)) tools rs ∧
    status_updates evs = suite_updates tools rs ∧
    results_files evs = match tools with [] => [] | _ :: _ => [rs] end ∧
    opened evs = [studio_config_path W] ∧
    probes evs = tools ≫= probes_of ∧
    spawns evs = tools ≫= child_of (W:=W).
Proof.
  intros Htest Hgiven Hload Hok Hsw Hrw.
  destruct (test_all_tools_footprint tools new_engine Hload Hok Hsw Hrw)
    as (rs & evs & Hrun & Hrest).
  exists rs, evs. split; [| exact Hrest].
  apply (main_ok a rs evs Htest). unfold operation. by rewrite Hgiven.
Qed.

(** A single tool that is found and testable, the two files being
    writable. *)
Lemma test_single_tool_tested (pre : list entry) d post t (s : engine W) :
  manifest_of (studio_config W) = Some (Sequence (pre ++ Obj d :: post)) →
  Forall (other_id t) pre → has_id t (Obj d) = true →
  testable (W:=W) (Obj d) →
  status_writable W → results_writable W →
  ∃ r (evs : list (event W)),
    test_single_tool t s = (Ok tt, extend s [r] evs) ∧
    tested (W:=W) (Obj d) r ∧
    status_updates evs = [testing_update (Obj d); summary_update (test_results s ++ [r])] ∧
    results_files evs = [test_results s ++ [r]] ∧
    opened evs = [studio_config_path W] ∧
    probes evs = probes_of (Obj d) ∧
    spawns evs = child_of (W:=W) (Obj d).
Proof.
  intros Hload Hpre Hd Hok Hsw Hrw.
  destruct (test_single_tool_found (W:=W) pre d post t s Hload Hpre Hd)
    as (evs0 & Hrun & (Hup0 & Hres0 & Hprobes0 & Hspawns0) & Hopen0).
  destruct (testable_tested (W:=W) (Obj d) Hok)
    as (r & evs1 & Hrun1 & Htested & Hup1 & Hres1 & Hopen1 & Hprobes1 & Hspawns1).
  rewrite Hrun, Hrun1.
  rewrite generate_summary_trace by (first [apply Hsw | apply Hrw]).
  destruct (summary_events_footprint (W:=W) (test_results s ++ [r]))
    as (Hup2 & Hres2 & Hopen2 & Hprobes2 & Hspawns2).
  exists r, ([Log INFO ("Testing single tool: " +:+ t)] ++ evs0 ++ evs1
             ++ summary_events (test_results s ++ [r])).
  split; [same_state |]. split; [exact Htested |]. split_trace.
  rewrite Hup0, Hres0, Hprobes0, Hspawns0, Hopen0, Hup1, Hres1, Hopen1, Hprobes1,
    Hspawns1, Hup2, Hres2, Hopen2, Hprobes2, Hspawns2.
  simpl. rewrite !app_nil_r. by repeat split.
Qed.

(** A single tool that is found and whose test raises. *)
Lemma test_single_tool_raises (pre : list entry) d post t e (evs' : list (event W))
    (s : engine W) :
  manifest_of (studio_config W) = Some (Sequence (pre ++ Obj d :: post)) →
  Forall (other_id t) pre → has_id t (Obj d) = true →
  emits (W:=W) (test_tool (Obj d)) (Raise e) evs' →
  ∃ evs0 : list (event W),
    test_single_tool t s
    = (Raise e, log_to s ([Log INFO ("Testing single tool: " +:+ t)] ++ evs0 ++ evs')) ∧
    (status_updates evs0 = [] ∧ results_files evs0 = [] ∧
     probes evs0 = [] ∧ spawns evs0 = []) ∧
    opened evs0 = [studio_config_path W].
Proof.
  intros Hload Hpre Hd Hraise.
  destruct (test_single_tool_found (W:=W) pre d post t s Hload Hpre Hd)
    as (evs0 & Hrun & Hquiet & Hopen0).
  exists evs0. split; [| by split]. rewrite Hrun, Hraise. same_state.
Qed.

(** A full suite up to an entry whose test raises. *)
Lemma test_all_tools_aborts (pre : list entry) bad post e (evs' : list (event W))
    (s : engine W) :
  manifest_of (studio_config W) = Some (Sequence (pre ++ bad :: post)) →
  Forall (testable (W:=W)) pre →
  status_writable W →
  emits (W:=W) (test_tool bad) (Raise e) evs' →
  ∃ rs (evs : list (event W)),
    test_all_tools s = (Raise e, extend s rs (evs ++ evs')) ∧
    Forall2 (tested (W:=W)) pre rs ∧
    status_updates evs
      = loading_update :: each_updates (length (pre ++ bad :: post)) 0 pre ∧
    results_files evs = [] ∧
    opened evs = [studio_config_path W] ∧
    probes evs = pre ≫= probes_of ∧
    spawns evs = pre ≫= child_of (W:=W).
Proof.
  intros Hload Hpre Hsw Hbad.
  destruct (load_studio_config_returns (W:=W) _ Hload)
    as (evs0 & Hcfg & (Hup0 & Hres0 & Hprobes0 & Hspawns0) & Hopen0).
  destruct (test_each_aborts (W:=W) (length (pre ++ bad :: post)) pre bad post e evs'
              Hpre Hsw Hbad 0)
    as (rs & evs1 & Hrun & Hall & Hup1 & Hres1 & Hopen1 & Hprobes1 & Hspawns1).
  rewrite test_all_tools_unfold, update_status_ok by apply Hsw. rewrite Hcfg.
  assert (Hnot : not_ (Sequence (pre ++ bad :: post)) = false) by by destruct pre.
  rewrite Hnot, Hrun.
  exists rs, ([Log INFO "Starting test suite for all tools"; StatusWrite loading_update]
              ++ evs0
              ++ [Log INFO ("Found " +:+ pretty (length (pre ++ bad :: post))
                            +:+ " registered tools")] ++ evs1).
  split; [same_state |]. split; [exact Hall |]. split_trace.
  rewrite Hup0, Hres0, Hprobes0, Hspawns0, Hopen0, Hup1, Hres1, Hopen1, Hprobes1, Hspawns1.
  by repeat split.
Qed.

End Run.
(** * The claims *)

Section Claims.
Context {W : World}.

Local Arguments update_status : simpl never.

(** ** The per-tool test executor *)


(** C4.  Once the four checks pass, the result follows the child: exit
    code 0 gives [pass]; another exit code gives [fail] with the code in
    the message; in both cases [details] holds the exit code and the
    captured output.  A child that exceeds the 30 second bound gives
    [fail] with the time-out message, and any other exception gives
    [fail] with the exception's text.  The time-out message is the
    message of no other result of [test_tool]. *)
Theorem child_outcome_classified (tool_info : gmap string atom) tid name p :
  tool_info !! "id" = Some tid →
  tool_info !! "display_name" = Some name →
  tool_info !! "path" = Some (AStr p) →
  status_write W (testing_update (Obj tool_info)) = None →
  let root := Path_new W p in
  let checks_pass :=
    path_exists W root = Ok true ∧
    path_exists W (path_div W root "engine.py") = Ok true ∧
    path_exists W (path_div W root "config.json") = Ok true ∧
    path_exists W (venv_python_of root) = Ok true in
  ∃ o (evs : list (event W)),
    emits (W:=W) (test_tool (Obj tool_info)) o evs ∧
    (checks_pass →
       ∃ r, o = Ok r ∧
       spawns evs = [test_command root] ∧
       (test_command root).2 = 30 ∧
       match run_child root with
       | Completed returncode stdout stderr =>
           details r = <["stderr" := AStr stderr]>
                         (<["stdout" := AStr stdout]>
                           (<["exit_code" := AInt returncode]> ∅)) ∧
           (returncode = 0%Z →
              status r = "pass" ∧ message r = "Test passed successfully") ∧
           (returncode ≠ 0%Z →
              status r = "fail" ∧
              message r = "Test failed with exit code " +:+ pretty returncode)
       | TimeoutExpired =>
           status r = "fail" ∧ message r = "Test timed out (>30s)" ∧ details r = ∅
       | SpawnRaised e =>
           status r = "fail" ∧ message r = "Exception: " +:+ exn_str e ∧ details r = ∅
       end) ∧
    (∀ r, o = Ok r →
       (message r = "Test timed out (>30s)" ↔
          checks_pass ∧ run_child root = TimeoutExpired)).
Proof.
  intros Hid Hname Hp Hw root checks_pass. subst root checks_pass.
  rewrite (testing_update_id tool_info tid Hid) in Hw.
  probe_cases W p rc out err e;
    (eexists; eexists; split; [run_tool Hid Hname Hp Hw |]).
  all: rewrite_probes.
  all: split; [intros (? & ? & ? & ?); try congruence |].
  all: try apply bool_decide_eq_true_1 in Erc.
  all: try apply bool_decide_eq_false_1 in Erc.
  all: try (eexists; split; [reflexivity |]; simpl; repeat first [split | intros ?];
            try reflexivity; congruence).
  all: intros r' [= <-] || intros r' [=].
  all: split;
    [ simpl; intros Hmsg; cbv [String.append] in Hmsg; try discriminate Hmsg;
      by repeat split
    | intros [(? & ? & ? & ?) Hto]; try congruence; reflexivity ].
Qed.

(** C9, as the code has it.  [test_tool] returns a result, with the
    failure mode in its status and message, exactly on the entries it
    gets through: objects holding an id, a display name and a string
    path, for which the status "Testing <id>..." can be written and
    every probe returns; there, whatever the child process does, no
    exception leaves it.  On every other entry it raises, and no child
    has been spawned. *)
Theorem well_formed_tool_never_raises (tool_info : entry) :
  (testable (W:=W) tool_info →
     ∃ r (evs : list (event W)),
       emits (W:=W) (test_tool tool_info) (Ok r) evs ∧
       status r ∈ ["pass"; "fail"; "skip"] ∧
       message r ≠ "") ∧
  (¬ testable (W:=W) tool_info →
     ∃ e (evs : list (event W)),
       emits (W:=W) (test_tool tool_info) (Raise e) evs ∧ spawns evs = []).
Proof.
  split.
  - intros (Hwf & Hw & Hret).
    apply wf_tool_fields in Hwf as (d & tid & name & p & -> & Hid & Hname & Hp).
    destruct (test_tool_footprint (W:=W) d tid name p Hid Hname Hp Hw)
      as (o & evs & Hrun & _ & _ & _ & Hcase).
    unfold probes_return, root_of, field in Hret. rewrite Hp in Hret.
    destruct o as [r | e]; [| congruence].
    destruct Hcase as (_ & (_ & _ & Hst & Hmsg) & _). by exists r, evs.
  - intros Hnot.
    destruct (test_tool_any (W:=W) tool_info) as (o & evs & Hrun & _ & _ & _ & Hcase).
    destruct o as [r | e]; [by destruct Hcase as (Hok & _) |].
    destruct Hcase as (_ & Hspawns). by exists e, evs.
Qed.

(** C10.  Whatever [test_tool] returns has one of the statuses [pass],
    [fail], [skip], never the initial [unknown], and serializes to a
    dictionary with the five keys, [details] being a dictionary;
    [test_tool] does return on every entry it can get through. *)
Theorem returned_result_well_formed (tool_info : entry) (s : engine W) :
  match (test_tool tool_info s).1 with
  | Ok r =>
      status r ∈ ["pass"; "fail"; "skip"] ∧
      status r ≠ "unknown" ∧
      dom (as_dict r) =
        ({["tool_id"; "tool_name"; "status"; "message"; "details"]} : gset string) ∧
      as_dict r !! "details" = Some (PDict (details r))
  | Raise _ => ¬ testable (W:=W) tool_info
  end.
Proof.
  destruct (test_tool_any (W:=W) tool_info) as (o & evs & Hrun & _ & _ & _ & Hcase).
  rewrite Hrun. simpl. destruct o as [r | e]; [| by destruct Hcase].
  destruct Hcase as (_ & (_ & (_ & _ & Hst) & _) & _).
  split; [exact Hst |]. split; [| split].
  - intros Heq. rewrite Heq in Hst.
    repeat (apply elem_of_cons in Hst as [Hst | Hst]; [discriminate |]).
    by apply elem_of_nil in Hst.
  - unfold as_dict. rewrite !dom_insert_L, dom_empty_L.
    by rewrite (right_id_L ∅ (∪)), !(assoc_L (∪)).
  - unfold as_dict. by simplify_map_eq.
Qed.

(** ** Runs *)


(** C2, as the code has it.  Over every run, whatever the world: every
    progress written lies between 0 and 100; the signal of [test_tool]
    before each tool and every status [error] carry progress 0, so that
    the whole sequence is not monotone; leaving those out, the progress
    written never decreases; and a run that returns with a last status
    other than [error] ends with progress 100. *)
Theorem run_progress_non_decreasing (a : args) :
  ∃ o rs (evs : list (event W)),
    main a = (o, {| test_results := rs; trace := evs |}) ∧
    Forall (λ sd, (0 ≤ sd_progress sd ≤ 100)%Z) (status_updates evs) ∧
    Forall (λ sd, per_tool_signal sd = true ∨ sd_status sd = "error" →
                  sd_progress sd = 0%Z) (status_updates evs) ∧
    non_decreasing (sd_progress <$> without_errors (run_level (status_updates evs))) ∧
    (∀ code sd, o = Ok code → last_status evs = Some sd → sd_status sd ≠ "error" →
       sd_progress sd = 100%Z).
Proof.
  destruct (run_any (W:=W) a new_engine) as (o & rs & evs & Hrun & Hsound & Hsorted & Hcase).
  exists o, rs, evs. split; [exact Hrun |].
  split; [eapply Forall_impl; [exact Hsound | by intros sd [? _]] |].
  split; [eapply Forall_impl; [exact Hsound | by intros sd [_ ?]] |].
  split; [exact Hsorted |].
  intros code sd -> Hlast Hne. destruct Hcase as (sd' & Hlast' & Hcase).
  rewrite Hlast in Hlast'. injection Hlast' as <-.
  destruct Hcase as [(_ & -> & _) | [([e ->] & _) | [(_ & Hsd & _) | (_ & -> & _)]]].
  - reflexivity.
  - by destruct Hne.
  - destruct Hsd as [(_ & ->) | (t & _ & ->)]; by destruct Hne.
  - by destruct (summary_update_terminal (test_results (@new_engine W) ++ rs))
      as [(_ & _ & _ & Hp) | (_ & _ & _ & Hp)].
Qed.







(** ** Progress *)



End Claims.
(** * The claims at sample inputs *)

(** In a sample world whose probes return and whose files can be
    written, every sample tool is testable. *)
Lemma sample_tool_testable present child config id :
  testable (W:=sample_world present child config) (sample_tool id).
Proof.
  split; [repeat split; eexists; reflexivity |]. split; [reflexivity |].
  unfold probes_return, root_of, probe_fault. simpl.
  repeat case_match; reflexivity.
Qed.

Lemma sample_tools_testable present child config ids :
  Forall (testable (W:=sample_world present child config)) (sample_tool <$> ids).
Proof. apply Forall_fmap, Forall_true. intros id. apply sample_tool_testable. Qed.

Lemma sample_world_status_writable present child config :
  status_writable (sample_world present child config).
Proof. intros sd. reflexivity. Qed.

Lemma sample_world_results_writable present child config :
  results_writable (sample_world present child config).
Proof. intros rs. reflexivity. Qed.



(** C2: with two tools the progress written goes 0, 0, 50, 0, 100, 100. *)
Lemma per_tool_signal_resets_progress :
  let updates := status_updates (trace (@main two_passing run_all).2) in
  sd_progress <$> updates = [0; 0; 50; 0; 100; 100]%Z ∧
  ¬ non_decreasing (sd_progress <$> updates).
Proof.
  split; [vm_compute; reflexivity |].
  intros H. vm_compute in H.
  do 2 apply Sorted_inv in H as [H _].
  apply Sorted_inv in H as [_ H]. apply HdRel_inv in H. by apply H.
Qed.

Lemma run_progress_non_decreasing_witness :
  ∃ o rs (evs : list (event two_passing)),
    @main two_passing run_all = (o, {| test_results := rs; trace := evs |}) ∧
    Forall (λ sd, (0 ≤ sd_progress sd ≤ 100)%Z) (status_updates evs) ∧
    non_decreasing (sd_progress <$> without_errors (run_level (status_updates evs))).
Proof.
  destruct (run_progress_non_decreasing (W:=two_passing) run_all)
    as (o & rs & evs & Hmain & Hrange & _ & Hsorted & _).
  exists o, rs, evs. split; [exact Hmain |]. split; [exact Hrange | exact Hsorted].
Defined.



(** C4 at a child that exits with code 3. *)
Lemma child_outcome_classified_witness :
  ∃ r (evs : list (event one_failing)),
    emits (W:=one_failing) (test_tool (sample_tool "a")) (Ok r) evs ∧
    status r = "fail" ∧
    message r = "Test failed with exit code 3" ∧
    details r !! "exit_code" = Some (AInt 3).
Proof.
  destruct (child_outcome_classified (W:=one_failing) (sample_fields "a")
              (AStr "a") (AStr "Tool a") "tools/a" eq_refl eq_refl eq_refl eq_refl)
    as (o & evs & Hrun & Hclass & _).
  destruct Hclass as (r & Ho & _ & _ & Hdetails & _ & Hfail);
    [repeat split; vm_compute; reflexivity |].
  destruct Hfail as (Hst & Hmsg); [discriminate |].
  exists r, evs. rewrite Ho in Hrun. split; [exact Hrun |]. split; [exact Hst |].
  split; [exact Hmsg |]. rewrite Hdetails. vm_compute. reflexivity.
Defined.



Example one_failing_run :
  (@main one_failing run_all).1 = Ok 1%Z ∧
  last_status (trace (@main one_failing run_all).2)
    = Some {| sd_status := "completed_with_errors"; sd_progress := 100;
              sd_message := "0 passed, 1 failed" |}.
Proof. split; vm_compute; reflexivity. Qed.






(** [int(0.29 * 100)] is 28: the progress is not the floor of the exact
    quotient either. *)
Example progress_29_of_100 : progress_of 29 100 = 28%Z.
Proof. vm_compute. reflexivity. Qed.


(** C9: an entry without an id, or with a number for a path, makes
    [test_tool] raise; so does a probe that raises, on a well-formed
    entry. *)
Lemma malformed_tool_raises :
  @test_tool two_passing no_id new_engine = (Raise (KeyError "id"), new_engine) ∧
  (∃ msg, @test_tool two_passing numeric_path new_engine
          = (Raise (TypeError msg), new_engine)) ∧
  wf_tool (sample_tool "a") ∧
  (@test_tool long_path (sample_tool "a") new_engine).1 = Raise too_long.
Proof.
  split; [vm_compute; reflexivity |]. split; [eexists; vm_compute; reflexivity |].
  split; [repeat split; eexists; reflexivity | vm_compute; reflexivity].
Qed.

Lemma well_formed_tool_never_raises_witness :
  ∃ r (evs : list (event one_timing_out)),
    emits (W:=one_timing_out) (test_tool (sample_tool "a")) (Ok r) evs ∧
    status r ∈ ["pass"; "fail"; "skip"].
Proof.
  destruct (well_formed_tool_never_raises (W:=one_timing_out) (sample_tool "a"))
    as (Hreturns & _).
  destruct (Hreturns (sample_tool_testable all_present (λ _, TimeoutExpired)
                        (manifest ["a"]) "a"))
    as (r & evs & Hrun & Hst & _).
  exists r, evs. split; [exact Hrun | exact Hst].
Defined.

Example timing_out_result :
  status <$> (match (@test_tool one_timing_out (sample_tool "a") new_engine).1 with
              | Ok r => Some r | Raise _ => None end) = Some "fail" ∧
  message <$> (match (@test_tool one_timing_out (sample_tool "a") new_engine).1 with
               | Ok r => Some r | Raise _ => None end) = Some "Test timed out (>30s)".
Proof. split; vm_compute; reflexivity. Qed.
(** * Further properties of the engine *)

Section Extras.
Context {W : World}.

Local Arguments update_status : simpl never.
Local Arguments test_each : simpl never.
Local Arguments test_tool : simpl never.
Local Arguments generate_summary : simpl never.
Local Arguments load_studio_config : simpl never.
Local Arguments find_tool : simpl never.
Local Arguments each_updates : simpl never.
Local Arguments test_all_tools : simpl never.
Local Arguments test_single_tool : simpl never.

Lemma found_spec (p : Path W) : found p = true ↔ path_exists W p = Ok true.
Proof. unfold found. destruct (path_exists W p) as [[|] | e]; split; congruence. Qed.

Lemma absent_spec (p : Path W) : absent p = true ↔ path_exists W p = Ok false.
Proof. unfold absent. destruct (path_exists W p) as [[|] | e]; split; congruence. Qed.

(** The probes of a test whose four checks pass all return. *)
Lemma all_checks_pass_returns (root : Path W) :
  all_checks_pass root = true → probe_fault root = None.
Proof.
  unfold all_checks_pass, probe_fault, found.
  repeat case_match; simpl; congruence.
Qed.

(** On an entry with the three keys, the status written and the probes
    returning, [test_tool] returns. *)
Lemma test_tool_returns (d : gmap string atom) tid name p :
  d !! "id" = Some tid →
  d !! "display_name" = Some name →
  d !! "path" = Some (AStr p) →
  status_write W (testing_update (Obj d)) = None →
  probe_fault (Path_new W p) = None →
  ∃ r (evs : list (event W)),
    emits (W:=W) (test_tool (Obj d)) (Ok r) evs ∧
    (tool_id r = tid ∧ tool_name r = name ∧ status r ∈ ["pass"; "fail"; "skip"]
     ∧ message r ≠ "") ∧
    (status r = "pass" ↔
       all_checks_pass (Path_new W p) = true ∧
       ∃ out err, run_child (Path_new W p) = Completed 0 out err) ∧
    (status r = "skip" ↔
       found (Path_new W p) = true ∧
       absent (path_div W (Path_new W p) "engine.py") = true) ∧
    (details r ≠ ∅ ↔
       all_checks_pass (Path_new W p) = true ∧
       ∃ rc out err, run_child (Path_new W p) = Completed rc out err).
Proof.
  intros Hid Hname Hp Hw Hret.
  destruct (test_tool_footprint d tid name p Hid Hname Hp Hw)
    as (o & evs & Hrun & _ & _ & _ & Hcase).
  destruct o as [r | e]; [| simpl in Hcase; congruence].
  destruct Hcase as (_ & Hfields & Hpass & Hskip & Hdetails).
  by exists r, evs.
Qed.

(** The result and the log of a test whose child ran to its end. *)
Lemma child_outcome_of (d : gmap string atom) tid name p :
  d !! "id" = Some tid →
  d !! "display_name" = Some name →
  d !! "path" = Some (AStr p) →
  status_write W (testing_update (Obj d)) = None →
  let root := Path_new W p in
  ∃ o (evs : list (event W)),
    emits (W:=W) (test_tool (Obj d)) o evs ∧
    (all_checks_pass root = true →
     ∀ rc out err, run_child root = Completed rc out err →
       ∃ r, o = Ok r ∧
       details r = <["stderr" := AStr err]>
                     (<["stdout" := AStr out]> (<["exit_code" := AInt rc]> ∅)) ∧
       logged WARNING evs = [] ∧
       logged ERROR evs =
         if bool_decide (rc = 0%Z) then []
         else ("✗ " +:+ py_str tid +:+ " test failed") ::
              if bool_decide (err = "") then []
              else ["Error output: " +:+ py_slice_to 200 err]).
Proof.
  intros Hid Hname Hp Hw root. subst root.
  rewrite (testing_update_id d tid Hid) in Hw.
  probe_cases W p rc out err e;
    (eexists; eexists; split; [run_tool Hid Hname Hp Hw |]);
    rewrite_probes; try (intros [=]; fail).
  all: intros _ rc' out' err'; try (intros [=]; fail); intros [= <- <- <-].
  all: eexists; split; [reflexivity |].
  all: rewrite ?Erc, ?Eerr; by repeat split.
Qed.

(** [s\[:n\]] holds at most [n] characters, the first of [s]. *)
Lemma py_slice_to_length (n : nat) (s : string) : py_len (py_slice_to n s) ≤ n.
Proof.
  revert n. induction s as [| c s IH]; intros n; simpl; [lia |].
  destruct (continuation c) eqn:Hc.
  - simpl. rewrite Hc. apply IH.
  - destruct n as [| n]; simpl; [lia |]. rewrite Hc. specialize (IH n). lia.
Qed.

Lemma py_slice_to_prefix (n : nat) (s : string) :
  String.prefix (py_slice_to n s) s = true.
Proof.
  revert n. induction s as [| c s IH]; intros n; simpl; [reflexivity |].
  destruct (continuation c); [| destruct n as [| n]; [reflexivity |]]; simpl;
    (destruct (Ascii.ascii_dec c c) as [_ | Hne]; [apply IH | by destruct Hne]).
Qed.

Lemma py_slice_to_all (n : nat) (s : string) : py_len s ≤ n → py_slice_to n s = s.
Proof.
  revert n. induction s as [| c s IH]; intros n; simpl; [reflexivity |].
  destruct (continuation c); simpl.
  - intros Hlen. f_equal. by apply IH.
  - destruct n as [| n]; [lia |]. intros Hlen. f_equal. apply IH. lia.
Qed.

(** A text of one-byte characters is cut after [n] bytes. *)
Lemma py_slice_to_ascii (n : nat) (s : string) :
  py_len s = String.length s → py_slice_to n s = String.substring 0 n s.
Proof.
  revert n. induction s as [| c s IH]; intros n; simpl; [by destruct n |].
  pose proof (py_slice_to_length (String.length s) s) as Hle.
  assert (Hbound : py_len s ≤ String.length s).
  { clear. induction s as [| c s IH]; simpl; [lia |]. destruct (continuation c); lia. }
  destruct (continuation c); simpl; [lia |].
  intros Hlen. destruct n as [| n]; [reflexivity |]. f_equal. apply IH. lia.
Qed.

(** ** One tool *)

(** X1.  On an entry that holds an id, a display name and a string
    path, when the status "Testing <id>..." can be written and no probe
    raises, the status of the result is decided by the four checks and
    the child alone: [pass] exactly when the four checks pass and the
    child exits with code 0, [skip] exactly when the root is there and
    [engine.py] is not, [fail] in every other case. *)
Theorem status_decided_by_checks_and_child (tool_info : gmap string atom) tid name p :
  tool_info !! "id" = Some tid →
  tool_info !! "display_name" = Some name →
  tool_info !! "path" = Some (AStr p) →
  status_write W (testing_update (Obj tool_info)) = None →
  let root := Path_new W p in
  probe_fault root = None →
  let passes :=
    all_checks_pass root = true ∧ ∃ out err, run_child root = Completed 0 out err in
  let gui_only :=
    path_exists W root = Ok true ∧
    path_exists W (path_div W root "engine.py") = Ok false in
  ∃ r (evs : list (event W)),
    emits (W:=W) (test_tool (Obj tool_info)) (Ok r) evs ∧
    (status r = "pass" ↔ passes) ∧
    (status r = "skip" ↔ gui_only) ∧
    (status r = "fail" ↔ ¬ passes ∧ ¬ gui_only).
Proof.
  intros Hid Hname Hp Hw root Hret passes gui_only.
  destruct (test_tool_returns tool_info tid name p Hid Hname Hp Hw Hret)
    as (r & evs & Hrun & (_ & _ & Hst & _) & Hpass & Hskip & _).
  rewrite found_spec, absent_spec in Hskip.
  exists r, evs. split; [exact Hrun |]. split; [exact Hpass |]. split; [exact Hskip |].
  fold root in Hpass, Hskip. fold passes in Hpass. fold gui_only in Hskip.
  rewrite <- Hpass, <- Hskip.
  apply elem_of_cons in Hst as [-> | Hst]; [split; [discriminate | by intros [? _]] |].
  apply elem_of_cons in Hst as [-> | Hst]; [split; [by split | done] |].
  apply list_elem_of_singleton in Hst as ->. split; [discriminate | by intros [_ ?]].
Qed.

(** X2.  Under the same conditions (the three keys, a status file that
    can be written, probes that return) the [details] of a result are
    filled only by a child that ran to its end: they are empty when a
    check fails, when the child times out and when it cannot be spawned,
    and hold the exit code and the two captured streams otherwise. *)
Theorem details_filled_by_completed_child (tool_info : gmap string atom) tid name p :
  tool_info !! "id" = Some tid →
  tool_info !! "display_name" = Some name →
  tool_info !! "path" = Some (AStr p) →
  status_write W (testing_update (Obj tool_info)) = None →
  let root := Path_new W p in
  probe_fault root = None →
  ∃ r (evs : list (event W)),
    emits (W:=W) (test_tool (Obj tool_info)) (Ok r) evs ∧
    (details r ≠ ∅ ↔
       all_checks_pass root = true ∧ ∃ rc out err, run_child root = Completed rc out err) ∧
    (details r = ∅ ∨
     dom (details r) = ({["exit_code"; "stdout"; "stderr"]} : gset string)).
Proof.
  intros Hid Hname Hp Hw root Hret.
  destruct (test_tool_returns tool_info tid name p Hid Hname Hp Hw Hret)
    as (r & evs & Hrun & _ & _ & _ & Hdetails).
  exists r, evs. split; [exact Hrun |]. split; [exact Hdetails |].
  destruct (decide (details r = ∅)) as [Hempty | Hfull]; [by left |]. right.
  apply Hdetails in Hfull as (Hchecks & rc & out & err & Hchild).
  destruct (child_outcome_of tool_info tid name p Hid Hname Hp Hw)
    as (o' & evs' & Hrun' & Hcase).
  destruct (Hcase Hchecks rc out err Hchild) as (r' & -> & Hd & _).
  destruct (emits_unique _ _ _ _ _ Hrun Hrun') as [[= ->] _].
  rewrite Hd, !dom_insert_L, dom_empty_L.
  apply set_eq. intros k. rewrite !elem_of_union, !elem_of_singleton, elem_of_empty.
  tauto.
Qed.

(** X3.  When the four checks of a tool pass and its child ends with a
    code other than 0, having written to its standard error, the engine
    logs the first 200 characters of that text as an error, after the
    line that reports the failure; it logs no excerpt when the code is 0
    or the stream is empty.  The excerpt is cut by characters, not by
    bytes, and is the whole text when that has at most 200 characters.
    The result keeps the whole text under [stderr]. *)
Theorem stderr_excerpt_logged (tool_info : gmap string atom) tid name p rc out err :
  tool_info !! "id" = Some tid →
  tool_info !! "display_name" = Some name →
  tool_info !! "path" = Some (AStr p) →
  status_write W (testing_update (Obj tool_info)) = None →
  all_checks_pass (Path_new W p) = true →
  run_child (Path_new W p) = Completed rc out err →
  let excerpt := py_slice_to 200 err in
  ∃ r (evs : list (event W)),
    emits (W:=W) (test_tool (Obj tool_info)) (Ok r) evs ∧
    details r !! "stderr" = Some (AStr err) ∧
    logged ERROR evs =
      (if bool_decide (rc = 0%Z) then []
       else ("✗ " +:+ py_str tid +:+ " test failed") ::
            if bool_decide (err = "") then [] else ["Error output: " +:+ excerpt]) ∧
    py_len excerpt ≤ 200 ∧
    String.prefix excerpt err = true ∧
    (py_len err ≤ 200 → excerpt = err) ∧
    (py_len err = String.length err → excerpt = String.substring 0 200 err).
Proof.
  intros Hid Hname Hp Hw Hchecks Hchild excerpt.
  destruct (child_outcome_of tool_info tid name p Hid Hname Hp Hw)
    as (o & evs & Hrun & Hcase).
  destruct (Hcase Hchecks rc out err Hchild) as (r & -> & Hd & _ & Hlog).
  exists r, evs. split; [exact Hrun |].
  split; [rewrite Hd; apply lookup_insert_eq |]. split; [exact Hlog |].
  split; [apply py_slice_to_length |]. split; [apply py_slice_to_prefix |].
  split; [apply py_slice_to_all | apply py_slice_to_ascii].
Qed.

(** X4.  Whatever the entry, the file system and the child, [test_tool]
    leaves the results collected so far as they are and only adds to the
    trace: it writes no results file, opens no manifest, writes at most
    one status (and only [running] with progress 0), probes at most four
    paths and spawns at most one child. *)
Theorem test_tool_leaves_results_alone (tool_info : entry) (s : engine W) :
  test_results (test_tool tool_info s).2 = test_results s ∧
  ∃ evs : list (event W),
    trace (test_tool tool_info s).2 = trace s ++ evs ∧
    results_files evs = [] ∧
    opened evs = [] ∧
    length (status_updates evs) ≤ 1 ∧
    Forall (λ sd, sd_status sd = "running" ∧ sd_progress sd = 0%Z) (status_updates evs) ∧
    length (probes evs) ≤ 4 ∧
    length (spawns evs) ≤ 1.
Proof.
  destruct (test_tool_any (W:=W) tool_info)
    as (o & evs & Hrun & (Hres & Hopen) & Hup & (Hprobes & Hspawns) & _).
  rewrite (Hrun s). split; [reflexivity |]. exists evs.
  split; [reflexivity |]. split; [exact Hres |]. split; [exact Hopen |].
  split; [destruct Hup as [-> | ->]; simpl; lia |].
  split; [destruct Hup as [-> | ->]; by repeat constructor |].
  split; [exact Hprobes | exact Hspawns].
Qed.

(** X5.  An entry that is not well formed makes [test_tool] raise before
    any check: the [TypeError] of the interpreter for an entry that is
    not an object, a [KeyError] for a missing [id], [path] or
    [display_name], the [TypeError] of [Path] for a [path] that is not a
    string.  Nothing is probed and no child is spawned.  With a missing
    [display_name] the exception comes after the status "Testing
    <id>..." has been written, or is the exception of that write when it
    fails; in the other cases nothing has been written or logged. *)
Theorem malformed_entry_exception (tool_info : entry) :
  ¬ wf_tool tool_info →
  ∃ e (evs : list (event W)),
    emits (W:=W) (test_tool tool_info) (Raise e) evs ∧
    probes evs = [] ∧ spawns evs = [] ∧ results_files evs = [] ∧
    (∀ v, tool_info = NotObj v →
       e = TypeError (type_error W (Subscript v)) ∧ evs = []) ∧
    (field tool_info "id" = None → e = no_id_error (W:=W) tool_info ∧ evs = []) ∧
    (∀ d, tool_info = Obj d → d !! "id" = None → e = KeyError "id" ∧ evs = []) ∧
    (is_Some (field tool_info "id") → field tool_info "path" = None →
       e = KeyError "path" ∧ evs = []) ∧
    (∀ v, is_Some (field tool_info "id") → field tool_info "path" = Some v →
       (∀ p, v ≠ AStr p) →
       e = TypeError (type_error W (NotAPath v)) ∧ evs = []) ∧
    (∀ p, is_Some (field tool_info "id") → field tool_info "path" = Some (AStr p) →
       field tool_info "display_name" = None ∧
       match status_write W (testing_update tool_info) with
       | None =>
           e = KeyError "display_name" ∧ status_updates evs = [testing_update tool_info]
       | Some e' => e = e' ∧ status_updates evs = []
       end).
Proof.
  intros Hnot.
  destruct (test_tool_unready (W:=W) tool_info)
    as (e & evs & Hrun & (Hprobes & Hspawns & Hres & _) & _ & Hcase).
  { by intros [Hwf _]. }
  exists e, evs. split; [exact Hrun |].
  split; [exact Hprobes |]. split; [exact Hspawns |]. split; [exact Hres |].
  destruct tool_info as [d | v]; simpl in *.
  - split; [intros v [=] |].
    split; [intros Hid; by rewrite Hid in Hcase |].
    split; [intros d' [= <-] Hid; by rewrite Hid in Hcase |].
    split; [intros [tid Hid] Hp; by rewrite Hid, Hp in Hcase |].
    split.
    + intros v [tid Hid] Hp Hv. rewrite Hid, Hp in Hcase.
      destruct v; try exact Hcase. by destruct (Hv s).
    + intros p [tid Hid] Hp. rewrite Hid, Hp in Hcase. split; [| exact Hcase].
      destruct (d !! "display_name") as [name |] eqn:Hname; [| reflexivity].
      destruct Hnot. repeat split; simpl; eauto.
  - split; [intros v' [= <-]; exact Hcase |].
    split; [intros _; exact Hcase |].
    split; [intros d [=] |].
    split; [by intros [? [=]] |].
    split; [by intros ? [? [=]] | by intros ? [? [=]]].
Qed.

(** X6.  [test_tool] reads three keys of the entry and no other: two
    entries that agree on [id], [path] and [display_name] are tested
    alike.  In particular the [enabled] flag of the manifest has no
    effect on the engine. *)
Theorem test_tool_reads_three_keys (tool_info tool_info' : gmap string atom) :
  tool_info !! "id" = tool_info' !! "id" →
  tool_info !! "path" = tool_info' !! "path" →
  tool_info !! "display_name" = tool_info' !! "display_name" →
  test_tool (W:=W) (Obj tool_info) = test_tool (Obj tool_info') ∧
  ∀ flag, test_tool (W:=W) (Obj (<["enabled" := flag]> tool_info))
          = test_tool (Obj tool_info').
Proof.
  intros Hid Hp Hname.
  assert (Hsame : ∀ t t' : gmap string atom,
            t !! "id" = t' !! "id" → t !! "path" = t' !! "path" →
            t !! "display_name" = t' !! "display_name" →
            test_tool (W:=W) (Obj t) = test_tool (Obj t')).
  { intros t t' H1 H2 H3. unfold test_tool, getitem. by rewrite H1, H2, H3. }
  split; [by apply Hsame |].
  intros flag. apply Hsame; by rewrite lookup_insert_ne.
Qed.

(** ** Runs *)

Lemma exit_code_cases (rs : list TestResult) : exit_code rs = 0%Z ∨ exit_code rs = 1%Z.
Proof. unfold exit_code. case_bool_decide; auto. Qed.

Lemma summary_update_final (rs : list TestResult) : terminal (summary_update rs).
Proof.
  destruct (summary_update_terminal rs) as [(_ & _ & Hst & Hprog) | (_ & _ & Hst & Hprog)].
  - right; right; left. by split.
  - right; right; right. by split.
Qed.

(** How [run] ends. *)
Lemma run_final (a : args) (s : engine W) :
  ∃ o rs (evs : list (event W)),
    run a s = (o, extend s rs evs) ∧
    match o with
    | Ok code =>
        (code = 0%Z ∨ code = 1%Z) ∧
        ∃ sd, last_status evs = Some sd ∧ terminal sd
    | Raise e => ∃ e', status_write W (fatal_update e') = Some e
    end.
Proof.
  destruct (run_any (W:=W) a s) as (o & rs & evs & Hrun & _ & _ & Hcase).
  exists o, rs, evs. split; [exact Hrun |]. destruct o as [code | e]; [| by destruct Hcase].
  destruct Hcase as (sd & Hlast & Hcase).
  destruct Hcase as [(_ & -> & -> & _) | [([e ->] & -> & _)
                    | [(_ & Hsd & -> & _) | (_ & -> & -> & _)]]].
  - split; [by left |]. eexists. split; [exact Hlast |]. by left.
  - split; [by right |]. eexists. split; [exact Hlast |]. right; left. by split.
  - split; [apply exit_code_cases |].
    exists sd. split; [exact Hlast |]. right; left.
    destruct Hsd as [(_ & ->) | (t & _ & ->)]; by split.
  - split; [apply exit_code_cases |].
    eexists. split; [exact Hlast |]. apply summary_update_final.
Qed.

(** X7.  Whatever the arguments, the manifest, the file system and the
    children, [run] lets an exception out in one case only: when the
    write of the status of a fatal error itself fails, in its [except]
    branch.  In every other case it returns 0 or 1, and the last status
    it has written is a final one ([test_mode], [error], [completed] or
    [completed_with_errors], with progress 100 unless it is [error]),
    never [running]. *)
Theorem run_ends_with_final_status (a : args) (s : engine W) :
  ∃ o rs (evs : list (event W)),
    run a s = (o, extend s rs evs) ∧
    match o with
    | Ok code =>
        (code = 0%Z ∨ code = 1%Z) ∧
        ∃ sd, last_status evs = Some sd ∧ terminal sd
    | Raise e => ∃ e', status_write W (fatal_update e') = Some e
    end.
Proof. exact (run_final a s). Qed.

(** What [main] returns and the status it leaves. *)
Lemma status_agreement (a : args) :
  ∃ o rs (evs : list (event W)),
    main a = (o, {| test_results := rs; trace := evs |}) ∧
    match o with
    | Ok code =>
        ∃ sd, last_status evs = Some sd ∧
          (sd_status sd = "completed" → code = 0%Z) ∧
          (sd_status sd = "test_mode" → code = 0%Z) ∧
          (sd_status sd = "completed_with_errors" → code = 1%Z) ∧
          (code = 1%Z → sd_status sd = "completed_with_errors" ∨ sd_status sd = "error") ∧
          (results_files evs ≠ [] ↔
             sd_status sd = "completed" ∨ sd_status sd = "completed_with_errors") ∧
          (results_files evs ≠ [] → results_files evs = [rs])
    | Raise e => results_files evs = [] ∧ ∃ e', status_write W (fatal_update e') = Some e
    end.
Proof.
  destruct (run_any (W:=W) a new_engine) as (o & rs & evs & Hrun & _ & _ & Hcase).
  exists o, rs, evs. split; [exact Hrun |]. destruct o as [code | e]; [| exact Hcase].
  destruct Hcase as (sd & Hlast & Hcase). exists sd. split; [exact Hlast |].
  destruct Hcase as [(_ & -> & -> & _ & Hres) | [([e ->] & -> & Hres)
                    | [(_ & Hsd & -> & _ & Hres) | (_ & -> & -> & _ & Hres)]]].
  - rewrite Hres. repeat split; try done. by intros [|].
  - rewrite Hres. repeat split; try done; auto. by intros [|].
  - rewrite Hres. destruct Hsd as [(_ & ->) | (t & _ & ->)];
      repeat split; try done; by intros [|].
  - rewrite Hres. simpl.
    destruct (summary_update_terminal rs) as [(_ & -> & -> & _) | (_ & -> & -> & _)];
      repeat split; try done; auto.
Qed.


(** X9.  In the self-test mode, when the status file can be written,
    [run] returns 0 after one status, [test_mode] with progress 100, and
    touches nothing else: it opens no manifest, probes no path, spawns
    no child and writes no results file, whatever [--tool] says. *)
Theorem self_test_touches_nothing (a : args) (s : engine W) :
  test a = true →
  status_write W test_mode_update = None →
  ∃ evs : list (event W),
    run a s = (Ok 0%Z, log_to s evs) ∧
    status_updates evs = [test_mode_update] ∧
    opened evs = [] ∧ probes evs = [] ∧ spawns evs = [] ∧ results_files evs = [] ∧
    logged ERROR evs = [] ∧ logged WARNING evs = [].
Proof.
  intros Htest Hw. eexists. split; [by apply run_test_mode |]. by repeat split.
Qed.

Lemma test_all_tools_config_raised e (s : engine W) :
  studio_config W = ConfigRaised e →
  status_write W loading_update = None →
  test_all_tools s =
    (Raise e, log_to s [Log INFO "Starting test suite for all tools";
                        StatusWrite loading_update;
                        OpenConfig (studio_config_path W)]).
Proof.
  intros Hcfg Hw. rewrite test_all_tools_unfold.
  rewrite update_status_ok by exact Hw.
  rewrite (config_raised_emits e Hcfg). same_state.
Qed.

(** X10.  When the manifest cannot be read for another reason than its
    absence (a parse error, say) and the status file can be written, the
    run is over at once: [main] logs the fatal error, writes the status
    [error] with progress 0 and the text of the exception, and returns
    1.  No tool is probed, no child is spawned, no result and no results
    file is produced. *)
Theorem manifest_error_is_fatal (a : args) e :
  test a = false →
  studio_config W = ConfigRaised e →
  status_writable W →
  ∃ evs : list (event W),
    main a = (Ok 1%Z, {| test_results := []; trace := evs |}) ∧
    last_status evs = Some (fatal_update e) ∧
    logged ERROR evs = ["Fatal error: " +:+ exn_str e] ∧
    opened evs = [studio_config_path W] ∧
    probes evs = [] ∧ spawns evs = [] ∧ results_files evs = [].
Proof.
  intros Htest Hcfg Hsw.
  destruct (tool_given a) as [t |] eqn:Hgiven.
  - eexists. split.
    + eapply (main_fatal a e []); [exact Htest | | apply Hsw]. unfold operation.
      rewrite Hgiven. exact (test_single_tool_config_raised e t new_engine Hcfg).
    + by repeat split.
  - eexists. split.
    + eapply (main_fatal a e []); [exact Htest | | apply Hsw]. unfold operation.
      rewrite Hgiven. exact (test_all_tools_config_raised e new_engine Hcfg (Hsw _)).
    + by repeat split.
Qed.

(** X11.  When the status file can be written, a full-suite run stops at
    the first entry of the manifest that is not testable (an entry that
    is not well formed, or one for which a probe raises): the tools
    before it have been tested and their results are in memory, the
    tools after it are not touched, no summary is made and no results
    file is written; the run ends with the status [error], progress 0,
    the text of the exception as message, and code 1. *)
Theorem malformed_entry_aborts_suite (a : args) (pre : list entry) bad post :
  test a = false →
  tool_given a = None →
  manifest_of (studio_config W) = Some (Sequence (pre ++ bad :: post)) →
  Forall (testable (W:=W)) pre →
  ¬ testable (W:=W) bad →
  status_writable W →
  ∃ e rs (evs : list (event W)),
    main a = (Ok 1%Z, {| test_results := rs; trace := evs |}) ∧
    Forall2 (tested (W:=W)) pre rs ∧
    raises (W:=W) bad e ∧
    last_status evs = Some (fatal_update e) ∧
    results_files evs = [] ∧
    (∃ evs', probes evs = (pre ≫= probes_of) ++ probes evs' ∧
             emits (W:=W) (test_tool bad) (Raise e) evs') ∧
    spawns evs = pre ≫= child_of (W:=W).
Proof.
  intros Htest Hgiven Hload Hpre Hbad Hsw.
  destruct (test_tool_any (W:=W) bad) as (o & evs' & Hraise & (Hres' & _) & _ & _ & Hcase).
  destruct o as [r | e]; [by destruct Hcase as [Hok _] |].
  destruct Hcase as [_ Hspawns'].
  destruct (test_all_tools_aborts pre bad post e evs' new_engine Hload Hpre Hsw Hraise)
    as (rs & evs & Hrun & Hall & Hup & Hres & _ & Hprobes & Hspawns).
  exists e, rs, ((evs ++ evs') ++ [Log ERROR ("Fatal error: " +:+ exn_str e);
                                   StatusWrite (fatal_update e)]).
  split.
  - apply (main_fatal a e rs (evs ++ evs') Htest); [| apply Hsw].
    unfold operation. by rewrite Hgiven.
  - split; [exact Hall |]. split; [by exists evs' |]. split.
    + apply (last_status_snoc (status_updates (evs ++ evs'))).
      by rewrite status_updates_app.
    + split_trace. rewrite Hres, Hres', Hprobes, Hspawns, Hspawns', !app_nil_r.
      split; [done |]. split; [by exists evs' | done].
Qed.

(** X12.  When the entry is testable and the status file and the
    results file can be written, a single-tool run tests the first entry
    of the manifest that carries the requested id, and only that one: it
    produces one result, probes and spawns for that entry alone, and
    ends with the summary.  The entries after the match are not looked
    at, so that a second entry with the same id or an entry that is not
    well formed does no harm there. *)
Theorem single_tool_takes_first_match (a : args) t (pre : list entry) d post :
  test a = false →
  tool_given a = Some t →
  manifest_of (studio_config W) = Some (Sequence (pre ++ Obj d :: post)) →
  Forall (other_id t) pre →
  has_id t (Obj d) = true →
  testable (W:=W) (Obj d) →
  status_writable W → results_writable W →
  ∃ r (evs : list (event W)),
    main a = (Ok (exit_code [r]), {| test_results := [r]; trace := evs |}) ∧
    tested (W:=W) (Obj d) r ∧
    status_updates evs = [testing_update (Obj d); summary_update [r]] ∧
    results_files evs = [[r]] ∧
    probes evs = probes_of (Obj d) ∧
    spawns evs = child_of (W:=W) (Obj d).
Proof.
  intros Htest Hgiven Hload Hpre Hd Hok Hsw Hrw.
  destruct (test_single_tool_tested pre d post t new_engine Hload Hpre Hd Hok Hsw Hrw)
    as (r & evs & Hrun & Htested & Hup & Hres & _ & Hprobes & Hspawns).
  exists r, evs. split.
  - apply (main_ok a [r] evs Htest). unfold operation. by rewrite Hgiven.
  - split; [exact Htested |]. split; [exact Hup |]. split; [exact Hres |].
    split; [exact Hprobes | exact Hspawns].
Qed.

(** X13.  A single-tool run looks the id up entry by entry with
    [t\['id'\]]: an object without an id that comes before the first
    match ends the run with a [KeyError], even when the requested tool
    is in the manifest further down.  When the status file can be
    written the run returns 1 with the status [error] and the message
    ['id'], and nothing has been tested. *)
Theorem single_tool_idless_entry_fatal (a : args) t (pre : list entry) bad post :
  test a = false →
  tool_given a = Some t →
  manifest_of (studio_config W) = Some (Sequence (pre ++ Obj bad :: post)) →
  Forall (other_id t) pre →
  bad !! "id" = None →
  status_write W (fatal_update (KeyError "id")) = None →
  ∃ evs : list (event W),
    main a = (Ok 1%Z, {| test_results := []; trace := evs |}) ∧
    status_updates evs = [fatal_update (KeyError "id")] ∧
    sd_message (fatal_update (KeyError "id")) = "'id'" ∧
    results_files evs = [] ∧ probes evs = [] ∧ spawns evs = [].
Proof.
  intros Htest Hgiven Hload Hpre Hbad Hw.
  destruct (test_single_tool_idless pre (Obj bad) post t new_engine Hload Hpre Hbad)
    as (evs & Hrun & Hup & Hres & _ & Hprobes & Hspawns).
  exists (evs ++ [Log ERROR ("Fatal error: " +:+ exn_str (KeyError "id"));
                  StatusWrite (fatal_update (KeyError "id"))]).
  split.
  - apply (main_fatal a (KeyError "id") [] evs Htest); [| exact Hw]. unfold operation.
    rewrite Hgiven. exact Hrun.
  - split_trace. rewrite Hup, Hres, Hprobes, Hspawns. by repeat split.
Qed.

(** X14.  When the status file can be written, a full-suite run takes a
    manifest that is missing, one without a [tools] key, one with an
    empty list and one with another empty value under [tools] ([null],
    [false], 0) alike: it logs "No tools found in studio_config.json"
    (after "Studio config not found: ..." when the file is missing),
    writes the status [error] "No tools to test" and returns 0, having
    probed no path and spawned no child. *)
Theorem missing_manifest_means_no_tools (a : args) tools :
  test a = false →
  tool_given a = None →
  manifest_of (studio_config W) = Some tools →
  not_ tools = true →
  status_writable W →
  ∃ evs : list (event W),
    main a = (Ok 0%Z, {| test_results := []; trace := evs |}) ∧
    status_updates evs = [loading_update; no_tools_update] ∧
    logged ERROR evs =
      match studio_config W with
      | ConfigNotFound =>
          ["Studio config not found: " +:+ path_str W (studio_config_path W)]
      | _ => []
      end ++ ["No tools found in studio_config.json"] ∧
    opened evs = [studio_config_path W] ∧
    probes evs = [] ∧ spawns evs = [] ∧ results_files evs = [].
Proof.
  intros Htest Hgiven Hload Hnot Hsw.
  destruct (load_studio_config_any (W:=W))
    as (o & evs0 & Hcfg & (Hup0 & Hres0 & Hprobes0 & Hspawns0) & Hopen0 & Hcase).
  assert (Ho : o = Ok tools ∧
               logged ERROR evs0 =
                 match studio_config W with
                 | ConfigNotFound =>
                     ["Studio config not found: " +:+ path_str W (studio_config_path W)]
                 | _ => []
                 end).
  { destruct (studio_config W) as [| e | tools']; simplify_eq/=; [done |].
    by destruct Hcase as [-> ?]. }
  destruct Ho as [-> Hlog0].
  exists ([Log INFO "Starting test suite for all tools"; StatusWrite loading_update]
          ++ evs0 ++ [Log ERROR "No tools found in studio_config.json";
                      StatusWrite no_tools_update]).
  split.
  - eapply (main_ok a []); [exact Htest |]. unfold operation. rewrite Hgiven.
    rewrite test_all_tools_unfold. rewrite update_status_ok by apply Hsw.
    rewrite Hcfg, Hnot. rewrite update_status_ok by apply Hsw. same_state.
  - split_trace. rewrite !logged_app, Hup0, Hres0, Hprobes0, Hspawns0, Hopen0, Hlog0.
    by repeat split.
Qed.

(** ** Counting *)

Lemma gui_only_not_passes (tool_info : entry) :
  gui_only (W:=W) tool_info = true → passes (W:=W) tool_info = false.
Proof.
  unfold gui_only, passes, all_checks_pass, found, absent.
  destruct (root_of tool_info) as [root |]; [| done].
  destruct (path_exists W root) as [[|] | e]; try done.
  destruct (path_exists W (path_div W root "engine.py")) as [[|] | e]; done.
Qed.

Lemma gui_only_no_child (tool_info : entry) :
  gui_only (W:=W) tool_info = true → child_of (W:=W) tool_info = [].
Proof.
  unfold gui_only, child_of, all_checks_pass, found, absent.
  destruct (root_of tool_info) as [root |]; [| done].
  destruct (path_exists W root) as [[|] | e]; try done.
  destruct (path_exists W (path_div W root "engine.py")) as [[|] | e]; done.
Qed.

Lemma count_status_step st r rs :
  count_status st (r :: rs) = (if decide (status r = st) then 1 else 0) + count_status st rs.
Proof. unfold count_status. rewrite filter_cons. by case_decide. Qed.

Lemma count_tested (tools : list entry) rs :
  Forall2 (tested (W:=W)) tools rs →
  count_status "pass" rs = length (filter (λ t, passes (W:=W) t = true) tools) ∧
  count_status "skip" rs = length (filter (λ t, gui_only (W:=W) t = true) tools) ∧
  count_status "pass" rs + count_status "fail" rs + count_status "skip" rs = length tools ∧
  (count_status "fail" rs = 0 ↔
     Forall (λ t, passes (W:=W) t = true ∨ gui_only (W:=W) t = true) tools).
Proof.
  induction 1 as [| t r tools rs (_ & (_ & _ & Hst) & Hpass & Hskip) _ (IH1 & IH2 & IH3 & IH4)].
  - by repeat split.
  - rewrite !count_status_step, !filter_cons, Forall_cons, <- IH4.
    apply elem_of_cons in Hst as [Hst | Hst];
      [| apply elem_of_cons in Hst as [Hst | Hst];
         [| apply list_elem_of_singleton in Hst]];
      rewrite Hst in *; repeat case_decide; try discriminate; simpl;
      repeat split; try lia; intuition (try discriminate; try lia; auto).
Qed.

(** X15.  After a full-suite run over a manifest of testable entries,
    the status file and the results file being writable, the counts of
    the summary follow the manifest: the results that passed are as many
    as the tools whose four checks pass and whose child ends with code
    0, the results skipped as many as the GUI-only tools, and passed,
    failed and skipped add up to the number of tools.  The run returns 0
    exactly when every tool passes or is GUI-only. *)
Theorem summary_counts_follow_manifest (a : args) tools :
  test a = false →
  tool_given a = None →
  manifest_of (studio_config W) = Some (Sequence tools) →
  Forall (testable (W:=W)) tools →
  status_writable W → results_writable W →
  ∃ rs (evs : list (event W)),
    main a = (Ok (exit_code rs), {| test_results := rs; trace := evs |}) ∧
    count_status "pass" rs = length (filter (λ t, passes (W:=W) t = true) tools) ∧
    count_status "skip" rs = length (filter (λ t, gui_only (W:=W) t = true) tools) ∧
    count_status "pass" rs + count_status "fail" rs + count_status "skip" rs
      = length tools ∧
    (exit_code rs = 0%Z ↔
       Forall (λ t, passes (W:=W) t = true ∨ gui_only (W:=W) t = true) tools).
Proof.
  intros Htest Hgiven Hload Hok Hsw Hrw.
  destruct (main_run_all (W:=W) a tools Htest Hgiven Hload Hok Hsw Hrw)
    as (rs & evs & Hmain & Hall & _).
  destruct (count_tested tools rs Hall) as (Hpass & Hskip & Hsum & Hfail).
  exists rs, evs. split; [exact Hmain |].
  split; [exact Hpass |]. split; [exact Hskip |]. split; [exact Hsum |].
  rewrite <- Hfail. unfold exit_code. case_bool_decide; split; try done; lia.
Qed.

(** X16.  A suite of GUI-only tools completes: when every tool of a
    non-empty manifest of testable entries has its root and no
    [engine.py], and the two files can be written, every result is
    [skip], no child is spawned, and the run returns 0 with the status
    [completed] and the message "All 0 tests passed". *)
Theorem gui_only_suite_completes (a : args) tools :
  test a = false →
  tool_given a = None →
  manifest_of (studio_config W) = Some (Sequence tools) →
  Forall (testable (W:=W)) tools →
  status_writable W → results_writable W →
  Forall (λ t, gui_only (W:=W) t = true) tools →
  tools ≠ [] →
  ∃ rs (evs : list (event W)),
    main a = (Ok 0%Z, {| test_results := rs; trace := evs |}) ∧
    length rs = length tools ∧
    Forall (λ r, status r = "skip") rs ∧
    spawns evs = [] ∧
    last_status evs = Some {| sd_status := "completed"; sd_progress := 100;
                              sd_message := "All 0 tests passed" |}.
Proof.
  intros Htest Hgiven Hload Hok Hsw Hrw Hgui Hne.
  destruct (main_run_all (W:=W) a tools Htest Hgiven Hload Hok Hsw Hrw)
    as (rs & evs & Hmain & Hall & Hup & _ & _ & _ & Hspawns).
  destruct (count_tested tools rs Hall) as (Hpass & _ & _ & Hfail).
  assert (Hnopass : count_status "pass" rs = 0).
  { rewrite Hpass. clear -Hgui. induction Hgui as [| t rest Ht _ IH]; [done |].
    rewrite filter_cons. case_decide as Hp; [| exact IH].
    by rewrite (gui_only_not_passes t Ht) in Hp. }
  assert (Hnofail : count_status "fail" rs = 0).
  { apply Hfail. eapply Forall_impl; [exact Hgui | auto]. }
  exists rs, evs. split; [| split; [| split; [| split]]].
  - replace 0%Z with (exit_code rs); [exact Hmain |].
    unfold exit_code. by rewrite Hnofail.
  - symmetry. by eapply Forall2_length.
  - clear -Hall Hgui. induction Hall as [| t r tools rs (_ & _ & _ & Hskip) _ IH]; [done |].
    apply Forall_cons in Hgui as [Ht Hrest]. constructor; [by apply Hskip | by apply IH].
  - rewrite Hspawns. clear -Hgui. induction Hgui as [| t rest Ht _ IH]; [done |].
    by rewrite bind_cons, (gui_only_no_child t Ht), IH.
  - destruct tools as [| t0 rest]; [done |].
    apply (last_status_snoc
             (loading_update :: each_updates (length (t0 :: rest)) 0 (t0 :: rest))).
    rewrite Hup. unfold suite_updates. rewrite app_comm_cons. do 2 f_equal.
    unfold summary_update, final_status. by rewrite Hnopass, Hnofail.
Qed.

Lemma child_of_shape (tool_info : entry) :
  length (child_of (W:=W) tool_info) ≤ 1 ∧
  Forall (λ c : list string * string * nat,
            c.2 = 30 ∧
            ∃ python, c.1.1 = [python; "engine.py"; "--config"; "config.json"; "--test"])
         (child_of (W:=W) tool_info).
Proof.
  unfold child_of. destruct (root_of tool_info) as [root |]; [| by split; [simpl; lia |]].
  destruct (all_checks_pass root); [| by split; [simpl; lia |]].
  split; [simpl; lia |]. constructor; [| constructor]. split; [done |]. by eexists.
Qed.

Lemma probes_of_length (tool_info : entry) :
  length (probes_of (W:=W) tool_info) ≤ 4.
Proof.
  unfold probes_of. destruct (root_of tool_info); [apply checked_paths_length | simpl; lia].
Qed.

(** X17.  What a full-suite run touches, over a manifest of testable
    entries and with the two files writable, the world being the same
    for the whole run: it opens the manifest once, probes for each tool,
    in manifest order, its root and then at most three paths under it,
    and spawns one child for each tool whose four checks pass and for no
    other, with the arguments [engine.py --config config.json --test]
    and a bound of 30 seconds. *)
Theorem suite_footprint (a : args) tools :
  test a = false →
  tool_given a = None →
  manifest_of (studio_config W) = Some (Sequence tools) →
  Forall (testable (W:=W)) tools →
  status_writable W → results_writable W →
  ∃ rs (evs : list (event W)),
    main a = (Ok (exit_code rs), {| test_results := rs; trace := evs |}) ∧
    opened evs = [studio_config_path W] ∧
    probes evs = tools ≫= probes_of ∧
    spawns evs = tools ≫= child_of (W:=W) ∧
    length (probes evs) ≤ 4 * length tools ∧
    length (spawns evs) ≤ length tools ∧
    Forall (λ c : list string * string * nat,
              c.2 = 30 ∧
              ∃ python, c.1.1 = [python; "engine.py"; "--config"; "config.json"; "--test"])
           (spawns evs).
Proof.
  intros Htest Hgiven Hload Hok Hsw Hrw.
  destruct (main_run_all (W:=W) a tools Htest Hgiven Hload Hok Hsw Hrw)
    as (rs & evs & Hmain & _ & _ & _ & Hopen & Hprobes & Hspawns).
  exists rs, evs. split; [exact Hmain |].
  split; [exact Hopen |]. split; [exact Hprobes |]. split; [exact Hspawns |].
  rewrite Hprobes, Hspawns. clear. induction tools as [| t rest (IH1 & IH2 & IH3)].
  - repeat split; simpl; try lia. constructor.
  - rewrite !bind_cons, !length_app. cbn [length].
    pose proof (probes_of_length t). destruct (child_of_shape t) as [Hone Hshape].
    split; [lia |]. split; [lia |]. by apply Forall_app.
Qed.

(** X18.  When the status file and the results file can be written,
    [generate_summary] leaves the results as they are and writes, in
    this order: the lines of the summary, one of them per result and in
    the order of the results; the final status; the results file,
    holding the results; the line that names the file.  The status is
    thus written before the results file exists; when the write of the
    status fails, no results file is written. *)
Theorem summary_written_before_results (s : engine W) :
  ∃ lines : list string,
    (status_write W (summary_update (test_results s)) = None →
     results_write W (test_results s) = None →
     generate_summary s =
       (Ok tt,
        log_to s ((Log INFO <$> lines)
                  ++ [StatusWrite (summary_update (test_results s));
                      ResultsWrite (results_file W) (test_results s);
                      Log INFO ("Results saved to: " +:+ path_str W (results_file W))]))) ∧
    (∀ e, status_write W (summary_update (test_results s)) = Some e →
       generate_summary s = (Raise e, log_to s (Log INFO <$> lines))) ∧
    length lines = 9 + length (test_results s) ∧
    lines !! 3 = Some ("Total tests: " +:+ pretty (length (test_results s))) ∧
    ∀ i r, test_results s !! i = Some r →
      lines !! (8 + i)
        = Some (status_icon (status r) +:+ " " +:+ py_str (tool_name r)
                +:+ ": " +:+ message r).
Proof.
  exists (summary_lines (test_results s)).
  split; [intros Hsw Hrw; by apply generate_summary_trace |].
  split; [intros e Hsw; by apply generate_summary_unwritten |].
  unfold summary_lines. split; [| split; [reflexivity |]].
  - rewrite !length_app, length_fmap. simpl. lia.
  - intros i r Hr. change (8 + i) with (S (S (S (S (S (S (S (S i)))))))). simpl.
    rewrite lookup_app_l by (rewrite length_fmap; by eapply lookup_lt_Some).
    by rewrite list_lookup_fmap, Hr.
Qed.


(** ** A tool alone and in the suite *)

(** X25.  Testing a tool alone gives the result it gets in the suite,
    when both runs meet the same world (the same manifest, file system
    and children, standing still during the runs): over a manifest of
    testable entries, the two files being writable, the one result of a
    single-tool run for an id is the result that a full-suite run
    produces at the first entry with that id. *)
Theorem single_run_agrees_with_suite (one suite : args) t tools k d :
  test one = false → tool_given one = Some t →
  test suite = false → tool_given suite = None →
  manifest_of (studio_config W) = Some (Sequence tools) →
  Forall (testable (W:=W)) tools →
  status_writable W → results_writable W →
  tools !! k = Some d →
  has_id t d = true →
  Forall (other_id t) (take k tools) →
  ∃ r rs (evs evs' : list (event W)),
    main one = (Ok (exit_code [r]), {| test_results := [r]; trace := evs |}) ∧
    main suite = (Ok (exit_code rs), {| test_results := rs; trace := evs' |}) ∧
    rs !! k = Some r.
Proof.
  intros Htest Hgiven Htest' Hgiven' Hload Hok Hsw Hrw Hk Hd Hpre.
  assert (Hsplit : tools = take k tools ++ d :: drop (S k) tools)
    by (symmetry; by apply take_drop_middle).
  assert (Hokd : testable (W:=W) d).
  { rewrite Forall_forall in Hok. apply Hok. by eapply list_elem_of_lookup_2. }
  destruct d as [fields | v]; [| discriminate Hd].
  rewrite Hsplit in Hload.
  destruct (test_single_tool_tested _ fields _ t new_engine Hload Hpre Hd Hokd Hsw Hrw)
    as (r & evs & Hrun & (Hr & _) & _).
  rewrite <- Hsplit in Hload.
  destruct (main_run_all (W:=W) suite tools Htest' Hgiven' Hload Hok Hsw Hrw)
    as (rs & evs' & Hmain' & Hall & _).
  destruct (Forall2_lookup_l _ _ _ _ _ Hall Hk) as (r' & Hk' & (Hr' & _)).
  exists r, rs, evs, evs'. split; [| split].
  - apply (main_ok one [r] evs Htest). unfold operation. by rewrite Hgiven.
  - exact Hmain'.
  - by rewrite (result_of_unique (Obj fields) r r' Hr Hr').
Qed.

(** X26.  The message of a result names the check that failed: on an
    entry with the three keys, the status file being writable and the
    probes returning, it is "Tool directory not found: <root>" exactly
    when the root is missing, "No engine.py found (GUI-only tool)"
    exactly when the root is there and [engine.py] is not, "No
    config.json found" exactly when only these two are there, and
    "Virtual environment not found" exactly when the interpreter alone
    is missing; no outcome of the child gives one of these messages. *)
Theorem message_names_failed_check (tool_info : gmap string atom) tid name p :
  tool_info !! "id" = Some tid →
  tool_info !! "display_name" = Some name →
  tool_info !! "path" = Some (AStr p) →
  status_write W (testing_update (Obj tool_info)) = None →
  let root := Path_new W p in
  let engine_py := path_exists W (path_div W root "engine.py") in
  let config_json := path_exists W (path_div W root "config.json") in
  let venv_python := path_exists W (venv_python_of root) in
  probe_fault root = None →
  ∃ r (evs : list (event W)),
    emits (W:=W) (test_tool (Obj tool_info)) (Ok r) evs ∧
    (message r = "Tool directory not found: " +:+ path_str W root ↔
       path_exists W root = Ok false) ∧
    (message r = "No engine.py found (GUI-only tool)" ↔
       path_exists W root = Ok true ∧ engine_py = Ok false) ∧
    (message r = "No config.json found" ↔
       path_exists W root = Ok true ∧ engine_py = Ok true ∧ config_json = Ok false) ∧
    (message r = "Virtual environment not found" ↔
       path_exists W root = Ok true ∧ engine_py = Ok true ∧ config_json = Ok true ∧
       venv_python = Ok false).
Proof.
  intros Hid Hname Hp Hw root engine_py config_json venv_python.
  subst root engine_py config_json venv_python.
  rewrite (testing_update_id tool_info tid Hid) in Hw.
  probe_cases W p rc out err e; rewrite_probes; intros Hret; try discriminate Hret;
    (eexists; eexists; split; [run_tool Hid Hname Hp Hw |]);
    rewrite_probes.
  all: (split; [| split; [| split]]);
    (split;
     [ intros Hmsg; cbv [String.append] in Hmsg; try discriminate Hmsg; by repeat split
     | intros Hc; try (decompose [and] Hc; congruence); reflexivity ]).
Qed.

(** ** The status file over a full-suite run *)

(** X27.  The status file over a full-suite run on a non-empty manifest
    of N testable entries, the two files being writable, is written
    2N + 2 times: first "Loading tools...", then for the k-th tool its
    signal "Testing <id>..." with progress 0 followed by "Tested k/N
    tools" with the progress reached, and last the status of the
    summary. *)
Theorem suite_status_sequence (a : args) tools :
  test a = false →
  tool_given a = None →
  manifest_of (studio_config W) = Some (Sequence tools) →
  Forall (testable (W:=W)) tools →
  status_writable W → results_writable W →
  tools ≠ [] →
  ∃ rs (evs : list (event W)),
    main a = (Ok (exit_code rs), {| test_results := rs; trace := evs |}) ∧
    length (status_updates evs) = 2 * length tools + 2 ∧
    status_updates evs !! 0 = Some loading_update ∧
    (∀ k tool_info, tools !! k = Some tool_info →
       status_updates evs !! (2 * k + 1) = Some (testing_update tool_info) ∧
       status_updates evs !! (2 * k + 2)
         = Some (tested_update (k + 1) (length tools))) ∧
    status_updates evs !! (2 * length tools + 1) = Some (summary_update rs).
Proof.
  intros Htest Hgiven Hload Hok Hsw Hrw Hne.
  destruct (main_run_all (W:=W) a tools Htest Hgiven Hload Hok Hsw Hrw)
    as (rs & evs & Hmain & _ & Hup & _).
  exists rs, evs. split; [exact Hmain |].
  destruct tools as [| t0 rest]; [done |].
  rewrite Hup. unfold suite_updates. cbv beta iota.
  set (tools := t0 :: rest) in *.
  pose proof (each_updates_length (length tools) tools 0) as Hlen.
  split; [| split; [reflexivity |]].
  - cbn [length]. rewrite length_app, Hlen. simpl. lia.
  - split.
    + intros k tool_info Hk.
      destruct (each_updates_lookup (length tools) tools 0 k tool_info Hk) as [H1 H2].
      assert (Hlt : k < length tools) by by eapply lookup_lt_Some.
      replace (2 * k + 1) with (S (2 * k)) by lia.
      replace (2 * k + 2) with (S (2 * k + 1)) by lia.
      rewrite !lookup_cons_S, !lookup_app_l by lia.
      replace (k + 1) with (0 + k + 1) by lia. by split.
    + replace (2 * length tools + 1) with (S (2 * length tools)) by lia.
      rewrite lookup_cons_S, lookup_app_r by lia. rewrite Hlen, Nat.sub_diag. reflexivity.
Qed.

End Extras.


(** ** The progress, against the exact percentage *)

Lemma progress_of_at (i total : nat) :
  progress_of i total = progress_at (inject_Z (Z.of_nat i) / inject_Z (Z.of_nat total)).
Proof. reflexivity. Qed.

Lemma progress_at_mono (c d : Q) :
  (0 <= c)%Q → (c <= d)%Q → (progress_at c <= progress_at d)%Z.
Proof.
  intros Hc Hcd. unfold progress_at, Float64.mul.
  pose proof (Float64_facts.val_round_nonneg _ Hc) as Vc.
  pose proof (Float64_facts.val_round_mono _ _ Hc Hcd) as Vcd.
  assert (H100 : (0 < Float64.val (Float64.of_int 100))%Q) by reflexivity.
  apply Float64_facts.to_int_mono.
  - apply Float64_facts.val_round_nonneg. nra.
  - apply Float64_facts.val_round_mono; nra.
Qed.

Lemma percent_checks_100 : percent_checks 100 = true.
Proof. vm_compute. reflexivity. Qed.

Lemma percent_check (k : Z) :
  (0 <= k < 100)%Z →
  (k - 1 <= progress_at (inject_Z k / 100))%Z ∧
  (k <= progress_at (inject_Z k / 100 + eps40))%Z ∧
  (progress_at (inject_Z (k + 1) / 100 - eps40) <= k)%Z.
Proof.
  intros Hk. pose proof percent_checks_100 as H. unfold percent_checks in H.
  rewrite forallb_forall in H. specialize (H k).
  rewrite !andb_true_iff, !Z.leb_le in H. apply and_assoc, H.
  apply in_map_iff. exists (Z.to_nat k). split; [lia |]. apply in_seq. lia.
Qed.

Lemma inject_pos (n : Z) : (0 < n)%Z → (0 < inject_Z n)%Q.
Proof. intros H. change 0%Q with (inject_Z 0). rewrite <- Zlt_Qlt. exact H. Qed.

Lemma ratio_above (i total k : Z) :
  (0 < total)%Z → (total <= 2 ^ 32)%Z → (total * k + 1 <= 100 * i)%Z →
  (inject_Z k / 100 + eps40 <= inject_Z i / inject_Z total)%Q.
Proof.
  intros Ht Hbig Hk. pose proof (inject_pos total Ht) as Hq.
  apply Qle_shift_div_l; [exact Hq |].
  rewrite Zle_Qle in Hbig. change (inject_Z (2 ^ 32)) with 4294967296%Q in Hbig.
  rewrite Zle_Qle, inject_Z_plus, !inject_Z_mult in Hk.
  change (inject_Z 100) with 100%Q in Hk. change (inject_Z 1) with 1%Q in Hk.
  unfold Qdiv, eps40. change (/ 100)%Q with (1 # 100)%Q.
  generalize dependent (inject_Z total). generalize (inject_Z k) (inject_Z i).
  intros K I T Hbig H HT.
  assert (E : ((K * (1 # 100) + (1 # 1099511627776)) * T
               == (1 # 100) * (T * K) + (1 # 1099511627776) * T)%Q) by ring.
  rewrite E. lra.
Qed.

Lemma ratio_below (i total k : Z) :
  (0 < total)%Z → (total <= 2 ^ 32)%Z → (100 * i + 1 <= total * (k + 1))%Z →
  (inject_Z i / inject_Z total <= inject_Z (k + 1) / 100 - eps40)%Q.
Proof.
  intros Ht Hbig Hk. pose proof (inject_pos total Ht) as Hq.
  apply Qle_shift_div_r; [exact Hq |].
  rewrite Zle_Qle in Hbig. change (inject_Z (2 ^ 32)) with 4294967296%Q in Hbig.
  rewrite Zle_Qle, inject_Z_plus, !inject_Z_mult, inject_Z_plus in Hk.
  change (inject_Z 100) with 100%Q in Hk. change (inject_Z 1) with 1%Q in Hk.
  rewrite inject_Z_plus. change (inject_Z 1) with 1%Q.
  unfold Qdiv, eps40. change (/ 100)%Q with (1 # 100)%Q.
  generalize dependent (inject_Z total). generalize (inject_Z k) (inject_Z i).
  intros K I T Hbig H HT.
  assert (E : (((K + 1) * (1 # 100) - (1 # 1099511627776)) * T
               == (1 # 100) * (T * K) + (1 # 100) * T - (1 # 1099511627776) * T)%Q) by ring.
  assert (E' : (T * (K + 1) == T * K + T)%Q) by ring.
  assert (H' : (100 * I + 1 <= T * K + T)%Q) by (rewrite <- E'; exact H).
  rewrite E. lra.
Qed.

Lemma ratio_bounds (i total k : Z) :
  (0 < total)%Z → (total * k <= 100 * i)%Z →
  (inject_Z k / 100 <= inject_Z i / inject_Z total)%Q.
Proof.
  intros Ht Hk. pose proof (inject_pos total Ht) as Hq.
  apply Qle_shift_div_l; [exact Hq |].
  rewrite Zle_Qle, !inject_Z_mult in Hk.
  change (inject_Z 100) with 100%Q in Hk.
  unfold Qdiv. change (/ 100)%Q with (1 # 100)%Q.
  generalize dependent (inject_Z total). generalize (inject_Z k) (inject_Z i).
  intros K I T H HT.
  assert (E : (K * (1 # 100) * T == (1 # 100) * (T * K))%Q) by ring.
  rewrite E. lra.
Qed.

(** X20.  The progress written after [i] of [total_tools] tools, for a
    suite of at most [2 ^ 32] tools, is the exact percentage
    [100 * i / total_tools] rounded down, or one point less; it is one
    point less only when the exact percentage is a whole number (29 of
    100 tools give 28), and it is below 100 until the last tool is
    done. *)
Theorem progress_is_floor_or_one_less (i total_tools : nat) :
  i ≤ total_tools →
  0 < total_tools →
  (Z.of_nat total_tools <= 2 ^ 32)%Z →
  let percent := (100 * Z.of_nat i / Z.of_nat total_tools)%Z in
  (percent - 1 <= progress_of i total_tools <= percent)%Z ∧
  (((100 * Z.of_nat i) mod Z.of_nat total_tools)%Z ≠ 0%Z → progress_of i total_tools = percent) ∧
  (i < total_tools → (progress_of i total_tools <= 99)%Z).
Proof.
  intros Hi Ht Hbig percent.
  destruct (decide (i = total_tools)) as [-> | Hlt].
  { assert (percent = 100%Z) as ->.
    { subst percent. apply Z.div_mul. lia. }
    rewrite (progress_of_full total_tools Ht).
    split; [lia |]. split; [done | lia]. }
  set (n := Z.of_nat total_tools) in *. set (m := Z.of_nat i) in *.
  assert (Hn : (0 < n)%Z) by lia.
  assert (Hm : (0 <= m < n)%Z) by lia.
  pose proof (Z.mul_div_le (100 * m) n Hn) as Hlo.
  pose proof (Z.mul_succ_div_gt (100 * m) n Hn) as Hhi.
  fold percent in Hlo, Hhi.
  assert (Hk : (0 <= percent < 100)%Z).
  { split; [apply Z.div_pos; lia |]. apply Z.div_lt_upper_bound; lia. }
  destruct (percent_check percent Hk) as (Hone & Hnone & Hup).
  assert (Hkq : (0 <= inject_Z percent / 100)%Q).
  { apply Qle_shift_div_l; [reflexivity |]. rewrite Qmult_0_l.
    change 0%Q with (inject_Z 0). rewrite <- Zle_Qle. lia. }
  rewrite !progress_of_at. fold n m.
  assert (Hbelow : (progress_at (inject_Z m / inject_Z n) <= percent)%Z).
  { etrans; [| exact Hup]. apply progress_at_mono.
    - apply Qle_shift_div_l; [by apply inject_pos |]. rewrite Qmult_0_l.
      change 0%Q with (inject_Z 0). rewrite <- Zle_Qle. lia.
    - apply ratio_below; lia. }
  split; [split; [| exact Hbelow] | split; [| lia]].
  - etrans; [exact Hone |]. apply progress_at_mono; [exact Hkq |].
    apply ratio_bounds; lia.
  - intros Hmod. apply Z.le_antisymm; [exact Hbelow |].
    etrans; [exact Hnone |]. apply progress_at_mono.
    + unfold eps40. lra.
    + apply ratio_above; [lia | lia |].
      pose proof (Z.div_mod (100 * m) n ltac:(lia)) as Hdm. fold percent in Hdm.
      pose proof (Z.mod_pos_bound (100 * m) n Hn). lia.
Qed.
(** * The further properties at sample inputs *)

Lemma status_decided_by_checks_and_child_witness :
  ∃ r (evs : list (event one_failing)),
    emits (W:=one_failing) (test_tool (sample_tool "a")) (Ok r) evs ∧ status r = "fail".
Proof.
  destruct (status_decided_by_checks_and_child (W:=one_failing) (sample_fields "a")
              (AStr "a") (AStr "Tool a") "tools/a" eq_refl eq_refl eq_refl eq_refl eq_refl)
    as (r & evs & Hrun & _ & _ & Hfail).
  exists r, evs. split; [exact Hrun |]. apply Hfail. split.
  - intros (_ & out & err & H). vm_compute in H. discriminate H.
  - intros (_ & H). vm_compute in H. discriminate H.
Defined.

Lemma details_filled_by_completed_child_witness :
  ∃ r (evs : list (event one_failing)),
    emits (W:=one_failing) (test_tool (sample_tool "a")) (Ok r) evs ∧ details r ≠ ∅.
Proof.
  destruct (details_filled_by_completed_child (W:=one_failing) (sample_fields "a")
              (AStr "a") (AStr "Tool a") "tools/a" eq_refl eq_refl eq_refl eq_refl eq_refl)
    as (r & evs & Hrun & Hdetails & _).
  exists r, evs. split; [exact Hrun |]. apply Hdetails.
  split; [vm_compute; reflexivity |]. exists 3%Z, "out", "err". vm_compute. reflexivity.
Defined.

Lemma stderr_excerpt_logged_witness :
  ∃ r (evs : list (event one_failing)),
    emits (W:=one_failing) (test_tool (sample_tool "a")) (Ok r) evs ∧
    logged ERROR evs = ["✗ a test failed"; "Error output: err"].
Proof.
  destruct (stderr_excerpt_logged (W:=one_failing) (sample_fields "a")
              (AStr "a") (AStr "Tool a") "tools/a" 3 "out" "err"
              eq_refl eq_refl eq_refl eq_refl eq_refl eq_refl)
    as (r & evs & Hrun & _ & Hlog & _).
  exists r, evs. split; [exact Hrun | exact Hlog].
Defined.

(** The excerpt is cut by characters: of three two-byte characters, the
    first two are four bytes. *)
Example excerpt_counts_characters :
  py_len "éèà" = 3 ∧ String.length "éèà" = 6 ∧
  py_slice_to 2 "éèà" = "éè" ∧ String.length (py_slice_to 2 "éèà") = 4.
Proof. repeat split; vm_compute; reflexivity. Qed.

Lemma no_id_malformed : ¬ wf_tool no_id.
Proof. intros ([v Hv] & _). vm_compute in Hv. discriminate Hv. Qed.

Lemma malformed_entry_exception_witness :
  ∃ (evs : list (event two_passing)),
    emits (W:=two_passing) (test_tool no_id) (Raise (KeyError "id")) evs ∧ evs = [].
Proof.
  destruct (malformed_entry_exception (W:=two_passing) no_id no_id_malformed)
    as (e & evs & Hrun & _ & _ & _ & _ & _ & Hid & _).
  destruct (Hid (delete "id" (sample_fields "a")) eq_refl eq_refl) as [He Hevs].
  exists evs. rewrite <- He. split; [exact Hrun | exact Hevs].
Defined.

(** An entry that is a text, not an object, as a manifest whose [tools]
    is a list of names gives. *)
Example text_entry_raises :
  (@test_tool two_passing (NotObj (AStr "a")) new_engine).1
    = Raise (TypeError "string indices must be integers, not 'str'").
Proof. vm_compute. reflexivity. Qed.

Lemma test_tool_reads_three_keys_witness :
  test_tool (W:=two_passing) (sample_tool "a")
    = test_tool (Obj (<["enabled" := ABool false]> (sample_fields "a"))).
Proof.
  pose (disabled := <["enabled" := ABool false]> (sample_fields "a")).
  assert (Hid : sample_fields "a" !! "id" = disabled !! "id") by reflexivity.
  assert (Hp : sample_fields "a" !! "path" = disabled !! "path") by reflexivity.
  assert (Hname : sample_fields "a" !! "display_name" = disabled !! "display_name")
    by reflexivity.
  exact (proj1 (test_tool_reads_three_keys (W:=two_passing) (sample_fields "a") disabled
                  Hid Hp Hname)).
Defined.

Lemma self_test_touches_nothing_witness :
  ∃ evs : list (event two_passing),
    run (W:=two_passing) self_test new_engine = (Ok 0%Z, log_to new_engine evs) ∧
    status_updates evs = [test_mode_update] ∧ opened evs = [].
Proof.
  destruct (self_test_touches_nothing (W:=two_passing) self_test new_engine eq_refl eq_refl)
    as (evs & Hrun & Hup & Hopen & _).
  exists evs. split; [exact Hrun |]. split; [exact Hup | exact Hopen].
Defined.

(** When the status file cannot be written, the self-test ends with the
    exception of that write. *)
Example self_test_read_only :
  (run (W:=read_only_logs) self_test new_engine).1 = Raise denied.
Proof. vm_compute. reflexivity. Qed.

Lemma manifest_error_is_fatal_witness :
  ∃ evs : list (event broken_manifest),
    @main broken_manifest run_all = (Ok 1%Z, {| test_results := []; trace := evs |}) ∧
    sd_message <$> last_status evs = Some "Expecting value: line 1 column 1 (char 0)".
Proof.
  destruct (manifest_error_is_fatal (W:=broken_manifest) run_all
              (OtherError "Expecting value: line 1 column 1 (char 0)") eq_refl eq_refl
              (sample_world_status_writable _ _ _))
    as (evs & Hmain & Hlast & _).
  exists evs. split; [exact Hmain |]. rewrite Hlast. reflexivity.
Defined.

Lemma no_id_not_testable : ¬ testable (W:=second_malformed) no_id.
Proof. intros [Hwf _]. by apply no_id_malformed. Qed.

Lemma malformed_entry_aborts_suite_witness :
  ∃ e rs (evs : list (event second_malformed)),
    @main second_malformed run_all = (Ok 1%Z, {| test_results := rs; trace := evs |}) ∧
    length rs = 1 ∧
    last_status evs = Some (fatal_update e) ∧
    results_files evs = [].
Proof.
  destruct (malformed_entry_aborts_suite (W:=second_malformed) run_all
              [sample_tool "a"] no_id [sample_tool "c"]
              eq_refl eq_refl eq_refl
              (sample_tools_testable all_present (exits 0) _ ["a"])
              no_id_not_testable
              (sample_world_status_writable _ _ _))
    as (e & rs & evs & Hmain & Hall & _ & Hlast & Hres & _).
  exists e, rs, evs. split; [exact Hmain |].
  split; [symmetry; exact (Forall2_length _ _ _ Hall) |].
  split; [exact Hlast | exact Hres].
Defined.

(** A probe that raises ends the suite as well: the path of the first of
    two tools is too long. *)
Example raising_probe_aborts_suite :
  (@main long_path run_all).1 = Ok 1%Z ∧
  test_results (@main long_path run_all).2 = [] ∧
  last_status (trace (@main long_path run_all).2) = Some (fatal_update too_long).
Proof. repeat split; vm_compute; reflexivity. Qed.

Lemma single_tool_takes_first_match_witness :
  ∃ r (evs : list (event listed_twice)),
    @main listed_twice (run_one "b")
      = (Ok (exit_code [r]), {| test_results := [r]; trace := evs |}) ∧
    results_files evs = [[r]].
Proof.
  assert (Hpre : Forall (other_id "b") [sample_tool "a"]).
  { constructor; [| constructor]. exists (AStr "a"). split; reflexivity. }
  destruct (single_tool_takes_first_match (W:=listed_twice) (run_one "b") "b"
              [sample_tool "a"] (sample_fields "b") [no_id; sample_tool "b"]
              eq_refl eq_refl eq_refl Hpre eq_refl
              (sample_tool_testable all_present (exits 0) _ "b")
              (sample_world_status_writable _ _ _)
              (sample_world_results_writable _ _ _))
    as (r & evs & Hmain & _ & _ & Hres & _).
  exists r, evs. split; [exact Hmain | exact Hres].
Defined.

Lemma single_tool_idless_entry_fatal_witness :
  ∃ evs : list (event idless_first),
    @main idless_first (run_one "b") = (Ok 1%Z, {| test_results := []; trace := evs |}) ∧
    status_updates evs = [fatal_update (KeyError "id")].
Proof.
  destruct (single_tool_idless_entry_fatal (W:=idless_first) (run_one "b") "b"
              [] (delete "id" (sample_fields "a")) [sample_tool "b"]
              eq_refl eq_refl eq_refl (Forall_nil_2 _) eq_refl eq_refl)
    as (evs & Hmain & Hup & _).
  exists evs. split; [exact Hmain | exact Hup].
Defined.

Lemma missing_manifest_means_no_tools_witness :
  ∃ evs : list (event missing_manifest),
    @main missing_manifest run_all = (Ok 0%Z, {| test_results := []; trace := evs |}) ∧
    logged ERROR evs = ["Studio config not found: studio_config.json";
                        "No tools found in studio_config.json"].
Proof.
  destruct (missing_manifest_means_no_tools (W:=missing_manifest) run_all (Sequence [])
              eq_refl eq_refl eq_refl eq_refl (sample_world_status_writable _ _ _))
    as (evs & Hmain & _ & Hlog & _).
  exists evs. split; [exact Hmain | exact Hlog].
Defined.

(** [null] under [tools] is no tool; a number other than 0 is a fatal
    error, [len] being asked of it. *)
Example null_and_number_for_tools :
  (@main null_tools run_all).1 = Ok 0%Z ∧
  last_status (trace (@main null_tools run_all).2) = Some no_tools_update ∧
  (@main number_for_tools run_all).1 = Ok 1%Z ∧
  last_status (trace (@main number_for_tools run_all).2)
    = Some (fatal_update (TypeError "object of type 'int' has no len()")).
Proof. repeat split; vm_compute; reflexivity. Qed.

Lemma summary_counts_follow_manifest_witness :
  ∃ rs (evs : list (event mixed_suite)),
    @main mixed_suite run_all
      = (Ok (exit_code rs), {| test_results := rs; trace := evs |}) ∧
    count_status "pass" rs = 1 ∧
    count_status "skip" rs = 1 ∧
    count_status "pass" rs + count_status "fail" rs + count_status "skip" rs = 3.
Proof.
  destruct (summary_counts_follow_manifest (W:=mixed_suite) run_all
              (sample_tool <$> ["a"; "b"; "c"]) eq_refl eq_refl eq_refl
              (sample_tools_testable _ _ _ ["a"; "b"; "c"])
              (sample_world_status_writable _ _ _)
              (sample_world_results_writable _ _ _))
    as (rs & evs & Hmain & Hpass & Hskip & Hsum & _).
  exists rs, evs. split; [exact Hmain |].
  split; [rewrite Hpass; vm_compute; reflexivity |].
  split; [rewrite Hskip; vm_compute; reflexivity | exact Hsum].
Defined.

Lemma gui_only_suite_completes_witness :
  ∃ rs (evs : list (event two_gui_only)),
    @main two_gui_only run_all = (Ok 0%Z, {| test_results := rs; trace := evs |}) ∧
    length rs = 2 ∧
    spawns evs = [].
Proof.
  assert (Hgui : Forall (λ t, gui_only (W:=two_gui_only) t = true)
                   (sample_tool <$> ["a"; "b"])).
  { repeat (constructor; [vm_compute; reflexivity |]). constructor. }
  assert (Hne : sample_tool <$> ["a"; "b"] ≠ []) by discriminate.
  destruct (gui_only_suite_completes (W:=two_gui_only) run_all
              (sample_tool <$> ["a"; "b"]) eq_refl eq_refl eq_refl
              (sample_tools_testable _ _ _ ["a"; "b"])
              (sample_world_status_writable _ _ _)
              (sample_world_results_writable _ _ _) Hgui Hne)
    as (rs & evs & Hmain & Hlen & _ & Hspawns & _).
  exists rs, evs. split; [exact Hmain |]. split; [exact Hlen | exact Hspawns].
Defined.

Lemma suite_footprint_witness :
  ∃ rs (evs : list (event two_passing)),
    @main two_passing run_all
      = (Ok (exit_code rs), {| test_results := rs; trace := evs |}) ∧
    opened evs = ["studio_config.json"] ∧
    length (spawns evs) ≤ 2.
Proof.
  destruct (suite_footprint (W:=two_passing) run_all
              (sample_tool <$> ["a"; "b"]) eq_refl eq_refl eq_refl
              (sample_tools_testable _ _ _ ["a"; "b"])
              (sample_world_status_writable _ _ _)
              (sample_world_results_writable _ _ _))
    as (rs & evs & Hmain & Hopen & _ & _ & _ & Hspawns & _).
  exists rs, evs. split; [exact Hmain |]. split; [exact Hopen | exact Hspawns].
Defined.

(** A command line the parser refuses ends the process with status 2,
    before an engine exists. *)
Example refused_command_line :
  Cli.ended
    (Cli.main
       (@Cli.Build_invocation two_passing
          (ParserExit 2
             ["usage: engine.py [-h] --config CONFIG [--tool TOOL] [--test]";
              "engine.py: error: the following arguments are required: --config"])
          OwnConfigLoaded None "logs/tool_tester.log"))
    = Exit 2.
Proof. reflexivity. Qed.

Lemma progress_is_floor_or_one_less_witness :
  (29 - 1 <= progress_of 29 100 <= 29)%Z ∧ (progress_of 29 100 <= 99)%Z.
Proof.
  assert (H1 : 29 ≤ 100) by lia.
  assert (H2 : 0 < 100) by lia.
  assert (H3 : (Z.of_nat 100 <= 2 ^ 32)%Z) by (vm_compute; discriminate).
  destruct (progress_is_floor_or_one_less 29 100 H1 H2 H3) as (Hfloor & _ & Hlast).
  split; [exact Hfloor | apply Hlast; lia].
Defined.

Lemma single_run_agrees_with_suite_witness :
  ∃ r rs (evs evs' : list (event two_passing)),
    @main two_passing (run_one "b")
      = (Ok (exit_code [r]), {| test_results := [r]; trace := evs |}) ∧
    @main two_passing run_all
      = (Ok (exit_code rs), {| test_results := rs; trace := evs' |}) ∧
    rs !! 1 = Some r.
Proof.
  assert (Hpre : Forall (other_id "b") (take 1 (sample_tool <$> ["a"; "b"]))).
  { constructor; [| constructor]. exists (AStr "a"). split; reflexivity. }
  exact (single_run_agrees_with_suite (W:=two_passing) (run_one "b") run_all "b"
           (sample_tool <$> ["a"; "b"]) 1 (sample_tool "b")
           eq_refl eq_refl eq_refl eq_refl eq_refl
           (sample_tools_testable _ _ _ ["a"; "b"])
           (sample_world_status_writable _ _ _)
           (sample_world_results_writable _ _ _)
           eq_refl eq_refl Hpre).
Defined.

Lemma message_names_failed_check_witness :
  ∃ r (evs : list (event one_gui_only)),
    emits (W:=one_gui_only) (test_tool (sample_tool "a")) (Ok r) evs ∧
    message r = "No engine.py found (GUI-only tool)".
Proof.
  destruct (message_names_failed_check (W:=one_gui_only) (sample_fields "a")
              (AStr "a") (AStr "Tool a") "tools/a" eq_refl eq_refl eq_refl eq_refl eq_refl)
    as (r & evs & Hrun & _ & Hengine & _).
  exists r, evs. split; [exact Hrun |]. apply Hengine. split; vm_compute; reflexivity.
Defined.

Lemma suite_status_sequence_witness :
  ∃ rs (evs : list (event two_passing)),
    @main two_passing run_all
      = (Ok (exit_code rs), {| test_results := rs; trace := evs |}) ∧
    length (status_updates evs) = 6 ∧
    status_updates evs !! 5 = Some (summary_update rs).
Proof.
  assert (Hne : sample_tool <$> ["a"; "b"] ≠ []) by discriminate.
  destruct (suite_status_sequence (W:=two_passing) run_all
              (sample_tool <$> ["a"; "b"]) eq_refl eq_refl eq_refl
              (sample_tools_testable _ _ _ ["a"; "b"])
              (sample_world_status_writable _ _ _)
              (sample_world_results_writable _ _ _) Hne)
    as (rs & evs & Hmain & Hlen & _ & _ & Hlast).
  exists rs, evs. split; [exact Hmain |]. split; [exact Hlen | exact Hlast].
Defined.

(** * The window and the engine *)

Lemma as_dict_status (r : TestResult) :
  as_dict r !! "status" = Some (PAtom (AStr (status r))).
Proof. reflexivity. Qed.

Lemma sum_status_as_dict (st : string) (rs : list TestResult) :
  Gui.sum_status st (as_dict <$> rs) = inr (count_status st rs).
Proof.
  induction rs as [| r rest IH]; [reflexivity |].
  rewrite fmap_cons. cbn [Gui.sum_status]. rewrite as_dict_status, IH.
  unfold count_status. rewrite filter_cons. simpl.
  case_bool_decide; case_decide; try done; congruence.
Qed.

(** X21.  The status file round trip: a poll of the window that reads a
    document written by [update_status] sets the progress bar to the
    progress of that status and the status label to its message; the
    [status] and [timestamp] keys are not shown. *)
Theorem status_poll_round_trip (sd : status_data) (timestamp : string) :
  Gui.check_status (Gui.StatusDocument (status_json sd timestamp))
    = [Gui.progress_bar_setValue (AInt (sd_progress sd));
       Gui.lbl_status_setText (AStr (sd_message sd))].
Proof. reflexivity. Qed.

(** X22.  The results file round trip: when the window loads a results
    file written by [generate_summary], its three counters show the
    counts of the engine's summary, and the message box it ends with is
    "Tests Passed" exactly when the engine's completion code for these
    results is 0, "Tests Failed" otherwise; no exception is raised. *)
Theorem results_file_round_trip (rs : list TestResult) :
  let passed := count_status "pass" rs in
  let failed := count_status "fail" rs in
  let skipped := count_status "skip" rs in
  Gui.load_test_results (Gui.ResultsDocument (as_dict <$> rs))
    = ([Gui.test_results_assign (as_dict <$> rs);
        Gui.lbl_passed_setText (Gui.passed_text passed);
        Gui.lbl_failed_setText (Gui.failed_text failed);
        Gui.lbl_skipped_setText (Gui.skipped_text skipped);
        Gui.completion_box passed failed skipped], None) ∧
  (exit_code rs = 0%Z ↔
     ∃ text, Gui.completion_box passed failed skipped
             = Gui.QMessageBox_information "Tests Passed" text) ∧
  (exit_code rs = 1%Z ↔
     ∃ text, Gui.completion_box passed failed skipped
             = Gui.QMessageBox_warning "Tests Failed" text).
Proof.
  intros passed failed skipped. split.
  - unfold Gui.load_test_results. by rewrite !sum_status_as_dict.
  - unfold Gui.completion_box, exit_code. fold failed.
    case_bool_decide; split; split; try done; try (by eexists); by intros [? ?].
Qed.

Section Window.
Context {W : World}.

(** X23.  When the engine's process has ended the window sets the
    progress bar to 100 and chooses its status label by the completion
    code alone: the success label for code 0, the failure label
    otherwise.  With what [main] leaves in the status file when it
    returns this gives: after a last status [completed] or [test_mode]
    the label reports success, after [completed_with_errors] failure;
    after a last status [error] the label reports success whenever the
    code is 0, as it is for an empty manifest and for an unknown tool
    id.  [main] returns unless the status of a fatal error cannot be
    written. *)
Theorem finish_label_follows_code (a : args) (latest : Gui.latest_file) :
  ∃ o rs (evs : list (event W)),
    main a = (o, {| test_results := rs; trace := evs |}) ∧
    match o with
    | Ok code =>
        ∃ sd, last_status evs = Some sd ∧
          let calls := (Gui.on_testing_finished code latest).1 in
          Gui.progress_bar_setValue (AInt 100) ∈ calls ∧
          (code = 0%Z → Gui.lbl_status_setText (AStr Gui.success_label) ∈ calls) ∧
          (code ≠ 0%Z → Gui.lbl_status_setText (AStr Gui.failure_label) ∈ calls) ∧
          (sd_status sd = "completed" ∨ sd_status sd = "test_mode" →
             Gui.lbl_status_setText (AStr Gui.success_label) ∈ calls) ∧
          (sd_status sd = "completed_with_errors" →
             Gui.lbl_status_setText (AStr Gui.failure_label) ∈ calls) ∧
          (sd_status sd = "error" → code = 0%Z →
             Gui.lbl_status_setText (AStr Gui.success_label) ∈ calls)
    | Raise e => ∃ e', status_write W (fatal_update e') = Some e
    end.
Proof.
  destruct (status_agreement (W:=W) a) as (o & rs & evs & Hmain & Hcase).
  exists o, rs, evs. split; [exact Hmain |].
  destruct o as [code | e]; [| by destruct Hcase].
  destruct Hcase as (sd & Hlast & Hok & Htest & Hbad & _).
  exists sd. split; [exact Hlast |].
  unfold Gui.on_testing_finished. cbn [fst].
  assert (Hzero : code = 0%Z →
            Gui.lbl_status_setText (AStr Gui.success_label)
              ∈ (Gui.on_testing_finished code latest).1).
  { intros ->. unfold Gui.on_testing_finished. cbn [fst].
    rewrite bool_decide_eq_true_2 by done.
    apply elem_of_app. right. apply elem_of_app. left. apply elem_of_cons. by left. }
  assert (Hnonzero : code ≠ 0%Z →
            Gui.lbl_status_setText (AStr Gui.failure_label)
              ∈ (Gui.on_testing_finished code latest).1).
  { intros Hne. unfold Gui.on_testing_finished. cbn [fst].
    rewrite bool_decide_eq_false_2 by done.
    apply elem_of_app. right. apply elem_of_app. left. apply elem_of_cons. by left. }
  split; [| split; [exact Hzero | split; [exact Hnonzero | split; [| split]]]].
  - apply elem_of_app. left. rewrite !elem_of_cons. auto 10.
  - intros [Hst | Hst]; apply Hzero; auto.
  - intros Hst. apply Hnonzero. rewrite (Hbad Hst). done.
  - intros _. exact Hzero.
Qed.

(** X24.  The command [start_testing] starts runs the engine of the tool
    tester with its own interpreter in its own directory.  It carries
    [--tool <id>] exactly when one id is given; with no id, an empty list
    or several ids it is the command of the full suite, so that a
    selection of several tools tests every registered tool. *)
Theorem start_testing_command (base_path : Path W) (tool_ids : list string) :
  let started arguments :=
    Gui.test_process_start
      (path_str W (path_div W (path_div W (path_div W base_path ".venv") "Scripts")
                     "python.exe"))
      arguments (path_str W base_path) in
  let config := path_str W (path_div W base_path "config.json") in
  (∀ tool_id,
     started ["engine.py"; "--config"; config; "--tool"; tool_id]
       ∈ Gui.start_testing base_path (Some [tool_id])) ∧
  (length tool_ids ≠ 1 →
     started ["engine.py"; "--config"; config]
       ∈ Gui.start_testing base_path (Some tool_ids)) ∧
  started ["engine.py"; "--config"; config] ∈ Gui.start_testing base_path None.
Proof.
  intros started config. unfold Gui.start_testing, Gui.base_command.
  split; [| split].
  - intros tool_id. simpl. rewrite !elem_of_cons. auto 10.
  - intros Hlen. destruct tool_ids as [| id0 [| id1 rest]]; [| done |].
    + simpl. rewrite !elem_of_cons. auto 10.
    + rewrite bool_decide_eq_false_2 by done. simpl. rewrite !elem_of_cons. auto 10.
  - simpl. rewrite !elem_of_cons. auto 10.
Qed.

End Window.
